(** * Frame: multi-terminal session core

    A shallow embedding of the two halves of Frame's terminal session
    management and the properties of its specification:

    - [PtyManager]: [src/main/ptyManager.js], the process-side registry of
      pseudo-terminals (main process);
    - [TerminalManager]: [src/renderer/terminalManager.js], the renderer-side
      session store with its per-project persistence in [localStorage];
    - [Frame]: both halves joined by the IPC channels they exchange;
    - [PtyHost]: what the registry reads of its host and the requests the
      main process serves ([src/main/ptyManager.js], [src/main/index.js]);
    - [MultiTerminalUI], [Terminal], [TerminalTabBar], [TerminalGrid]: the
      callers of the store in the renderer ([src/renderer/multiTerminalUI.js],
      [src/renderer/terminal.js], [src/renderer/terminalTabBar.js],
      [src/renderer/terminalGrid.js]).

    JavaScript values are modelled as follows.  A [string | null] is an
    [option string]; a [Map] is a list in insertion order whose entries are
    keyed by their [id] field; the JSON object kept in [localStorage] is a
    [gmap]; [Date.now()] is an input of the operation that reads it; calls on
    collaborators (the [onStateChange] observer, [ipcRenderer.send],
    [pty.write], ...) are recorded in traces. *)

From Stdlib Require Import ZArith Lia DecimalString DecimalNat Sorted.
From stdpp Require Import base option list gmap strings.

Local Open Scope Z_scope.

(** ** JavaScript helpers *)

Module Js.

(** Truthiness of a string: only the empty string is falsy. *)
Definition truthy_string (s : string) : bool :=
  match s with
  | EmptyString => false
  | String _ _ => true
  end.

(** Truthiness of a [string | null]. *)
Definition truthy (v : option string) : bool :=
  match v with
  | Some s => truthy_string s
  | None => false
  end.

(** [a || b] on [string | null] operands. *)
Definition or_else (a b : option string) : option string :=
  if truthy a then a else b.

(** [a || d] where [d] is a string literal. *)
Definition or_default (a : option string) (d : string) : string :=
  match a with
  | Some s => if truthy_string s then s else d
  | None => d
  end.

(** Template literal interpolation of a counter. *)
Definition string_of_nat (n : nat) : string :=
  NilEmpty.string_of_uint (Nat.to_uint n).

End Js.

(** ** Insertion-ordered maps keyed by an [id] field

    [new Map()] iterates in insertion order; [set] on a present key replaces
    the value in place, on a new key appends; [delete] removes the key.  The
    entries of both maps of the program carry their own key. *)

Module JsMap.
Section WithEntry.
Context {A : Type} (key : A -> string).

Definition has_key (k : string) (a : A) : bool := bool_decide (key a = k).

Definition get (k : string) (m : list A) : option A :=
  find (has_key k) m.

Definition has (k : string) (m : list A) : bool :=
  match get k m with Some _ => true | None => false end.

Fixpoint set (a : A) (m : list A) : list A :=
  match m with
  | [] => [a]
  | b :: m' => if has_key (key a) b then a :: m' else b :: set a m'
  end.

Definition delete (k : string) (m : list A) : list A :=
  filter (fun a => key a <> k) m.

(** In-place mutation of the entry found by [get]. *)
Fixpoint update (k : string) (f : A -> A) (m : list A) : list A :=
  match m with
  | [] => []
  | a :: m' => if has_key k a then f a :: m' else a :: update k f m'
  end.

Definition size (m : list A) : nat := length m.

Definition keys (m : list A) : list string := map key m.

(** Representation invariant: a [Map] holds each key once. *)
Definition wf (m : list A) : Prop := NoDup (keys m).

End WithEntry.
End JsMap.

(** ** IPC channels ([src/shared/ipcChannels.js]) used by the session core *)

Module IPC.

(** The payload of [TERMINAL_CREATE]: the legacy format (a working
    directory), the object [{ cwd, projectPath }], or anything else. *)
Inductive CreateData : Type :=
| LegacyString (workingDir : string)
| CreateObject (cwd projectPath : option string)
| NoData.

(** Renderer to main. *)
Inductive ToMain : Type :=
| TERMINAL_CREATE (data : CreateData)
| TERMINAL_DESTROY (terminalId : string)
| TERMINAL_INPUT_ID (terminalId data : string)
| TERMINAL_RESIZE_ID (terminalId : string) (cols rows : Z).

(** Main to renderer.  [TERMINAL_CREATED] carries either
    [{ terminalId, success: true }] or [{ success: false, error }]. *)
Inductive ToRenderer : Type :=
| TERMINAL_CREATED (response : string + string)
| TERMINAL_OUTPUT_ID (terminalId data : string)
| TERMINAL_DESTROYED (terminalId : string) (exitCode : Z).

End IPC.

(** ** The PTY registry ([src/main/ptyManager.js]) *)

Module PtyManager.

Definition MAX_TERMINALS : nat := 9.

(** An entry of [ptyInstances].  The node-pty process is seen through the
    calls made on it: the data written and its current size. *)
Record PtyInstance : Type := {
  terminalId : string;
  cwd : option string;
  projectPath : option string;
  written : list string;
  cols : Z;
  rows : Z
}.

Record State : Type := {
  ptyInstances : list PtyInstance;
  terminalCounter : nat;
  (** [mainWindow && !mainWindow.isDestroyed()] *)
  windowAlive : bool;
  (** [process.env.HOME || process.env.USERPROFILE] *)
  home : option string;
  (** processes on which [pty.kill()] was called and whose exit event is
      still to come, oldest first *)
  killed : list string;
  (** messages passed to [webContents.send] or [event.reply] and not yet
      delivered, oldest first *)
  sent : list IPC.ToRenderer
}.

Definition initial (h : option string) : State :=
  {| ptyInstances := []; terminalCounter := 0; windowAlive := true;
     home := h; killed := []; sent := [] |}.

Definition with_instances (l : list PtyInstance) (st : State) : State :=
  {| ptyInstances := l; terminalCounter := terminalCounter st;
     windowAlive := windowAlive st; home := home st;
     killed := killed st; sent := sent st |}.

Definition with_counter (n : nat) (st : State) : State :=
  {| ptyInstances := ptyInstances st; terminalCounter := n;
     windowAlive := windowAlive st; home := home st;
     killed := killed st; sent := sent st |}.

Definition kill (k : string) (st : State) : State :=
  {| ptyInstances := ptyInstances st; terminalCounter := terminalCounter st;
     windowAlive := windowAlive st; home := home st;
     killed := killed st ++ [k]; sent := sent st |}.

(** [event.reply(...)] *)
Definition reply (m : IPC.ToRenderer) (st : State) : State :=
  {| ptyInstances := ptyInstances st; terminalCounter := terminalCounter st;
     windowAlive := windowAlive st; home := home st;
     killed := killed st; sent := sent st ++ [m] |}.

(** [if (mainWindow && !mainWindow.isDestroyed()) mainWindow.webContents.send(...)] *)
Definition send (m : IPC.ToRenderer) (st : State) : State :=
  if windowAlive st then reply m st else st.

Definition with_queues (k : list string) (q : list IPC.ToRenderer) (st : State)
  : State :=
  {| ptyInstances := ptyInstances st; terminalCounter := terminalCounter st;
     windowAlive := windowAlive st; home := home st;
     killed := k; sent := q |}.

(** Exceptions thrown by the module's functions. *)
Inductive Error : Type :=
| MaxTerminalLimitReached (limit : nat)
| SpawnFailed.

(** Error message of [new Error(...)] as sent back on [TERMINAL_CREATED]. *)
Definition message (e : Error) : string :=
  match e with
  | MaxTerminalLimitReached n =>
      "Maximum terminal limit (" +:+ Js.string_of_nat n +:+ ") reached"
  | SpawnFailed => "spawn failed"
  end.

(** A call either returns or throws; the state it leaves is kept in both
    cases. *)
Definition M (A : Type) : Type := State -> (Error + A) * State.

Definition ret {A} (a : A) : M A := fun st => (inr a, st).
Definition throw {A} (e : Error) : M A := fun st => (inl e, st).
Definition bind {A B} (m : M A) (f : A -> M B) : M B :=
  fun st =>
    match m st with
    | (inl e, st') => (inl e, st')
    | (inr a, st') => f a st'
    end.
Definition gets {A} (f : State -> A) : M A := fun st => (inr (f st), st).
Definition modify (f : State -> State) : M unit := fun st => (inr tt, f st).

Notation "x <- m ;; k" := (bind m (fun x => k))
  (at level 100, m at next level, right associativity).
Notation "m ;;; k" := (bind m (fun _ => k))
  (at level 100, right associativity).

Definition size (st : State) : nat := JsMap.size (ptyInstances st).

(** [createTerminal(workingDir, projectPath)].  [spawns] tells whether
    [pty.spawn] returns a process ([true]) or throws. *)
Definition createTerminal (spawns : bool) (workingDir projectPath : option string)
  : M string :=
  n <- gets size ;;
  if (MAX_TERMINALS <=? n)%nat then throw (MaxTerminalLimitReached MAX_TERMINALS)
  else
    c <- gets terminalCounter ;;
    modify (with_counter (S c)) ;;;
    let tid := "term-" +:+ Js.string_of_nat (S c) in
    h <- gets home ;;
    let dir := Js.or_else workingDir h in
    if spawns then
      modify (fun st =>
        with_instances
          (JsMap.set terminalId
             {| terminalId := tid; cwd := dir; projectPath := projectPath;
                written := []; cols := 80; rows := 24 |}
             (ptyInstances st)) st) ;;;
      ret tid
    else throw SpawnFailed.

(** The [ptyProcess.onExit] callback of terminal [tid]. *)
Definition onExit (tid : string) (exitCode : Z) (st : State) : State :=
  send (IPC.TERMINAL_DESTROYED tid exitCode)
    (with_instances (JsMap.delete terminalId tid (ptyInstances st)) st).

Definition getTerminalsByProject (p : option string) (st : State) : list string :=
  map terminalId
    (filter (fun i => projectPath i = p) (ptyInstances st)).

Definition writeToTerminal (tid data : string) : M unit :=
  l <- gets ptyInstances ;;
  match JsMap.get terminalId tid l with
  | Some _ =>
      modify (with_instances
        (JsMap.update terminalId tid
           (fun i => {| terminalId := terminalId i; cwd := cwd i;
                        projectPath := projectPath i;
                        written := written i ++ [data];
                        cols := cols i; rows := rows i |}) l))
  | None => ret tt
  end.

Definition resizeTerminal (tid : string) (c r : Z) : M unit :=
  l <- gets ptyInstances ;;
  match JsMap.get terminalId tid l with
  | Some _ =>
      modify (with_instances
        (JsMap.update terminalId tid
           (fun i => {| terminalId := terminalId i; cwd := cwd i;
                        projectPath := projectPath i;
                        written := written i; cols := c; rows := r |}) l))
  | None => ret tt
  end.

Definition destroyTerminal (tid : string) : M unit :=
  l <- gets ptyInstances ;;
  match JsMap.get terminalId tid l with
  | Some _ =>
      modify (kill tid) ;;;
      modify (fun st =>
        with_instances (JsMap.delete terminalId tid (ptyInstances st)) st)
  | None => ret tt
  end.

Definition destroyAll : M unit :=
  l <- gets ptyInstances ;;
  modify (fun st => fold_left (fun s i => kill (terminalId i) s) l st) ;;;
  modify (with_instances []).

Definition getTerminalCount (st : State) : nat := size st.

Definition getTerminalIds (st : State) : list string :=
  JsMap.keys terminalId (ptyInstances st).

Definition hasTerminal (tid : string) (st : State) : bool :=
  JsMap.has terminalId tid (ptyInstances st).

(** The working directory and project path the creation handler reads
    from its payload; both stay [null] when it is neither a string nor an
    object. *)
Definition createArgs (data : IPC.CreateData) : option string * option string :=
  match data with
  | IPC.LegacyString workingDir => (Some workingDir, None)
  | IPC.CreateObject cwd projectPath => (cwd, projectPath)
  | IPC.NoData => (None, None)
  end.

(** The [ipcMain.on] handlers of [setupIPC].  Only the creation handler
    catches; the others would let an exception escape. *)
Definition handle (spawns : bool) (m : IPC.ToMain) : M unit :=
  match m with
  | IPC.TERMINAL_CREATE data =>
      fun st =>
        match createTerminal spawns (createArgs data).1 (createArgs data).2 st with
        | (inr tid, st') =>
            (inr tt, reply (IPC.TERMINAL_CREATED (inl tid)) st')
        | (inl e, st') =>
            (inr tt, reply (IPC.TERMINAL_CREATED (inr (message e))) st')
        end
  | IPC.TERMINAL_DESTROY tid => destroyTerminal tid
  | IPC.TERMINAL_INPUT_ID tid data => writeToTerminal tid data
  | IPC.TERMINAL_RESIZE_ID tid c r => resizeTerminal tid c r
  end.

End PtyManager.

(** ** The session store ([src/renderer/terminalManager.js]) *)

Module TerminalManager.

Definition SESSION_STORAGE_KEY : string := "frame-terminal-sessions".
Definition GLOBAL_PROJECT_KEY : string := "__global__".

(** The [state] object of an entry of [this.terminals].  The xterm widget,
    its fit addon and its DOM element hold nothing these operations read. *)
Record TerminalState : Type := {
  id : string;
  name : string;
  customName : option string;
  isActive : bool;
  createdAt : Z;
  projectPath : option string
}.

(** The record saved per project under [SESSION_STORAGE_KEY]. *)
Record SessionData : Type := {
  savedActiveTerminalId : option string;
  savedViewMode : string;
  savedGridLayout : string;
  terminalNames : gmap string string
}.

(** What [localStorage.getItem(SESSION_STORAGE_KEY)] holds: nothing, a text
    that [JSON.parse] rejects, or the object written by [JSON.stringify]. *)
Inductive StorageItem : Type :=
| Missing
| Malformed
| Stored (allSessions : gmap string SessionData).

(** The argument of the [onStateChange] observer. *)
Record Snapshot : Type := {
  seenTerminals : list TerminalState;
  seenActiveTerminalId : option string;
  seenViewMode : string;
  seenGridLayout : string;
  seenCurrentProjectPath : option string
}.

(** The [options] argument of [createTerminal]; [optProjectPath = None] is
    [undefined]. *)
Record Options : Type := {
  optCwd : option string;
  optProjectPath : option (option string);
  optName : option string
}.

(** A listener registered on [TERMINAL_CREATED] by a pending
    [createTerminal] call, with the values its closure captured. *)
Record Listener : Type := {
  heldOptions : Options;
  heldProjectPath : option string;
  heldWorkingDir : option string
}.

(** How the promise returned by [createTerminal] settles. *)
Inductive Settled : Type :=
| ResolvedNull
| Resolved (terminalId : string)
| Rejected (error : string).

Record T : Type := {
  terminals : list TerminalState;
  activeTerminalId : option string;
  viewMode : string;
  gridLayout : string;
  maxTerminals : nat;
  terminalCounter : nat;
  (** whether an observer is installed in [this.onStateChange] *)
  onStateChange : bool;
  currentProjectPath : option string;
  localStorage : StorageItem;
  (** listeners on [TERMINAL_CREATED], in registration order *)
  listeners : list Listener;
  (** calls of the observer, latest first *)
  notified : list Snapshot;
  (** messages passed to [ipcRenderer.send] and not yet delivered, oldest
      first *)
  outbox : list IPC.ToMain
}.

(** [new TerminalManager()] *)
Definition constructor (store : StorageItem) : T :=
  {| terminals := []; activeTerminalId := None; viewMode := "tabs";
     gridLayout := "2x2"; maxTerminals := 9; terminalCounter := 0;
     onStateChange := false; currentProjectPath := None;
     localStorage := store; listeners := []; notified := []; outbox := [] |}.

Definition with_terminals (l : list TerminalState) (tm : T) : T :=
  {| terminals := l; activeTerminalId := activeTerminalId tm;
     viewMode := viewMode tm; gridLayout := gridLayout tm;
     maxTerminals := maxTerminals tm; terminalCounter := terminalCounter tm;
     onStateChange := onStateChange tm;
     currentProjectPath := currentProjectPath tm;
     localStorage := localStorage tm; listeners := listeners tm;
     notified := notified tm; outbox := outbox tm |}.

Definition with_activeTerminalId (a : option string) (tm : T) : T :=
  {| terminals := terminals tm; activeTerminalId := a;
     viewMode := viewMode tm; gridLayout := gridLayout tm;
     maxTerminals := maxTerminals tm; terminalCounter := terminalCounter tm;
     onStateChange := onStateChange tm;
     currentProjectPath := currentProjectPath tm;
     localStorage := localStorage tm; listeners := listeners tm;
     notified := notified tm; outbox := outbox tm |}.

Definition with_viewMode (v : string) (tm : T) : T :=
  {| terminals := terminals tm; activeTerminalId := activeTerminalId tm;
     viewMode := v; gridLayout := gridLayout tm;
     maxTerminals := maxTerminals tm; terminalCounter := terminalCounter tm;
     onStateChange := onStateChange tm;
     currentProjectPath := currentProjectPath tm;
     localStorage := localStorage tm; listeners := listeners tm;
     notified := notified tm; outbox := outbox tm |}.

Definition with_gridLayout (g : string) (tm : T) : T :=
  {| terminals := terminals tm; activeTerminalId := activeTerminalId tm;
     viewMode := viewMode tm; gridLayout := g;
     maxTerminals := maxTerminals tm; terminalCounter := terminalCounter tm;
     onStateChange := onStateChange tm;
     currentProjectPath := currentProjectPath tm;
     localStorage := localStorage tm; listeners := listeners tm;
     notified := notified tm; outbox := outbox tm |}.

Definition with_terminalCounter (n : nat) (tm : T) : T :=
  {| terminals := terminals tm; activeTerminalId := activeTerminalId tm;
     viewMode := viewMode tm; gridLayout := gridLayout tm;
     maxTerminals := maxTerminals tm; terminalCounter := n;
     onStateChange := onStateChange tm;
     currentProjectPath := currentProjectPath tm;
     localStorage := localStorage tm; listeners := listeners tm;
     notified := notified tm; outbox := outbox tm |}.

Definition with_onStateChange (b : bool) (tm : T) : T :=
  {| terminals := terminals tm; activeTerminalId := activeTerminalId tm;
     viewMode := viewMode tm; gridLayout := gridLayout tm;
     maxTerminals := maxTerminals tm; terminalCounter := terminalCounter tm;
     onStateChange := b;
     currentProjectPath := currentProjectPath tm;
     localStorage := localStorage tm; listeners := listeners tm;
     notified := notified tm; outbox := outbox tm |}.

Definition with_currentProjectPath (p : option string) (tm : T) : T :=
  {| terminals := terminals tm; activeTerminalId := activeTerminalId tm;
     viewMode := viewMode tm; gridLayout := gridLayout tm;
     maxTerminals := maxTerminals tm; terminalCounter := terminalCounter tm;
     onStateChange := onStateChange tm;
     currentProjectPath := p;
     localStorage := localStorage tm; listeners := listeners tm;
     notified := notified tm; outbox := outbox tm |}.

Definition with_localStorage (i : StorageItem) (tm : T) : T :=
  {| terminals := terminals tm; activeTerminalId := activeTerminalId tm;
     viewMode := viewMode tm; gridLayout := gridLayout tm;
     maxTerminals := maxTerminals tm; terminalCounter := terminalCounter tm;
     onStateChange := onStateChange tm;
     currentProjectPath := currentProjectPath tm;
     localStorage := i; listeners := listeners tm;
     notified := notified tm; outbox := outbox tm |}.

Definition with_listeners (l : list Listener) (tm : T) : T :=
  {| terminals := terminals tm; activeTerminalId := activeTerminalId tm;
     viewMode := viewMode tm; gridLayout := gridLayout tm;
     maxTerminals := maxTerminals tm; terminalCounter := terminalCounter tm;
     onStateChange := onStateChange tm;
     currentProjectPath := currentProjectPath tm;
     localStorage := localStorage tm; listeners := l;
     notified := notified tm; outbox := outbox tm |}.

Definition with_notified (l : list Snapshot) (tm : T) : T :=
  {| terminals := terminals tm; activeTerminalId := activeTerminalId tm;
     viewMode := viewMode tm; gridLayout := gridLayout tm;
     maxTerminals := maxTerminals tm; terminalCounter := terminalCounter tm;
     onStateChange := onStateChange tm;
     currentProjectPath := currentProjectPath tm;
     localStorage := localStorage tm; listeners := listeners tm;
     notified := l; outbox := outbox tm |}.

Definition with_outbox (l : list IPC.ToMain) (tm : T) : T :=
  {| terminals := terminals tm; activeTerminalId := activeTerminalId tm;
     viewMode := viewMode tm; gridLayout := gridLayout tm;
     maxTerminals := maxTerminals tm; terminalCounter := terminalCounter tm;
     onStateChange := onStateChange tm;
     currentProjectPath := currentProjectPath tm;
     localStorage := localStorage tm; listeners := listeners tm;
     notified := notified tm; outbox := l |}.

Definition ipcSend (m : IPC.ToMain) (tm : T) : T :=
  with_outbox (outbox tm ++ [m]) tm.

(** Field assignments on a session's [state] object. *)
Definition set_isActive (b : bool) (t : TerminalState) : TerminalState :=
  {| id := id t; name := name t; customName := customName t; isActive := b;
     createdAt := createdAt t; projectPath := projectPath t |}.

Definition set_names (n : string) (t : TerminalState) : TerminalState :=
  {| id := id t; name := n; customName := Some n; isActive := isActive t;
     createdAt := createdAt t; projectPath := projectPath t |}.

(** [Array.prototype.sort((a, b) => a.createdAt - b.createdAt)]: stable. *)
Fixpoint insert_by_createdAt (t : TerminalState) (l : list TerminalState)
  : list TerminalState :=
  match l with
  | [] => [t]
  | u :: l' =>
      if createdAt t <=? createdAt u then t :: u :: l'
      else u :: insert_by_createdAt t l'
  end.

Definition sort_by_createdAt (l : list TerminalState) : list TerminalState :=
  foldr insert_by_createdAt [] l.

Definition getCurrentProject (tm : T) : option string := currentProjectPath tm.

Definition getTerminalsByProject (p : option string) (tm : T)
  : list TerminalState :=
  sort_by_createdAt (filter (fun t => projectPath t = p) (terminals tm)).

Definition getTerminalStates (allProjects : bool) (tm : T)
  : list TerminalState :=
  sort_by_createdAt
    (if allProjects then terminals tm
     else filter (fun t => projectPath t = currentProjectPath tm) (terminals tm)).

Definition snapshot (tm : T) : Snapshot :=
  {| seenTerminals := getTerminalStates false tm;
     seenActiveTerminalId := activeTerminalId tm;
     seenViewMode := viewMode tm;
     seenGridLayout := gridLayout tm;
     seenCurrentProjectPath := currentProjectPath tm |}.

Definition _notifyStateChange (tm : T) : T :=
  if onStateChange tm then with_notified (snapshot tm :: notified tm) tm
  else tm.

Definition setActiveTerminal (terminalId : string) (tm : T) : T :=
  let tm1 :=
    match activeTerminalId tm with
    | Some a =>
        if Js.truthy_string a
        then with_terminals (JsMap.update id a (set_isActive false) (terminals tm)) tm
        else tm
    | None => tm
    end in
  let tm2 := with_activeTerminalId (Some terminalId) tm1 in
  let tm3 :=
    with_terminals
      (JsMap.update id terminalId (set_isActive true) (terminals tm2)) tm2 in
  _notifyStateChange tm3.

Definition renameTerminal (terminalId newName : string) (tm : T) : T :=
  match JsMap.get id terminalId (terminals tm) with
  | Some _ =>
      _notifyStateChange
        (with_terminals
           (JsMap.update id terminalId (set_names newName) (terminals tm)) tm)
  | None => tm
  end.

Definition closeTerminal (terminalId : string) (tm : T) : T :=
  match JsMap.get id terminalId (terminals tm) with
  | Some _ =>
      let tm1 := with_terminals (JsMap.delete id terminalId (terminals tm)) tm in
      let tm2 := ipcSend (IPC.TERMINAL_DESTROY terminalId) tm1 in
      let tm3 :=
        if decide (activeTerminalId tm2 = Some terminalId) then
          let remaining := JsMap.keys id (terminals tm2) in
          let tm' := with_activeTerminalId (last remaining) tm2 in
          match activeTerminalId tm' with
          | Some a => if Js.truthy_string a then setActiveTerminal a tm' else tm'
          | None => tm'
          end
        else tm2 in
      _notifyStateChange tm3
  | None => tm
  end.

Definition setViewMode (mode : string) (tm : T) : T :=
  _notifyStateChange (with_viewMode mode tm).

Definition setGridLayout (layout : string) (tm : T) : T :=
  _notifyStateChange (with_gridLayout layout tm).

Definition hasTerminalsForCurrentProject (tm : T) : bool :=
  match getTerminalStates false tm with [] => false | _ => true end.

(** *** Persistence in [localStorage] *)

(** [JSON.parse(localStorage.getItem(SESSION_STORAGE_KEY) || '{}')];
    [None] when it throws. *)
Definition parseAllSessions (i : StorageItem) : option (gmap string SessionData) :=
  match i with
  | Missing => Some ∅
  | Malformed => None
  | Stored allSessions => Some allSessions
  end.

(** [projectPath || GLOBAL_PROJECT_KEY] *)
Definition sessionKey (p : option string) : string :=
  Js.or_default p GLOBAL_PROJECT_KEY.

(** The [terminalNames] object filled by the [forEach] of
    [saveProjectSession]. *)
Definition collectNames (l : list TerminalState) : gmap string string :=
  foldl
    (fun names t =>
       match customName t with
       | Some n => if Js.truthy_string n then <[id t := n]> names else names
       | None => names
       end)
    ∅ l.

Definition saveProjectSession (p : option string) (tm : T) : T :=
  let projectTerminals := getTerminalsByProject p tm in
  match projectTerminals with
  | [] => tm
  | _ :: _ =>
      let sessionData :=
        {| savedActiveTerminalId := activeTerminalId tm;
           savedViewMode := viewMode tm;
           savedGridLayout := gridLayout tm;
           terminalNames := collectNames projectTerminals |} in
      match parseAllSessions (localStorage tm) with
      | Some allSessions =>
          with_localStorage (Stored (<[sessionKey p := sessionData]> allSessions)) tm
      | None => tm
      end
  end.

(** The [forEach] of [restoreProjectSession] that reapplies custom names. *)
Definition restoreNames (names : gmap string string)
    (projectTerminals : list TerminalState) (l : list TerminalState)
  : list TerminalState :=
  foldl
    (fun l t =>
       match names !! id t with
       | Some n =>
           if Js.truthy_string n then JsMap.update id (id t) (set_names n) l
           else l
       | None => l
       end)
    l projectTerminals.

(** The code after the [if (sessionData)] block: select the first terminal
    of the project. *)
Definition selectFirst (p : option string) (tm : T) : T :=
  match getTerminalsByProject p tm with
  | t :: _ => setActiveTerminal (id t) tm
  | [] => with_activeTerminalId None tm
  end.

(** The [try] block of [restoreProjectSession]; [None] when it throws. *)
Definition tryRestore (p : option string) (tm : T) : option T :=
  match parseAllSessions (localStorage tm) with
  | None => None
  | Some allSessions =>
      match allSessions !! sessionKey p with
      | Some sessionData =>
          let tm1 :=
            if Js.truthy_string (savedViewMode sessionData)
            then with_viewMode (savedViewMode sessionData) tm else tm in
          let tm2 :=
            if Js.truthy_string (savedGridLayout sessionData)
            then with_gridLayout (savedGridLayout sessionData) tm1 else tm1 in
          let tm3 :=
            with_terminals
              (restoreNames (terminalNames sessionData)
                 (getTerminalsByProject p tm2) (terminals tm2)) tm2 in
          match savedActiveTerminalId sessionData with
          | Some a =>
              if Js.truthy_string a then
                match JsMap.get id a (terminals tm3) with
                | Some terminal =>
                    if decide (projectPath terminal = p)
                    then Some (setActiveTerminal a tm3)
                    else Some (selectFirst p tm3)
                | None => Some (selectFirst p tm3)
                end
              else Some (selectFirst p tm3)
          | None => Some (selectFirst p tm3)
          end
      | None => Some (selectFirst p tm)
      end
  end.

(** [restoreProjectSession(projectPath)]: the [catch] logs and returns. *)
Definition restoreProjectSession (p : option string) (tm : T) : T :=
  match tryRestore p tm with
  | Some tm' => tm'
  | None => tm
  end.

Definition clearProjectSession (p : option string) (tm : T) : T :=
  match parseAllSessions (localStorage tm) with
  | Some allSessions =>
      with_localStorage (Stored (base.delete (sessionKey p) allSessions)) tm
  | None => tm
  end.

Definition setCurrentProject (p : option string) (tm : T) : T :=
  let tm1 :=
    if decide (currentProjectPath tm = p) then tm
    else saveProjectSession (currentProjectPath tm) tm in
  let tm2 := with_currentProjectPath p tm1 in
  _notifyStateChange (restoreProjectSession p tm2).

(** *** Creation *)

Definition resolveProjectPath (options : Options) (tm : T) : option string :=
  match optProjectPath options with
  | Some p => p
  | None => currentProjectPath tm
  end.

(** [createTerminal(options)] up to the point where it waits for the reply:
    it either resolves at once with [null] or registers a listener and
    sends [TERMINAL_CREATE]. *)
Definition createTerminal (options : Options) (tm : T) : T * option Settled :=
  if (maxTerminals tm <=? JsMap.size (terminals tm))%nat then
    (tm, Some ResolvedNull)
  else
    let p := resolveProjectPath options tm in
    let workingDir := Js.or_else (Js.or_else (optCwd options) p) None in
    let handler :=
      {| heldOptions := options; heldProjectPath := p;
         heldWorkingDir := workingDir |} in
    (ipcSend (IPC.TERMINAL_CREATE (IPC.CreateObject workingDir p))
       (with_listeners (listeners tm ++ [handler]) tm), None).

(** [_initializeTerminal(terminalId, options)]; [now] is [Date.now()]. *)
Definition _initializeTerminal (terminalId : string) (options : Options)
    (now : Z) (tm : T) : T :=
  let named :=
    match optName options with
    | Some n => if Js.truthy_string n then Some n else None
    | None => None
    end in
  let tm1 :=
    match named with
    | Some _ => tm
    | None => with_terminalCounter (S (terminalCounter tm)) tm
    end in
  let state :=
    {| id := terminalId;
       name := match named with
               | Some n => n
               | None => "Terminal " +:+ Js.string_of_nat (terminalCounter tm1)
               end;
       customName := None;
       isActive := false;
       createdAt := now;
       projectPath := resolveProjectPath options tm1 |} in
  let tm2 := with_terminals (JsMap.set id state (terminals tm1)) tm1 in
  let tm3 :=
    if (JsMap.size (terminals tm2) =? 1)%nat
       || negb (Js.truthy (activeTerminalId tm2))
    then setActiveTerminal terminalId tm2 else tm2 in
  _notifyStateChange tm3.

(** The body of a [TERMINAL_CREATED] listener once it has removed itself. *)
Definition onTerminalCreated (response : string + string) (now : Z)
    (h : Listener) (acc : T * list Settled) : T * list Settled :=
  match response with
  | inl terminalId =>
      (_initializeTerminal terminalId
         {| optCwd := heldWorkingDir h;
            optProjectPath := Some (heldProjectPath h);
            optName := optName (heldOptions h) |} now acc.1,
       acc.2 ++ [Resolved terminalId])
  | inr error => (acc.1, acc.2 ++ [Rejected error])
  end.

(** The [ipcRenderer.on] listeners.  On [TERMINAL_CREATED] every listener
    registered at that moment runs once, each having removed itself. *)
Definition receive (now : Z) (m : IPC.ToRenderer) (tm : T) : T * list Settled :=
  match m with
  | IPC.TERMINAL_CREATED response =>
      foldl (fun acc h => onTerminalCreated response now h acc)
        (with_listeners [] tm, []) (listeners tm)
  | IPC.TERMINAL_OUTPUT_ID _ _ => (tm, [])
  | IPC.TERMINAL_DESTROYED terminalId _ =>
      (if JsMap.has id terminalId (terminals tm)
       then closeTerminal terminalId tm else tm, [])
  end.

(** [sendCommand(command)] *)
Definition sendCommand (command : string) (tm : T) : T :=
  match activeTerminalId tm with
  | Some a =>
      if Js.truthy_string a
      then ipcSend (IPC.TERMINAL_INPUT_ID a
                      (command +:+ String (Ascii.ascii_of_nat 13) EmptyString)) tm
      else tm
  | None => tm
  end.

(** The display rule of the tab bar and grid: [t.customName || t.name]. *)
Definition displayName (t : TerminalState) : string :=
  Js.or_default (customName t) (name t).

End TerminalManager.

(** ** The two processes joined by IPC

    The renderer runs one handler to completion, then the main process
    consumes what was sent and the renderer consumes the answers.  A killed
    process exits before the next user action. *)

Module Frame.

Record State : Type := {
  main : PtyManager.State;
  renderer : TerminalManager.T
}.

(** Start-up: an empty registry, and a store in which the terminal UI has
    installed its observer. *)
Definition initial (h : option string) (store : TerminalManager.StorageItem)
  : State :=
  {| main := PtyManager.initial h;
     renderer := TerminalManager.with_onStateChange true
                   (TerminalManager.constructor store) |}.

(** The main process handles the renderer's pending messages in order, then
    the exit events of the processes it killed. *)
Definition handle_all (spawns : bool) (msgs : list IPC.ToMain)
    (m : PtyManager.State) : PtyManager.State :=
  foldl (fun st msg => (PtyManager.handle spawns msg st).2) m msgs.

Definition exit_all (m : PtyManager.State) : PtyManager.State :=
  foldl (fun st k => PtyManager.onExit k 0 st)
    (PtyManager.with_queues [] (PtyManager.sent m) m)
    (PtyManager.killed m).

Definition run_main (spawns : bool) (s : State) : State :=
  {| main := exit_all (handle_all spawns (TerminalManager.outbox (renderer s)) (main s));
     renderer := TerminalManager.with_outbox [] (renderer s) |}.

(** The renderer handles the main process's pending messages in order. *)
Definition receive_all (now : Z) (msgs : list IPC.ToRenderer)
    (tm : TerminalManager.T) : TerminalManager.T * list TerminalManager.Settled :=
  foldl (fun acc msg =>
           let '(tm', out) := TerminalManager.receive now msg acc.1 in
           (tm', acc.2 ++ out))
    (tm, []) msgs.

Definition run_renderer (now : Z) (s : State)
  : State * list TerminalManager.Settled :=
  let r := receive_all now (PtyManager.sent (main s)) (renderer s) in
  ({| main := PtyManager.with_queues (PtyManager.killed (main s)) [] (main s);
      renderer := r.1 |}, r.2).

Definition round (spawns : bool) (now : Z) (s : State)
  : State * list TerminalManager.Settled :=
  run_renderer now (run_main spawns s).

(** Two rounds: the second one carries the [TERMINAL_DESTROY] with which the
    renderer answers a [TERMINAL_DESTROYED]. *)
Definition settle (spawns : bool) (now : Z) (s : State)
  : State * list TerminalManager.Settled :=
  let '(s1, out1) := round spawns now s in
  let '(s2, out2) := round spawns now s1 in
  (s2, out1 ++ out2).

Definition on_renderer (f : TerminalManager.T -> TerminalManager.T) (s : State)
  : State :=
  {| main := main s; renderer := f (renderer s) |}.

(** The operations of the specification, and the exit of a process. *)
Inductive Op : Type :=
| createSession (options : TerminalManager.Options)
| switchScope (p : option string)
| setActiveSession (terminalId : string)
| renameSession (terminalId newName : string)
| closeSession (terminalId : string)
| setViewMode (mode : string)
| setGridLayout (layout : string)
| processExit (terminalId : string) (exitCode : Z).

(** One operation with the answers of the environment: [now] is the clock
    and [spawns] tells whether node-pty can start a shell. *)
Definition step (spawns : bool) (now : Z) (op : Op) (s : State)
  : State * list TerminalManager.Settled :=
  match op with
  | createSession options =>
      let '(tm, early) := TerminalManager.createTerminal options (renderer s) in
      let '(s', out) := settle spawns now {| main := main s; renderer := tm |} in
      (s', match early with Some r => r :: out | None => out end)
  | switchScope p =>
      settle spawns now (on_renderer (TerminalManager.setCurrentProject p) s)
  | setActiveSession t =>
      settle spawns now (on_renderer (TerminalManager.setActiveTerminal t) s)
  | renameSession t n =>
      settle spawns now (on_renderer (TerminalManager.renameTerminal t n) s)
  | closeSession t =>
      settle spawns now (on_renderer (TerminalManager.closeTerminal t) s)
  | setViewMode m =>
      settle spawns now (on_renderer (TerminalManager.setViewMode m) s)
  | setGridLayout l =>
      settle spawns now (on_renderer (TerminalManager.setGridLayout l) s)
  | processExit t c =>
      if PtyManager.hasTerminal t (main s)
      then settle spawns now
             {| main := PtyManager.onExit t c (main s); renderer := renderer s |}
      else (s, [])
  end.

(** An event of a run: an operation and the environment's answers. *)
Record Event : Type := {
  spawns : bool;
  now : Z;
  op : Op
}.

Definition exec (e : Event) (s : State) : State :=
  (step (spawns e) (now e) (op e) s).1.

Definition run (es : list Event) (s : State) : State :=
  foldl (fun s e => exec e s) s es.

(** [getVisibleSessions()] *)
Definition getVisibleSessions (s : State) : list TerminalManager.TerminalState :=
  TerminalManager.getTerminalStates false (renderer s).

End Frame.

(** ** Sample states used by the examples below *)

Module Sample.
Import TerminalManager.

Definition session (k : string) (n : string) (active : bool) (at_ : Z)
    (p : option string) : TerminalState :=
  {| id := k; name := n; customName := None; isActive := active;
     createdAt := at_; projectPath := p |}.

(** Two sessions of the global scope, the first one active. *)
Definition twoTabs : T :=
  with_onStateChange true
    (with_activeTerminalId (Some "term-1")
       (with_terminals
          [session "term-1" "Terminal 1" true 10 None;
           session "term-2" "Terminal 2" false 20 None]
          (constructor Missing))).

(** Two sessions of [/proj] seen from the global scope, with a record
    persisted for [/proj] whose active id names a session long gone. *)
Definition staleStore : T :=
  with_onStateChange true
    (with_localStorage
       (Stored
          {[ "/proj" :=
               {| savedActiveTerminalId := Some "term-9";
                  savedViewMode := "grid";
                  savedGridLayout := "2x2";
                  terminalNames := {[ "term-3" := "Build" ]} |} ]})
       (with_terminals
          [session "term-3" "Terminal 3" false 30 (Some "/proj");
           session "term-5" "Terminal 5" false 20 (Some "/proj")]
          (constructor Missing))).

(** Default options: current project, no name, no working directory. *)
Definition noOptions : Options :=
  {| optCwd := None; optProjectPath := None; optName := None |}.


Definition at_time (t : Z) (o : Frame.Op) : Frame.Event :=
  {| Frame.spawns := true; Frame.now := t; Frame.op := o |}.

Definition boot : Frame.State := Frame.initial (Some "/home/user") Missing.

Definition afterFirstCreate : Frame.State :=
  Frame.exec (at_time 10 (Frame.createSession noOptions)) boot.

(** Two sessions created in [/A], one in [/B], and back to [/A]. *)
Definition twoScopes : list Frame.Event :=
  [at_time 1 (Frame.switchScope (Some "/A"));
   at_time 10 (Frame.createSession noOptions);
   at_time 20 (Frame.createSession noOptions);
   at_time 30 (Frame.switchScope (Some "/B"));
   at_time 40 (Frame.createSession noOptions);
   at_time 50 (Frame.switchScope (Some "/A"))].

(** A session of the global scope and, after a switch to [/B], a session
    of [/B]: both are flagged active, the pointer names the second. *)
Definition bothFlagged : T :=
  Frame.renderer
    (Frame.run [at_time 10 (Frame.createSession noOptions);
                at_time 20 (Frame.switchScope (Some "/B"));
                at_time 30 (Frame.createSession noOptions)]
       (Frame.initial (Some "/home/user") Missing)).


(** What an observer sees of a session. *)
Definition seen (t : TerminalState) : string * option string * bool :=
  (id t, projectPath t, isActive t).

(** Nine creations in a row. *)
Definition nineCreates : list Frame.Event :=
  map (fun k => at_time k (Frame.createSession noOptions))
    [1; 2; 3; 4; 5; 6; 7; 8; 9].

(** A registry holding two processes. *)
Definition twoPtys : PtyManager.State :=
  Frame.main
    (Frame.run [at_time 10 (Frame.createSession noOptions);
                at_time 20 (Frame.createSession noOptions)] boot).

End Sample.

(** ** Vocabulary of the specification *)

Module Spec.
Import TerminalManager.

Definition ids (tm : T) : list string := JsMap.keys id (terminals tm).

(** The sessions of a project scope, in map order. *)
Definition inScope (p : option string) (tm : T) : list TerminalState :=
  filter (fun t => projectPath t = p) (terminals tm).



(** Every session flagged active is the one the pointer names. *)
Definition pointerOwnsActive (tm : T) : Prop :=
  forall t, t ∈ terminals tm -> isActive t = true ->
    activeTerminalId tm = Some (id t) /\ id t <> EmptyString.

(** The session the pointer names, when live, is flagged active. *)
Definition pointerIsActive (tm : T) : Prop :=
  forall a t, activeTerminalId tm = Some a ->
    JsMap.get id a (terminals tm) = Some t -> isActive t = true.

(** What [setActiveTerminal] does to the previously active session. *)
Definition deactivate (a : option string) (l : list TerminalState)
  : list TerminalState :=
  match a with
  | Some a =>
      if Js.truthy_string a then JsMap.update id a (set_isActive false) l else l
  | None => l
  end.

(** Number of observer calls made between two states. *)
Definition emitted (before after : T) : nat :=
  (length (notified after) - length (notified before))%nat.

(** What no operation changes in a session record. *)
Definition shape (t : TerminalState) : string * option string * Z :=
  (id t, projectPath t, createdAt t).

(** Whether closing [terminalId] hands the pointer to another session. *)
Definition promotes (terminalId : string) (tm : T) : bool :=
  bool_decide (activeTerminalId tm = Some terminalId)
  && Js.truthy (last (JsMap.keys id (JsMap.delete id terminalId (terminals tm)))).

(** Whether [_initializeTerminal] activates the session it adds: the map
    then holds that session alone, or the pointer is falsy. *)
Definition activatesNew (terminalId : string) (tm : T) : bool :=
  match terminals tm with
  | [] => true
  | [t] => bool_decide (id t = terminalId)
  | _ => false
  end
  || negb (Js.truthy (activeTerminalId tm)).

(** Whether [restoreProjectSession] ends in a call of [setActiveTerminal]. *)
Definition restoreActivates (p : option string) (tm : T) : bool :=
  match parseAllSessions (localStorage tm) with
  | None => false
  | Some _ => bool_decide (inScope p tm <> [])
  end.

(** The record [_initializeTerminal] builds for its session. *)
Definition newState (terminalId : string) (options : Options) (now : Z) (tm : T)
  : TerminalState :=
  {| id := terminalId;
     name := match optName options with
             | Some n =>
                 if Js.truthy_string n then n
                 else "Terminal " +:+ Js.string_of_nat (S (terminalCounter tm))
             | None => "Terminal " +:+ Js.string_of_nat (S (terminalCounter tm))
             end;
     customName := None;
     isActive := false;
     createdAt := now;
     projectPath := resolveProjectPath options tm |}.

(** The pointer is null or names a live session that is flagged active. *)
Definition pointerSound (tm : T) : Prop :=
  forall a, activeTerminalId tm = Some a ->
    exists t, JsMap.get id a (terminals tm) = Some t /\ isActive t = true.

(** Whenever a session is live the pointer is set. *)
Definition pointerSet (tm : T) : Prop :=
  terminals tm <> [] -> exists a, activeTerminalId tm = Some a.

(** Every live session belongs to the current scope. *)
Definition allInCurrentScope (tm : T) : Prop :=
  forall t, t ∈ terminals tm -> projectPath t = currentProjectPath tm.

(** No identifier is the empty string. *)
Definition idsTruthy (tm : T) : Prop :=
  forall k, k ∈ ids tm -> Js.truthy_string k = true.

(** [setActiveSession] is only called with the id of a live session. *)
Definition targetsLive (o : Frame.Op) (s : Frame.State) : Prop :=
  match o with
  | Frame.setActiveSession t =>
      JsMap.has id t (terminals (Frame.renderer s)) = true
  | _ => True
  end.

(** The operation keeps all live sessions in the current scope: a
    session is created in the current scope, and a scope switch re-enters
    the current scope or happens while no session is live. *)
Definition keepsOneScope (o : Frame.Op) (s : Frame.State) : Prop :=
  match o with
  | Frame.createSession options =>
      resolveProjectPath options (Frame.renderer s)
        = currentProjectPath (Frame.renderer s)
  | Frame.switchScope p =>
      p = currentProjectPath (Frame.renderer s) \/
      terminals (Frame.renderer s) = []
  | _ => True
  end.

(** A run each operation of which satisfies [P] in the state it starts
    from. *)
Fixpoint along (P : Frame.Op -> Frame.State -> Prop) (es : list Frame.Event)
    (s : Frame.State) : Prop :=
  match es with
  | [] => True
  | e :: es' => P (Frame.op e) s /\ along P es' (Frame.exec e s)
  end.

(** The store of a run that never leaves its scope. *)
Definition inOneScope (tm : T) : Prop :=
  pointerSound tm /\ pointerOwnsActive tm /\ pointerSet tm /\ allInCurrentScope tm.

(** The identifier the registry issues for counter value [n]. *)
Definition termId (n : nat) : string := "term-" +:+ Js.string_of_nat n.

(** What the operations on sessions leave alone in the store: its wiring
    and its pending messages. *)
Definition sameWiring (tm tm' : T) : Prop :=
  outbox tm' = outbox tm /\ listeners tm' = listeners tm /\
  maxTerminals tm' = maxTerminals tm /\ onStateChange tm' = onStateChange tm.

(** The states between two user actions: nothing is in flight, both
    processes know the same sessions, and every identifier was issued once
    by the registry's counter. *)
Record consistent (s : Frame.State) : Prop := {
  quiet_outbox : outbox (Frame.renderer s) = [];
  quiet_listeners : listeners (Frame.renderer s) = [];
  quiet_killed : PtyManager.killed (Frame.main s) = [];
  quiet_sent : PtyManager.sent (Frame.main s) = [];
  window_alive : PtyManager.windowAlive (Frame.main s) = true;
  cap_nine : maxTerminals (Frame.renderer s) = 9%nat;
  observed : onStateChange (Frame.renderer s) = true;
  same_ids : ids (Frame.renderer s) = PtyManager.getTerminalIds (Frame.main s);
  ids_issued :
    Forall (fun k => exists n, k = termId n /\
                       (1 <= n <= PtyManager.terminalCounter (Frame.main s))%nat)
      (ids (Frame.renderer s));
  ids_once : NoDup (ids (Frame.renderer s))
}.

(** The registry without session [t]. *)
Definition without (t : string) (m : PtyManager.State) : PtyManager.State :=
  PtyManager.with_instances
    (JsMap.delete PtyManager.terminalId t (PtyManager.ptyInstances m)) m.

(** The options a [TERMINAL_CREATED] listener passes on. *)
Definition passedOptions (options : Options) (r : T) : Options :=
  let p := resolveProjectPath options r in
  {| optCwd := Js.or_else (Js.or_else (optCwd options) p) None;
     optProjectPath := Some p;
     optName := optName options |}.

(** The registry after it spawned a process for the store's request. *)
Definition spawned (options : Options) (r : T) (m : PtyManager.State) : PtyManager.State :=
  let p := resolveProjectPath options r in
  PtyManager.with_instances
    (JsMap.set PtyManager.terminalId
       {| PtyManager.terminalId := termId (S (PtyManager.terminalCounter m));
          PtyManager.cwd :=
            Js.or_else (Js.or_else (Js.or_else (optCwd options) p) None)
              (PtyManager.home m);
          PtyManager.projectPath := p;
          PtyManager.written := [];
          PtyManager.cols := 80; PtyManager.rows := 24 |}
       (PtyManager.ptyInstances m))
    (PtyManager.with_counter (S (PtyManager.terminalCounter m)) m).

(** The store as the restore step of [setCurrentProject] finds it: the
    scope being left has been saved and the current scope replaced. *)
Definition leaving (p : option string) (tm : T) : T :=
  with_currentProjectPath p
    (if decide (currentProjectPath tm = p) then tm
     else saveProjectSession (currentProjectPath tm) tm).

(** The [activeTerminalId] persisted for scope [p], if a record is
    readable. *)
Definition persistedActive (p : option string) (tm : T) : option string :=
  match parseAllSessions (localStorage tm) with
  | Some allSessions =>
      match allSessions !! sessionKey p with
      | Some sessionData => savedActiveTerminalId sessionData
      | None => None
      end
  | None => None
  end.

(** The persisted id names no live session of scope [p]. *)
Definition persistedActiveStale (p : option string) (tm : T) : Prop :=
  forall a t,
    persistedActive p tm = Some a ->
    JsMap.get id a (terminals tm) = Some t -> projectPath t <> p.

(** A session whose auto-generated name has been overwritten: both name
    fields hold the custom name. *)
Definition renamed (t : TerminalState) : Prop := customName t = Some (name t).

(** Both name fields hold [n]. *)
Definition namedAs (n : string) (t : TerminalState) : Prop :=
  customName t = Some n /\ name t = n.

(** The session stored under [k], if any, satisfies [P]. *)
Definition heldAt (P : TerminalState -> Prop) (k : string)
    (l : list TerminalState) : Prop :=
  forall t, JsMap.get id k l = Some t -> P t.

(** The display rule as the specification words it: [customName ?? name]. *)
Definition displayNullish (t : TerminalState) : string :=
  match customName t with
  | Some c => c
  | None => name t
  end.

End Spec.

(** ** The rest of the registry and the events of the main process
    ([src/main/ptyManager.js], [src/main/index.js]) *)

Module PtyHost.
Import PtyManager.

(** What [getShell] reads of its host: [process.platform === 'win32'],
    whether [execSync('where pwsh')] returns, and [process.env.SHELL]. *)
Record Process : Type := {
  win32 : bool;
  pwshFound : bool;
  SHELL : option string
}.

Definition getShell (p : Process) : string :=
  if win32 p then
    if pwshFound p then "pwsh.exe" else "powershell.exe"
  else Js.or_default (SHELL p) "/bin/zsh".

(** The [shellArgs] of [createTerminal]. *)
Definition shellArgs (p : Process) : list string :=
  if win32 p then [] else ["-i"; "-l"].

(** The object returned by [getTerminalInfo]. *)
Record TerminalInfo : Type := {
  infoCwd : option string;
  infoProjectPath : option string
}.

Definition getTerminalInfo (tid : string) (st : State) : option TerminalInfo :=
  match JsMap.get terminalId tid (ptyInstances st) with
  | Some instance =>
      Some {| infoCwd := cwd instance; infoProjectPath := projectPath instance |}
  | None => None
  end.

Definition with_window (alive : bool) (st : State) : State :=
  {| ptyInstances := ptyInstances st; terminalCounter := terminalCounter st;
     windowAlive := alive; home := home st;
     killed := killed st; sent := sent st |}.

(** [init(window)]; [alive] is [window && !window.isDestroyed()]. *)
Definition init (alive : bool) (st : State) : State := with_window alive st.

(** What the main process reacts to: a message of the renderer (with the
    answer node-pty would give to a spawn), the exit of a spawned process,
    and the ['closed'] event of the window, whose handler in
    [src/main/index.js] calls [destroyAll]; the window is destroyed by
    then. *)
Inductive Request : Type :=
| FromRenderer (spawns : bool) (msg : IPC.ToMain)
| ProcessExited (tid : string) (exitCode : Z)
| WindowClosed.

Definition serve (r : Request) (st : State) : State :=
  match r with
  | FromRenderer spawns msg => (handle spawns msg st).2
  | ProcessExited tid exitCode => onExit tid exitCode st
  | WindowClosed => with_window false (destroyAll st).2
  end.

Definition serveAll (rs : list Request) (st : State) : State :=
  foldl (fun st r => serve r st) st rs.

End PtyHost.

(** ** The terminal UI driving the store
    ([src/renderer/multiTerminalUI.js], [src/renderer/terminal.js]) *)

Module MultiTerminalUI.
Import TerminalManager.


(** [createTerminalForCurrentProject(options)]: [{ ...options, projectPath }]. *)
Definition createTerminalForCurrentProject (options : Options) (tm : T)
  : T * option Settled :=
  createTerminal
    {| optCwd := optCwd options;
       optProjectPath := Some (getCurrentProject tm);
       optName := optName options |} tm.

(** Ctrl/Cmd+Shift+W *)
Definition closeCurrent (tm : T) : T :=
  match activeTerminalId tm with
  | Some a =>
      if Js.truthy_string a && (1 <? JsMap.size (terminals tm))%nat
      then closeTerminal a tm else tm
  | None => tm
  end.

(** Ctrl/Cmd+1-9; [digit] is the digit of the key, which the handler
    requires to lie between ['1'] and ['9']. *)
Definition switchToNumber (digit : nat) (tm : T) : T :=
  if (1 <=? digit)%nat && (digit <=? 9)%nat then
    let index := (digit - 1)%nat in
    let terminals := getTerminalStates false tm in
    if (index <? length terminals)%nat then
      match terminals !! index with
      | Some t => setActiveTerminal (id t) tm
      | None => tm
      end
    else tm
  else tm.

(** Ctrl/Cmd+Shift+G, and the view toggle button of the tab bar. *)
Definition toggleViewMode (tm : T) : T :=
  setViewMode (if decide (viewMode tm = "tabs") then "grid" else "tabs") tm.

(** [terminals.findIndex(t => t.id === activeTerminalId)] *)
Fixpoint findIndexFrom (i : Z) (a : option string) (l : list TerminalState) : Z :=
  match l with
  | [] => -1
  | t :: l' =>
      if decide (Some (id t) = a) then i else findIndexFrom (i + 1) a l'
  end.

Definition findIndex (a : option string) (l : list TerminalState) : Z :=
  findIndexFrom 0 a l.

(** [_switchTerminal(direction)]; [None] stands for the [TypeError] of
    reading [.id] of [terminals[newIndex]] when that is [undefined]. *)
Definition _switchTerminal (direction : Z) (tm : T) : option T :=
  let terminals := getTerminalStates false tm in
  if (length terminals <=? 1)%nat then Some tm
  else
    let currentIndex := findIndex (activeTerminalId tm) terminals in
    let newIndex := currentIndex + direction in
    let newIndex := if newIndex <? 0 then Z.of_nat (length terminals) - 1 else newIndex in
    let newIndex := if Z.of_nat (length terminals) <=? newIndex then 0 else newIndex in
    match (if newIndex <? 0 then None else terminals !! Z.to_nat newIndex) with
    | Some t => Some (setActiveTerminal (id t) tm)
    | None => None
    end.

(** [restartTerminal(projectPath)] of [terminal.js]: the project is set,
    then a terminal is requested for it. *)
Definition restartTerminal (p : option string) (tm : T) : T * option Settled :=
  createTerminalForCurrentProject
    {| optCwd := None; optProjectPath := None; optName := None |}
    (setCurrentProject p tm).

End MultiTerminalUI.

(** ** The terminal module of the renderer ([src/renderer/terminal.js])
    on both processes

    Its functions call the terminal UI, which calls the store; the messages
    they send are then exchanged as in [Frame.step]. *)

Module Terminal.


(** [sendCommand(command)], also the [RUN_COMMAND] handler. *)
Definition sendCommand (spawns : bool) (now : Z) (command : string)
    (s : Frame.State) : Frame.State * list TerminalManager.Settled :=
  Frame.settle spawns now
    (Frame.on_renderer (TerminalManager.sendCommand command) s).

(** [restartTerminal(projectPath)] *)
Definition restartTerminal (spawns : bool) (now : Z) (p : option string)
    (s : Frame.State) : Frame.State * list TerminalManager.Settled :=
  let '(tm, early) := MultiTerminalUI.restartTerminal p (Frame.renderer s) in
  let '(s', out) :=
    Frame.settle spawns now {| Frame.main := Frame.main s; Frame.renderer := tm |} in
  (s', match early with Some r => r :: out | None => out end).

End Terminal.

(** ** The tab bar ([src/renderer/terminalTabBar.js]) *)

Module TerminalTabBar.
Import TerminalManager.

(** [update(state)]: tabs carry a close button when more than one is
    shown. *)
Definition showsCloseButtons (state : Snapshot) : bool :=
  (1 <? length (seenTerminals state))%nat.

(** [update(state)]: [newBtn.disabled]. *)
Definition newButtonDisabled (state : Snapshot) (tm : T) : bool :=
  (maxTerminals tm <=? length (seenTerminals state))%nat.

(** [finishRename] of [_startRename]; [trimmed] is [input.value.trim()] and
    [currentName] the text of the tab. *)
Definition finishRename (terminalId trimmed currentName : string) (tm : T) : T :=
  renameTerminal terminalId (Js.or_default (Some trimmed) currentName) tm.

End TerminalTabBar.

(** ** The grid view ([src/renderer/terminalGrid.js]) *)

Module TerminalGrid.
Import TerminalManager.

Record Layout : Type := {
  rows : nat;
  cols : nat
}.

Definition GRID_LAYOUTS : list (string * Layout) :=
  [("1x2", {| rows := 1; cols := 2 |});
   ("1x3", {| rows := 1; cols := 3 |});
   ("1x4", {| rows := 1; cols := 4 |});
   ("2x1", {| rows := 2; cols := 1 |});
   ("2x2", {| rows := 2; cols := 2 |});
   ("3x1", {| rows := 3; cols := 1 |});
   ("3x2", {| rows := 3; cols := 2 |});
   ("3x3", {| rows := 3; cols := 3 |})].

(** An own property of [GRID_LAYOUTS]. *)
Definition ownLayout (layout : string) : option Layout :=
  match find (fun kv => bool_decide (kv.1 = layout)) GRID_LAYOUTS with
  | Some kv => Some kv.2
  | None => None
  end.

(** The [terminalsToShow] of [render(terminals, layout)].  [inherited]
    tells which names [GRID_LAYOUTS] inherits from [Object.prototype]: their
    values are truthy and have no [rows], so [maxCells] is [NaN] and the
    slice is empty. *)
Definition terminalsToShow (inherited : string -> bool)
    (terminals : list TerminalState) (layout : string) : list TerminalState :=
  match ownLayout layout with
  | Some config => take (rows config * cols config) terminals
  | None =>
      if inherited layout then []
      else
        match ownLayout "2x2" with
        | Some config => take (rows config * cols config) terminals
        | None => []
        end
  end.

End TerminalGrid.
(** ** Vocabulary of the properties beyond the specification *)

Module Laws.

(** The registry between two requests: each identifier is held once and
    was issued by the counter. *)
Definition issuedOnce (st : PtyManager.State) : Prop :=
  NoDup (PtyManager.getTerminalIds st) /\
  Forall (fun k => exists n, k = Spec.termId n /\
                     (1 <= n <= PtyManager.terminalCounter st)%nat)
    (PtyManager.getTerminalIds st).

(** The input a registered process received so far. *)
Definition inputOf (tid : string) (st : PtyManager.State) : option (list string) :=
  PtyManager.written <$> JsMap.get PtyManager.terminalId tid (PtyManager.ptyInstances st).

(** The size a registered process was last given. *)
Definition sizeOf (tid : string) (st : PtyManager.State) : option (Z * Z) :=
  (fun i => (PtyManager.cols i, PtyManager.rows i))
    <$> JsMap.get PtyManager.terminalId tid (PtyManager.ptyInstances st).

(** The exit events of the given processes, in order. *)
Definition exits (ks : list string) (exitCode : Z) : list PtyHost.Request :=
  map (fun k => PtyHost.ProcessExited k exitCode) ks.

(** What each process records of its sessions: identifier and project, in
    map order. *)
Definition storeView (tm : TerminalManager.T) : list (string * option string) :=
  map (fun t => (TerminalManager.id t, TerminalManager.projectPath t))
    (TerminalManager.terminals tm).

Definition registryView (st : PtyManager.State) : list (string * option string) :=
  map (fun i => (PtyManager.terminalId i, PtyManager.projectPath i))
    (PtyManager.ptyInstances st).

(** Two [createTerminal] calls issued back to back, the second before any
    reply to the first, and the messages then exchanged. *)
Definition twoCreationsAtOnce (spawns : bool) (now : Z)
    (first second : TerminalManager.Options) (s : Frame.State)
  : Frame.State * list TerminalManager.Settled :=
  let tm1 := (TerminalManager.createTerminal first (Frame.renderer s)).1 in
  let tm2 := (TerminalManager.createTerminal second tm1).1 in
  Frame.settle spawns now {| Frame.main := Frame.main s; Frame.renderer := tm2 |}.

(** The record persisted for scope [p], if the storage is readable. *)
Definition savedSession (p : option string) (tm : TerminalManager.T)
  : option TerminalManager.SessionData :=
  match TerminalManager.parseAllSessions (TerminalManager.localStorage tm) with
  | Some allSessions => allSessions !! TerminalManager.sessionKey p
  | None => None
  end.

(** The wrap-around of [_switchTerminal]: below zero goes to the last
    index, past the end goes to the first. *)
Definition wrapIndex (n x : Z) : Z :=
  let x := if x <? 0 then n - 1 else x in
  if n <=? x then 0 else x.

(** The identifiers of the visible sessions, oldest first. *)
Definition visibleIds (tm : TerminalManager.T) : list string :=
  map TerminalManager.id (TerminalManager.getTerminalStates false tm).

End Laws.

(** * Properties *)

(** ** Facts about JavaScript values and insertion-ordered maps *)

Lemma truthy_string_true (s : string) :
  Js.truthy_string s = true <-> s <> EmptyString.
Proof. destruct s; simpl; split; congruence. Qed.

Lemma string_of_nat_inj (n m : nat) :
  Js.string_of_nat n = Js.string_of_nat m -> n = m.
Proof.
  unfold Js.string_of_nat. intros H.
  apply (f_equal NilEmpty.uint_of_string) in H.
  rewrite !NilEmpty.usu in H.
  apply DecimalNat.Unsigned.to_uint_inj. congruence.
Qed.

Section JsMapFacts.
Context {A : Type} (key : A -> string).
Implicit Types (m : list A) (k : string) (f : A -> A).

Lemma get_Some k m a : JsMap.get key k m = Some a -> key a = k /\ a ∈ m.
Proof.
  unfold JsMap.get. induction m as [|b m IH]; simpl; [discriminate|].
  unfold JsMap.has_key at 1. case_bool_decide as Hk.
  - intros [= ->]. split; [done | left].
  - intros H. destruct (IH H) as [? ?]. split; [done | by right].
Qed.

Lemma get_None k m : JsMap.get key k m = None <-> k ∉ JsMap.keys key m.
Proof.
  unfold JsMap.get, JsMap.keys. induction m as [|b m IH]; simpl.
  - split; [intros _; apply not_elem_of_nil | done].
  - unfold JsMap.has_key at 1. case_bool_decide as Hk.
    + split; [discriminate|]. intros H. exfalso. apply H. rewrite Hk. left.
    + rewrite IH, not_elem_of_cons.
      split; [intros ?; split; [congruence | done] | by intros [_ ?]].
Qed.

Lemma get_is_Some k m : is_Some (JsMap.get key k m) <-> k ∈ JsMap.keys key m.
Proof.
  destruct (JsMap.get key k m) eqn:E.
  - split; [|eauto]. intros _. destruct (decide (k ∈ JsMap.keys key m)); [done|].
    apply get_None in n. congruence.
  - apply get_None in E. split; [intros [? [=]] | done].
Qed.

Lemma has_true k m : JsMap.has key k m = true <-> k ∈ JsMap.keys key m.
Proof.
  unfold JsMap.has. rewrite <- get_is_Some.
  destruct (JsMap.get key k m); split; eauto; try discriminate.
  intros [? [=]].
Qed.

Lemma get_elem m a :
  JsMap.wf key m -> a ∈ m -> JsMap.get key (key a) m = Some a.
Proof.
  unfold JsMap.wf, JsMap.keys, JsMap.get.
  induction m as [|b m IH]; simpl; intros Hnd Hin.
  - by apply elem_of_nil in Hin.
  - apply NoDup_cons in Hnd as [Hb Hnd]. unfold JsMap.has_key at 1.
    apply elem_of_cons in Hin as [->|Hin].
    + by rewrite bool_decide_true.
    + rewrite bool_decide_false; [by apply IH|].
      intros Heq. apply Hb. rewrite Heq. by apply list_elem_of_fmap_2.
Qed.

Lemma keys_update k f m :
  (forall a, key (f a) = key a) ->
  JsMap.keys key (JsMap.update key k f m) = JsMap.keys key m.
Proof.
  intros Hf. unfold JsMap.keys. induction m as [|b m IH]; simpl; [done|].
  destruct (JsMap.has_key key k b); simpl; [by rewrite Hf | by rewrite IH].
Qed.

Lemma length_update k f m : length (JsMap.update key k f m) = length m.
Proof.
  induction m as [|b m IH]; simpl; [done|].
  destruct (JsMap.has_key key k b); simpl; [done | by rewrite IH].
Qed.

Lemma update_absent k f m : JsMap.get key k m = None -> JsMap.update key k f m = m.
Proof.
  unfold JsMap.get. induction m as [|b m IH]; simpl; [done|].
  destruct (JsMap.has_key key k b); [discriminate|].
  intros H. by rewrite IH.
Qed.

Lemma get_update_eq k f m :
  (forall a, key (f a) = key a) ->
  JsMap.get key k (JsMap.update key k f m) = f <$> JsMap.get key k m.
Proof.
  intros Hf. unfold JsMap.get. induction m as [|b m IH]; simpl; [done|].
  destruct (JsMap.has_key key k b) eqn:E; simpl.
  - unfold JsMap.has_key in *. rewrite Hf, E. done.
  - rewrite E. apply IH.
Qed.

Lemma get_update_ne k k' f m :
  (forall a, key (f a) = key a) -> k <> k' ->
  JsMap.get key k' (JsMap.update key k f m) = JsMap.get key k' m.
Proof.
  intros Hf Hne. unfold JsMap.get. induction m as [|b m IH]; simpl; [done|].
  destruct (JsMap.has_key key k b) eqn:E; simpl.
  - unfold JsMap.has_key in *. rewrite Hf.
    apply bool_decide_eq_true in E.
    rewrite !bool_decide_false by congruence. done.
  - rewrite IH. done.
Qed.

Lemma elem_of_update k f m b :
  b ∈ JsMap.update key k f m ->
  b ∈ m \/ exists a, JsMap.get key k m = Some a /\ b = f a.
Proof.
  unfold JsMap.get. induction m as [|c m IH]; simpl.
  - intros H. by apply elem_of_nil in H.
  - destruct (JsMap.has_key key k c) eqn:E.
    + intros [->|H]%elem_of_cons; [right; eauto | left; by right].
    + intros [->|H]%elem_of_cons; [left; left|].
      destruct (IH H) as [?|?]; [left; by right | by right].
Qed.

Lemma elem_of_update_wf k f m b :
  JsMap.wf key m ->
  b ∈ JsMap.update key k f m ->
  (b ∈ m /\ key b <> k) \/ exists a, JsMap.get key k m = Some a /\ b = f a.
Proof.
  unfold JsMap.get, JsMap.wf, JsMap.keys.
  induction m as [|c m IH]; simpl; intros Hnd.
  - intros H. by apply elem_of_nil in H.
  - apply NoDup_cons in Hnd as [Hc Hnd].
    destruct (JsMap.has_key key k c) eqn:E.
    + apply bool_decide_eq_true in E.
      intros [->|H]%elem_of_cons; [right; eauto | left].
      split; [by right|]. intros Hk. apply Hc. rewrite E, <- Hk.
      by apply list_elem_of_fmap_2.
    + apply bool_decide_eq_false in E.
      intros [->|H]%elem_of_cons; [left; split; [left | done]|].
      destruct (IH Hnd H) as [[? ?]|?]; [left; split; [by right | done] | by right].
Qed.

Lemma keys_delete k m :
  JsMap.keys key (JsMap.delete key k m) = filter (fun x => x <> k) (JsMap.keys key m).
Proof.
  unfold JsMap.keys, JsMap.delete. induction m as [|b m IH]; simpl; [done|].
  rewrite !filter_cons. destruct (decide (key b <> k)); simpl; by rewrite IH.
Qed.

Lemma get_delete_eq k m : JsMap.get key k (JsMap.delete key k m) = None.
Proof.
  apply get_None. rewrite keys_delete. intros [H _]%list_elem_of_filter. done.
Qed.

Lemma get_delete_ne k k' m :
  k <> k' -> JsMap.get key k' (JsMap.delete key k m) = JsMap.get key k' m.
Proof.
  intros Hne. unfold JsMap.get, JsMap.delete.
  induction m as [|b m IH]; simpl; [done|].
  rewrite filter_cons. destruct (decide (key b <> k)) as [Hb|Hb]; simpl.
  - by rewrite IH.
  - apply dec_stable in Hb. unfold JsMap.has_key at 2.
    rewrite bool_decide_false by congruence. done.
Qed.

Lemma delete_absent k m : JsMap.get key k m = None -> JsMap.delete key k m = m.
Proof.
  intros H%get_None. unfold JsMap.delete, JsMap.keys in *.
  induction m as [|b m IH]; simpl; [done|].
  apply not_elem_of_cons in H as [H1 H2]. simpl in *.
  rewrite filter_cons_True by congruence. by rewrite IH.
Qed.

Lemma elem_of_delete k m a : a ∈ JsMap.delete key k m <-> key a <> k /\ a ∈ m.
Proof. unfold JsMap.delete. by rewrite list_elem_of_filter. Qed.

Lemma length_delete k m : (length (JsMap.delete key k m) <= length m)%nat.
Proof. apply length_filter. Qed.

Lemma set_absent a m : JsMap.get key (key a) m = None -> JsMap.set key a m = m ++ [a].
Proof.
  unfold JsMap.get. induction m as [|b m IH]; simpl; [done|].
  destruct (JsMap.has_key key (key a) b); [discriminate|].
  intros H. by rewrite IH.
Qed.

Lemma length_set a m : (length (JsMap.set key a m) <= S (length m))%nat.
Proof.
  induction m as [|b m IH]; simpl; [lia|].
  destruct (JsMap.has_key key (key a) b); simpl; lia.
Qed.

Lemma wf_delete k m : JsMap.wf key m -> JsMap.wf key (JsMap.delete key k m).
Proof. unfold JsMap.wf. rewrite keys_delete. apply NoDup_filter. Qed.

Lemma wf_update k f m :
  (forall a, key (f a) = key a) ->
  JsMap.wf key m -> JsMap.wf key (JsMap.update key k f m).
Proof. intros Hf. unfold JsMap.wf. by rewrite keys_update. Qed.

End JsMapFacts.

(** ** The PTY registry *)

Section PtyFacts.
Import PtyManager.

Lemma State_eta (st : State) :
  {| ptyInstances := ptyInstances st; terminalCounter := terminalCounter st;
     windowAlive := windowAlive st; home := home st;
     killed := killed st; sent := sent st |} = st.
Proof. by destruct st. Qed.

Lemma with_instances_id (st : State) : with_instances (ptyInstances st) st = st.
Proof. by destruct st. Qed.

(** At the cap, [createTerminal] throws before it touches anything. *)
Lemma createTerminal_at_cap spawns dir p st :
  (MAX_TERMINALS <= size st)%nat ->
  createTerminal spawns dir p st = (inl (MaxTerminalLimitReached MAX_TERMINALS), st).
Proof.
  intros H. unfold createTerminal, bind, gets, throw. cbn beta iota.
  apply Nat.leb_le in H. by rewrite H.
Qed.

(** Below the cap, it takes the next counter value as identifier. *)
Lemma createTerminal_below_cap spawns dir p st :
  (size st < MAX_TERMINALS)%nat ->
  let tid := "term-" +:+ Js.string_of_nat (S (terminalCounter st)) in
  createTerminal spawns dir p st =
    if spawns then
      (inr tid,
       with_instances
         (JsMap.set terminalId
            {| terminalId := tid; cwd := Js.or_else dir (home st);
               projectPath := p; written := []; cols := 80; rows := 24 |}
            (ptyInstances st))
         (with_counter (S (terminalCounter st)) st))
    else (inl SpawnFailed, with_counter (S (terminalCounter st)) st).
Proof.
  intros H. unfold createTerminal, bind, gets, throw, modify, ret. cbn beta iota.
  apply Nat.leb_gt in H. rewrite H. by destruct spawns.
Qed.

Lemma createTerminal_size spawns dir p st :
  (size st <= MAX_TERMINALS)%nat ->
  (size (createTerminal spawns dir p st).2 <= MAX_TERMINALS)%nat.
Proof.
  intros H. destruct (decide (MAX_TERMINALS <= size st)%nat) as [Hc|Hc].
  - by rewrite createTerminal_at_cap.
  - rewrite createTerminal_below_cap by lia.
    destruct spawns; simpl; [|done].
    unfold size, JsMap.size in *; simpl.
    etrans; [apply length_set|]. lia.
Qed.

Lemma writeToTerminal_size tid data st :
  size (writeToTerminal tid data st).2 = size st.
Proof.
  unfold writeToTerminal, bind, gets, modify, ret, size, JsMap.size; simpl.
  destruct (JsMap.get _ _ _); simpl; [apply length_update | done].
Qed.

Lemma resizeTerminal_size tid c r st :
  size (resizeTerminal tid c r st).2 = size st.
Proof.
  unfold resizeTerminal, bind, gets, modify, ret, size, JsMap.size; simpl.
  destruct (JsMap.get _ _ _); simpl; [apply length_update | done].
Qed.

Lemma destroyTerminal_size tid st :
  (size (destroyTerminal tid st).2 <= size st)%nat.
Proof.
  unfold destroyTerminal, bind, gets, modify, ret, size, JsMap.size; simpl.
  destruct (JsMap.get _ _ _); simpl; [apply length_delete | done].
Qed.

Lemma handle_size spawns m st :
  (size st <= MAX_TERMINALS)%nat ->
  (size (handle spawns m st).2 <= MAX_TERMINALS)%nat.
Proof.
  intros H. destruct m as [data|tid|tid data|tid c r]; simpl.
  - pose proof (createTerminal_size spawns (createArgs data).1 (createArgs data).2
                  st H) as Hs.
    destruct (createTerminal spawns _ _ st) as [[e|t] st']; simpl in *; done.
  - pose proof (destroyTerminal_size tid st). lia.
  - by rewrite writeToTerminal_size.
  - by rewrite resizeTerminal_size.
Qed.

Lemma onExit_size tid c st : (size (onExit tid c st) <= size st)%nat.
Proof.
  unfold onExit, send, reply, size, JsMap.size; simpl.
  destruct (windowAlive st); simpl; apply length_delete.
Qed.

(** Unknown identifiers: the three operations return normally and leave
    the registry as it was. *)
Lemma writeToTerminal_unknown tid data st :
  JsMap.get terminalId tid (ptyInstances st) = None ->
  writeToTerminal tid data st = (inr tt, st).
Proof. intros H. unfold writeToTerminal, bind, gets, ret. simpl. by rewrite H. Qed.

Lemma resizeTerminal_unknown tid c r st :
  JsMap.get terminalId tid (ptyInstances st) = None ->
  resizeTerminal tid c r st = (inr tt, st).
Proof. intros H. unfold resizeTerminal, bind, gets, ret. simpl. by rewrite H. Qed.

Lemma destroyTerminal_unknown tid st :
  JsMap.get terminalId tid (ptyInstances st) = None ->
  destroyTerminal tid st = (inr tt, st).
Proof. intros H. unfold destroyTerminal, bind, gets, ret. simpl. by rewrite H. Qed.

Lemma destroyTerminal_known tid st i :
  JsMap.get terminalId tid (ptyInstances st) = Some i ->
  destroyTerminal tid st =
    (inr tt, with_instances (JsMap.delete terminalId tid (ptyInstances st))
               (kill tid st)).
Proof.
  intros H. unfold destroyTerminal, bind, gets, modify, ret. simpl. by rewrite H.
Qed.

Lemma destroyTerminal_gone tid st :
  JsMap.get terminalId tid (ptyInstances (destroyTerminal tid st).2) = None.
Proof.
  destruct (JsMap.get terminalId tid (ptyInstances st)) eqn:E.
  - rewrite (destroyTerminal_known _ _ _ E). simpl. apply get_delete_eq.
  - by rewrite destroyTerminal_unknown.
Qed.

End PtyFacts.

(** ** The session store *)

Section ManagerFacts.
Import TerminalManager Spec.
Implicit Types (tm : T) (t u : TerminalState) (l : list TerminalState).

Lemma id_set_isActive b t : id (set_isActive b t) = id t.
Proof. done. Qed.

Lemma id_set_names n t : id (set_names n t) = id t.
Proof. done. Qed.

Lemma setActiveTerminal_eq terminalId tm :
  setActiveTerminal terminalId tm =
    _notifyStateChange
      (with_terminals
         (JsMap.update id terminalId (set_isActive true)
            (deactivate (activeTerminalId tm) (terminals tm)))
         (with_activeTerminalId (Some terminalId) tm)).
Proof.
  unfold setActiveTerminal, deactivate.
  destruct (activeTerminalId tm) as [a|]; [destruct (Js.truthy_string a)|]; done.
Qed.

Lemma notify_terminals tm : terminals (_notifyStateChange tm) = terminals tm.
Proof. unfold _notifyStateChange. by destruct (onStateChange tm). Qed.

Lemma notify_activeTerminalId tm :
  activeTerminalId (_notifyStateChange tm) = activeTerminalId tm.
Proof. unfold _notifyStateChange. by destruct (onStateChange tm). Qed.

Lemma notify_localStorage tm :
  localStorage (_notifyStateChange tm) = localStorage tm.
Proof. unfold _notifyStateChange. by destruct (onStateChange tm). Qed.

Lemma notify_onStateChange tm :
  onStateChange (_notifyStateChange tm) = onStateChange tm.
Proof. unfold _notifyStateChange. by destruct (onStateChange tm) eqn:E. Qed.

Lemma notify_notified tm :
  onStateChange tm = true ->
  notified (_notifyStateChange tm) = snapshot tm :: notified tm.
Proof. unfold _notifyStateChange. by intros ->. Qed.

Lemma setActiveTerminal_terminals terminalId tm :
  terminals (setActiveTerminal terminalId tm) =
    JsMap.update id terminalId (set_isActive true)
      (deactivate (activeTerminalId tm) (terminals tm)).
Proof. by rewrite setActiveTerminal_eq, notify_terminals. Qed.

Lemma setActiveTerminal_activeTerminalId terminalId tm :
  activeTerminalId (setActiveTerminal terminalId tm) = Some terminalId.
Proof. by rewrite setActiveTerminal_eq, notify_activeTerminalId. Qed.

Lemma keys_deactivate a l : JsMap.keys id (deactivate a l) = JsMap.keys id l.
Proof.
  unfold deactivate. destruct a as [a|]; [|done].
  destruct (Js.truthy_string a); [|done]. by apply keys_update.
Qed.

Lemma get_deactivate_ne a k l :
  a <> Some k -> JsMap.get id k (deactivate a l) = JsMap.get id k l.
Proof.
  unfold deactivate. intros Hne. destruct a as [a|]; [|done].
  destruct (Js.truthy_string a); [|done].
  apply get_update_ne; [done | congruence].
Qed.

Lemma get_deactivate_None a k l :
  JsMap.get id k l = None -> JsMap.get id k (deactivate a l) = None.
Proof.
  rewrite !get_None. by rewrite keys_deactivate.
Qed.

(** Under [pointerOwnsActive], deactivating the pointer's session leaves no
    session flagged active. *)
Lemma deactivate_all_inactive tm :
  JsMap.wf id (terminals tm) -> pointerOwnsActive tm ->
  forall t, t ∈ deactivate (activeTerminalId tm) (terminals tm) ->
    isActive t = false.
Proof.
  intros Hwf Hown t Hin. unfold deactivate in Hin.
  destruct (isActive t) eqn:Eact; [exfalso|done].
  destruct (activeTerminalId tm) as [a|] eqn:Ea.
  - destruct (Js.truthy_string a) eqn:Et.
    + apply elem_of_update_wf in Hin as [[Hin Hne]|(u & Hu & ->)]; [|done|done].
      destruct (Hown t Hin Eact) as [Hp _]. congruence.
    + destruct (Hown t Hin Eact) as [Hp Hne]. rewrite Ea in Hp.
      injection Hp as ->.
      apply truthy_string_true in Hne. congruence.
  - destruct (Hown t Hin Eact) as [Hp _]. congruence.
Qed.

Lemma setActiveTerminal_localStorage terminalId tm :
  localStorage (setActiveTerminal terminalId tm) = localStorage tm.
Proof. by rewrite setActiveTerminal_eq, notify_localStorage. Qed.

Lemma setActiveTerminal_ids terminalId tm :
  ids (setActiveTerminal terminalId tm) = ids tm.
Proof.
  unfold ids. rewrite setActiveTerminal_terminals, keys_update by done.
  apply keys_deactivate.
Qed.

Lemma closeTerminal_unknown terminalId tm :
  JsMap.get id terminalId (terminals tm) = None -> closeTerminal terminalId tm = tm.
Proof. unfold closeTerminal. by intros ->. Qed.

Lemma closeTerminal_ids terminalId tm :
  ids (closeTerminal terminalId tm) = filter (fun k => k <> terminalId) (ids tm).
Proof.
  unfold closeTerminal.
  destruct (JsMap.get id terminalId (terminals tm)) eqn:E.
  - unfold ids. rewrite notify_terminals.
    rewrite <- keys_delete.
    destruct (decide _) as [Ha|Ha]; [|done]. simpl.
    destruct (last _) as [a|]; [|done].
    destruct (Js.truthy_string a); [|done].
    apply (setActiveTerminal_ids a).
  - unfold ids. rewrite <- keys_delete. by rewrite delete_absent.
Qed.

Lemma closeTerminal_gone terminalId tm :
  JsMap.get id terminalId (terminals (closeTerminal terminalId tm)) = None.
Proof.
  apply get_None. fold (ids (closeTerminal terminalId tm)).
  rewrite closeTerminal_ids. by intros [H _]%list_elem_of_filter.
Qed.

Lemma filter_none {A} (P : A -> Prop) `{!forall x, Decision (P x)} (l : list A) :
  (forall x, x ∈ l -> ~ P x) -> filter P l = [].
Proof.
  induction l as [|a l IH]; intros Hall; [done|].
  rewrite filter_cons_False by (apply Hall; left).
  apply IH. intros x Hx. apply Hall. by right.
Qed.

Lemma selectFirst_localStorage p tm :
  localStorage (selectFirst p tm) = localStorage tm.
Proof.
  unfold selectFirst. destruct (getTerminalsByProject p tm); [done|].
  apply setActiveTerminal_localStorage.
Qed.

Lemma restoreProjectSession_localStorage p tm :
  localStorage (restoreProjectSession p tm) = localStorage tm.
Proof.
  unfold restoreProjectSession, tryRestore.
  destruct (parseAllSessions (localStorage tm)) as [all|]; [|done].
  destruct (all !! sessionKey p) as [sd|]; [|apply selectFirst_localStorage].
  set (tm3 := with_terminals _ _).
  assert (localStorage tm3 = localStorage tm) as <-.
  { unfold tm3. simpl.
    destruct (Js.truthy_string (savedGridLayout sd));
      destruct (Js.truthy_string (savedViewMode sd)); done. }
  destruct (savedActiveTerminalId sd) as [a|]; [|apply selectFirst_localStorage].
  destruct (Js.truthy_string a); [|apply selectFirst_localStorage].
  destruct (JsMap.get id a (terminals tm3)) as [t|]; [|apply selectFirst_localStorage].
  destruct (decide _);
    [apply setActiveTerminal_localStorage | apply selectFirst_localStorage].
Qed.

(** *** Sorting by creation time *)

Lemma elem_of_insert_by_createdAt t u l :
  u ∈ insert_by_createdAt t l <-> u = t \/ u ∈ l.
Proof.
  induction l as [|a l IH]; simpl.
  - rewrite list_elem_of_singleton, elem_of_nil. tauto.
  - destruct (createdAt t <=? createdAt a)%Z.
    + by rewrite elem_of_cons.
    + rewrite !elem_of_cons, IH. tauto.
Qed.

Lemma elem_of_sort_by_createdAt u l : u ∈ sort_by_createdAt l <-> u ∈ l.
Proof.
  induction l as [|a l IH]; simpl; [done|].
  rewrite elem_of_insert_by_createdAt, elem_of_cons, IH. done.
Qed.

Lemma sort_by_createdAt_nil l : sort_by_createdAt l = [] <-> l = [].
Proof.
  split; [|by intros ->]. destruct l as [|a l]; [done|]. simpl.
  destruct (sort_by_createdAt l) as [|b r]; simpl; [done|].
  by destruct (createdAt a <=? createdAt b)%Z.
Qed.

Lemma sort_by_createdAt_head_min l t r :
  sort_by_createdAt l = t :: r ->
  forall u, u ∈ l -> (createdAt t <= createdAt u)%Z.
Proof.
  revert t r. induction l as [|a l IH]; intros t r; simpl; [done|].
  destruct (sort_by_createdAt l) as [|b s] eqn:E; simpl.
  - apply sort_by_createdAt_nil in E as ->. intros [= <- <-] u Hu.
    apply list_elem_of_singleton in Hu as ->. lia.
  - destruct (createdAt a <=? createdAt b)%Z eqn:Hle.
    + intros [= <- <-] u [->|Hu]%elem_of_cons; [lia|].
      apply Z.leb_le in Hle. specialize (IH b s eq_refl u Hu). lia.
    + intros [= <- <-] u [->|Hu]%elem_of_cons.
      * apply Z.leb_gt in Hle. lia.
      * by apply (IH b s eq_refl).
Qed.

Lemma getTerminalsByProject_elem p tm t :
  t ∈ getTerminalsByProject p tm <-> t ∈ terminals tm /\ projectPath t = p.
Proof.
  unfold getTerminalsByProject.
  rewrite elem_of_sort_by_createdAt, list_elem_of_filter. tauto.
Qed.

Lemma getTerminalsByProject_nil p tm :
  getTerminalsByProject p tm = [] <-> inScope p tm = [].
Proof. apply sort_by_createdAt_nil. Qed.

Lemma inScope_nil p tm :
  inScope p tm = [] <-> p ∉ map projectPath (terminals tm).
Proof.
  unfold inScope. induction (terminals tm) as [|a l IH]; simpl.
  - split; [intros _; apply not_elem_of_nil | done].
  - rewrite filter_cons, not_elem_of_cons.
    destruct (decide (projectPath a = p)) as [Hp|Hp].
    + split; [done | intros [? _]; congruence].
    + rewrite IH. split; [intros ?; split; [congruence | done] | by intros [_ ?]].
Qed.

(** *** What operations leave untouched in every session *)

Lemma shape_update k (f : TerminalState -> TerminalState) l :
  (forall t, shape (f t) = shape t) ->
  map shape (JsMap.update id k f l) = map shape l.
Proof.
  intros Hf. induction l as [|a l IH]; simpl; [done|].
  destruct (JsMap.has_key id k a); simpl; [by rewrite Hf | by rewrite IH].
Qed.

Lemma shape_deactivate a l : map shape (deactivate a l) = map shape l.
Proof.
  unfold deactivate. destruct a as [a|]; [|done].
  destruct (Js.truthy_string a); [|done]. by apply shape_update.
Qed.

Lemma shape_restoreNames names ps l :
  map shape (restoreNames names ps l) = map shape l.
Proof.
  unfold restoreNames. revert l. induction ps as [|t ps IH]; intros l; simpl; [done|].
  rewrite IH. destruct (names !! id t) as [n|]; [|done].
  destruct (Js.truthy_string n); [|done]. by apply shape_update.
Qed.

Lemma shape_setActiveTerminal terminalId tm :
  map shape (terminals (setActiveTerminal terminalId tm)) = map shape (terminals tm).
Proof.
  rewrite setActiveTerminal_terminals, shape_update by done.
  apply shape_deactivate.
Qed.

Lemma shape_ids l l' : map shape l = map shape l' -> JsMap.keys id l = JsMap.keys id l'.
Proof.
  intros H. apply (f_equal (map (fun x => x.1.1))) in H.
  by rewrite <- !list_fmap_compose in H.
Qed.

Lemma shape_projectPaths l l' :
  map shape l = map shape l' -> map projectPath l = map projectPath l'.
Proof.
  intros H. apply (f_equal (map (fun x => x.1.2))) in H.
  by rewrite <- !list_fmap_compose in H.
Qed.

Lemma shape_elem l l' u :
  map shape l = map shape l' -> u ∈ l' -> exists t, t ∈ l /\ shape t = shape u.
Proof.
  intros H Hu.
  assert (shape u ∈ map shape l') as Hs by (by apply (list_elem_of_fmap_2 shape)).
  rewrite <- H in Hs.
  apply (list_elem_of_fmap_1 shape) in Hs as (t & ? & ?). eauto.
Qed.

(** *** Counting observer calls *)

Lemma notify_length tm :
  onStateChange tm = true ->
  length (notified (_notifyStateChange tm)) = S (length (notified tm)).
Proof. intros H. by rewrite notify_notified. Qed.

Lemma setActiveTerminal_onStateChange terminalId tm :
  onStateChange (setActiveTerminal terminalId tm) = onStateChange tm.
Proof. by rewrite setActiveTerminal_eq, notify_onStateChange. Qed.

Lemma setActiveTerminal_length terminalId tm :
  onStateChange tm = true ->
  length (notified (setActiveTerminal terminalId tm)) = S (length (notified tm)).
Proof. intros H. rewrite setActiveTerminal_eq. by rewrite notify_length. Qed.

Lemma renameTerminal_length terminalId newName tm :
  onStateChange tm = true ->
  length (notified (renameTerminal terminalId newName tm)) =
    ((if JsMap.has id terminalId (terminals tm) then 1 else 0)
     + length (notified tm))%nat.
Proof.
  intros H. unfold renameTerminal, JsMap.has.
  destruct (JsMap.get id terminalId (terminals tm)); [|done].
  by rewrite notify_length.
Qed.

Lemma closeTerminal_length terminalId tm :
  onStateChange tm = true ->
  length (notified (closeTerminal terminalId tm)) =
    ((if JsMap.has id terminalId (terminals tm)
      then (if promotes terminalId tm then 2 else 1) else 0)
     + length (notified tm))%nat.
Proof.
  intros H. unfold closeTerminal, JsMap.has, promotes.
  destruct (JsMap.get id terminalId (terminals tm)); [|done]. simpl.
  destruct (decide (activeTerminalId tm = Some terminalId)) as [Ha|Ha].
  - rewrite bool_decide_true by done. simpl.
    destruct (last _) as [a|]; simpl; [|by rewrite notify_length].
    destruct (Js.truthy_string a); [|by rewrite notify_length].
    rewrite notify_length by (by rewrite setActiveTerminal_onStateChange).
    by rewrite setActiveTerminal_length.
  - rewrite bool_decide_false by done. by rewrite notify_length.
Qed.

Lemma saveProjectSession_eq q tm :
  exists i, saveProjectSession q tm = with_localStorage i tm /\
            (parseAllSessions i = None <-> parseAllSessions (localStorage tm) = None).
Proof.
  unfold saveProjectSession.
  destruct (getTerminalsByProject q tm).
  { exists (localStorage tm). split; [by destruct tm | done]. }
  destruct (parseAllSessions (localStorage tm)) eqn:E.
  - eexists. split; [done|]. simpl. split; discriminate.
  - exists (localStorage tm). split; [by destruct tm | by rewrite E].
Qed.

Lemma selectFirst_length p tm :
  onStateChange tm = true ->
  length (notified (selectFirst p tm)) =
    ((if bool_decide (inScope p tm <> []) then 1 else 0) + length (notified tm))%nat.
Proof.
  intros H. unfold selectFirst.
  destruct (getTerminalsByProject p tm) as [|t r] eqn:E.
  - apply getTerminalsByProject_nil in E.
    by rewrite bool_decide_false by (by intros []).
  - rewrite bool_decide_true, setActiveTerminal_length; [done..|].
    intros Hn%getTerminalsByProject_nil. congruence.
Qed.

Lemma restoreProjectSession_length p tm :
  onStateChange tm = true ->
  length (notified (restoreProjectSession p tm)) =
    ((if restoreActivates p tm then 1 else 0) + length (notified tm))%nat.
Proof.
  intros H. unfold restoreProjectSession, tryRestore, restoreActivates.
  destruct (parseAllSessions (localStorage tm)) as [all|]; [|done].
  destruct (all !! sessionKey p) as [sd|]; [|by apply selectFirst_length].
  set (tm3 := with_terminals _ _).
  assert (onStateChange tm3 = true) as H3.
  { unfold tm3. simpl.
    destruct (Js.truthy_string (savedGridLayout sd));
      destruct (Js.truthy_string (savedViewMode sd)); done. }
  assert (notified tm3 = notified tm) as Hn.
  { unfold tm3. simpl.
    destruct (Js.truthy_string (savedGridLayout sd));
      destruct (Js.truthy_string (savedViewMode sd)); done. }
  assert (map shape (terminals tm3) = map shape (terminals tm)) as Hs.
  { unfold tm3. simpl. rewrite shape_restoreNames.
    destruct (Js.truthy_string (savedGridLayout sd));
      destruct (Js.truthy_string (savedViewMode sd)); done. }
  assert (bool_decide (inScope p tm3 <> []) = bool_decide (inScope p tm <> [])) as Hb.
  { apply bool_decide_ext. rewrite !inScope_nil.
    by rewrite (shape_projectPaths _ _ Hs). }
  rewrite <- Hn, <- Hb.
  destruct (savedActiveTerminalId sd) as [a|]; [|by apply selectFirst_length].
  destruct (Js.truthy_string a); [|by apply selectFirst_length].
  destruct (JsMap.get id a (terminals tm3)) as [t|] eqn:Eg;
    [|by apply selectFirst_length].
  destruct (decide _) as [Hp|Hp]; [|by apply selectFirst_length].
  rewrite setActiveTerminal_length by done.
  rewrite bool_decide_true; [done|].
  apply get_Some in Eg as [_ Hin]. intros Hnil.
  assert (t ∈ inScope p tm3) as Ht by (by apply list_elem_of_filter).
  rewrite Hnil in Ht. by apply elem_of_nil in Ht.
Qed.

Lemma setCurrentProject_length p tm :
  onStateChange tm = true ->
  length (notified (setCurrentProject p tm)) =
    ((if restoreActivates p tm then 2 else 1) + length (notified tm))%nat.
Proof.
  intros H. unfold setCurrentProject.
  set (tm1 := if decide _ then _ else _).
  assert (exists i, tm1 = with_localStorage i tm /\
            (parseAllSessions i = None <-> parseAllSessions (localStorage tm) = None))
    as (i & -> & Hi).
  { unfold tm1. destruct (decide _); [|apply saveProjectSession_eq].
    exists (localStorage tm). split; [by destruct tm | done]. }
  set (tm2 := with_currentProjectPath p _).
  assert (restoreActivates p tm2 = restoreActivates p tm) as Hr.
  { unfold restoreActivates. simpl.
    destruct (parseAllSessions i), (parseAllSessions (localStorage tm));
      try done.
    - destruct Hi as [_ Hi]. by specialize (Hi eq_refl).
    - destruct Hi as [Hi _]. by specialize (Hi eq_refl). }
  rewrite notify_length.
  - rewrite restoreProjectSession_length by done. rewrite Hr. simpl.
    by destruct (restoreActivates p tm).
  - unfold restoreProjectSession, tryRestore.
    destruct (parseAllSessions (localStorage tm2)) as [all|]; [|done].
    assert (forall q x, onStateChange x = true -> onStateChange (selectFirst q x) = true)
      as Hsel.
    { intros q x Hx. unfold selectFirst. destruct (getTerminalsByProject q x); [done|].
      by rewrite setActiveTerminal_onStateChange. }
    destruct (all !! sessionKey p) as [sd|]; [|by apply Hsel].
    set (tm3 := with_terminals _ _).
    assert (onStateChange tm3 = true) as H3.
    { unfold tm3. simpl.
      destruct (Js.truthy_string (savedGridLayout sd));
        destruct (Js.truthy_string (savedViewMode sd)); done. }
    destruct (savedActiveTerminalId sd) as [a|]; [|by apply Hsel].
    destruct (Js.truthy_string a); [|by apply Hsel].
    destruct (JsMap.get id a (terminals tm3)) as [t|]; [|by apply Hsel].
    destruct (decide _); [|by apply Hsel].
    by rewrite setActiveTerminal_onStateChange.
Qed.

(** *** Adding a session *)

Lemma update_snoc k (f : TerminalState -> TerminalState) l t :
  JsMap.get id k l = None -> id t = k ->
  JsMap.update id k f (l ++ [t]) = l ++ [f t].
Proof.
  unfold JsMap.get. intros Hk Ht. induction l as [|a l IH]; simpl in *.
  - unfold JsMap.has_key. by rewrite bool_decide_true.
  - destruct (JsMap.has_key id k a); [done|]. by rewrite IH.
Qed.

Lemma activatesNew_fresh terminalId tm :
  JsMap.get id terminalId (terminals tm) = None ->
  activatesNew terminalId tm =
    bool_decide (terminals tm = []) || negb (Js.truthy (activeTerminalId tm)).
Proof.
  unfold activatesNew, JsMap.get. intros H.
  destruct (terminals tm) as [|t [|u l]]; simpl in *; [done| |done].
  unfold JsMap.has_key in H. by case_bool_decide.
Qed.

(** [_initializeTerminal] on an id the map does not hold: the session is
    appended, no other session is touched, and the new one is activated
    exactly when it is alone or the pointer is falsy. *)
Lemma _initializeTerminal_fresh terminalId options now tm :
  JsMap.get id terminalId (terminals tm) = None ->
  let tm' := _initializeTerminal terminalId options now tm in
  let act := activatesNew terminalId tm in
  terminals tm' =
    terminals tm ++ [set_isActive act (newState terminalId options now tm)] /\
  activeTerminalId tm' = (if act then Some terminalId else activeTerminalId tm).
Proof.
  intros Hfresh tm' act.
  assert (act = bool_decide (terminals tm = [])
                || negb (Js.truthy (activeTerminalId tm))) as Hact
    by (by apply activatesNew_fresh).
  unfold tm', _initializeTerminal.
  set (named := match optName options with Some n => _ | None => _ end).
  set (tm1 := match named with Some _ => tm | None => _ end).
  assert (terminals tm1 = terminals tm) as Ht1 by (unfold tm1; by destruct named).
  assert (activeTerminalId tm1 = activeTerminalId tm) as Ha1
    by (unfold tm1; by destruct named).
  set (state := Build_TerminalState _ _ _ _ _ _).
  assert (state = newState terminalId options now tm) as Hstate.
  { unfold state, newState, tm1, named, resolveProjectPath.
    destruct (optName options) as [n|]; [destruct (Js.truthy_string n)|];
      simpl; done. }
  rewrite notify_terminals, notify_activeTerminalId. simpl.
  rewrite Ht1, Ha1, set_absent by done.
  assert ((JsMap.size (terminals tm ++ [state]) =? 1)%nat
          = bool_decide (terminals tm = [])) as ->.
  { unfold JsMap.size. rewrite length_app. simpl.
    destruct (terminals tm); simpl; [done|].
    apply Nat.eqb_neq. lia. }
  rewrite <- Hact, <- Hstate. destruct act eqn:Eact; [|done].
  rewrite setActiveTerminal_terminals, setActiveTerminal_activeTerminalId.
  split; [|done]. cbn [terminals activeTerminalId with_terminals]. rewrite Ha1.
  symmetry in Hact. apply orb_true_iff in Hact as [Hempty|Hfalsy].
  - apply bool_decide_eq_true in Hempty. rewrite Hempty in *. simpl.
    unfold deactivate. destruct (activeTerminalId tm) as [a|]; simpl.
    + destruct (Js.truthy_string a); simpl.
      * unfold JsMap.has_key at 1. simpl. case_bool_decide; simpl;
          unfold JsMap.has_key; simpl; by rewrite bool_decide_true.
      * unfold JsMap.has_key. simpl. by rewrite bool_decide_true.
    + unfold JsMap.has_key. simpl. by rewrite bool_decide_true.
  - assert (deactivate (activeTerminalId tm) (terminals tm ++ [state])
            = terminals tm ++ [state]) as ->.
    { unfold deactivate. destruct (activeTerminalId tm) as [a|]; [|done].
      simpl in Hfalsy. by destruct (Js.truthy_string a). }
    by apply update_snoc.
Qed.

Lemma _initializeTerminal_length terminalId options now tm :
  onStateChange tm = true ->
  length (notified (_initializeTerminal terminalId options now tm)) =
    ((if activatesNew terminalId tm then 2 else 1) + length (notified tm))%nat.
Proof.
  intros H. unfold _initializeTerminal.
  set (named := match optName options with Some n => _ | None => _ end).
  set (tm1 := match named with Some _ => tm | None => _ end).
  assert (terminals tm1 = terminals tm) as Ht1 by (unfold tm1; by destruct named).
  assert (activeTerminalId tm1 = activeTerminalId tm) as Ha1
    by (unfold tm1; by destruct named).
  assert (onStateChange tm1 = true) as Ho1 by (unfold tm1; by destruct named).
  assert (notified tm1 = notified tm) as Hn1 by (unfold tm1; by destruct named).
  set (state := Build_TerminalState _ _ _ _ _ _).
  set (tm2 := with_terminals _ tm1).
  assert ((JsMap.size (terminals tm2) =? 1)%nat
          || negb (Js.truthy (activeTerminalId tm2))
          = activatesNew terminalId tm) as ->.
  { unfold activatesNew, tm2. simpl. rewrite Ht1, Ha1. f_equal.
    unfold JsMap.size. destruct (terminals tm) as [|t [|u l]]; simpl; [done| |].
    - unfold JsMap.has_key. simpl. by case_bool_decide.
    - unfold JsMap.has_key. simpl.
      destruct (bool_decide (id t = terminalId)); simpl; [done|].
      destruct (bool_decide (id u = terminalId)); simpl; [done|].
      by destruct (JsMap.set id state l). }
  destruct (activatesNew terminalId tm).
  - rewrite notify_length by (by rewrite setActiveTerminal_onStateChange).
    rewrite setActiveTerminal_length by done. simpl. by rewrite Hn1.
  - rewrite notify_length by done. simpl. by rewrite Hn1.
Qed.

(** *** What operations leave alone *)

Lemma sameWiring_refl tm : sameWiring tm tm.
Proof. by unfold sameWiring. Qed.

Lemma sameWiring_trans tm1 tm2 tm3 :
  sameWiring tm1 tm2 -> sameWiring tm2 tm3 -> sameWiring tm1 tm3.
Proof. unfold sameWiring. intros (?&?&?&?) (?&?&?&?). repeat split; congruence. Qed.

Lemma sameWiring_notify tm : sameWiring tm (_notifyStateChange tm).
Proof.
  unfold sameWiring, _notifyStateChange.
  by destruct (onStateChange tm) eqn:E.
Qed.

Lemma sameWiring_setActiveTerminal terminalId tm :
  sameWiring tm (setActiveTerminal terminalId tm).
Proof.
  rewrite setActiveTerminal_eq.
  eapply sameWiring_trans; [|apply sameWiring_notify]. by unfold sameWiring.
Qed.

Lemma sameWiring_renameTerminal terminalId newName tm :
  sameWiring tm (renameTerminal terminalId newName tm).
Proof.
  unfold renameTerminal. destruct (JsMap.get _ _ _); [|apply sameWiring_refl].
  eapply sameWiring_trans; [|apply sameWiring_notify]. by unfold sameWiring.
Qed.

Lemma sameWiring_setViewMode mode tm : sameWiring tm (setViewMode mode tm).
Proof.
  unfold setViewMode.
  eapply sameWiring_trans; [|apply sameWiring_notify]. by unfold sameWiring.
Qed.

Lemma sameWiring_setGridLayout layout tm : sameWiring tm (setGridLayout layout tm).
Proof.
  unfold setGridLayout.
  eapply sameWiring_trans; [|apply sameWiring_notify]. by unfold sameWiring.
Qed.

Lemma sameWiring_selectFirst p tm : sameWiring tm (selectFirst p tm).
Proof.
  unfold selectFirst. destruct (getTerminalsByProject p tm); [done|].
  apply sameWiring_setActiveTerminal.
Qed.

Lemma sameWiring_restoreProjectSession p tm :
  sameWiring tm (restoreProjectSession p tm).
Proof.
  unfold restoreProjectSession, tryRestore.
  destruct (parseAllSessions (localStorage tm)) as [all|]; [|apply sameWiring_refl].
  destruct (all !! sessionKey p) as [sd|]; [|apply sameWiring_selectFirst].
  set (tm3 := with_terminals _ _).
  assert (sameWiring tm tm3) as H3.
  { unfold tm3, sameWiring. simpl.
    destruct (Js.truthy_string (savedGridLayout sd));
      destruct (Js.truthy_string (savedViewMode sd)); done. }
  apply (sameWiring_trans _ _ _ H3).
  destruct (savedActiveTerminalId sd) as [a|]; [|apply sameWiring_selectFirst].
  destruct (Js.truthy_string a); [|apply sameWiring_selectFirst].
  destruct (JsMap.get id a (terminals tm3)) as [t|]; [|apply sameWiring_selectFirst].
  destruct (decide _);
    [apply sameWiring_setActiveTerminal | apply sameWiring_selectFirst].
Qed.

Lemma sameWiring_setCurrentProject p tm : sameWiring tm (setCurrentProject p tm).
Proof.
  unfold setCurrentProject.
  eapply sameWiring_trans; [|apply sameWiring_notify].
  eapply sameWiring_trans; [|apply sameWiring_restoreProjectSession].
  destruct (decide _); [done|].
  destruct (saveProjectSession_eq (currentProjectPath tm) tm) as (i & -> & _).
  done.
Qed.

Lemma sameWiring_initializeTerminal terminalId options now tm :
  sameWiring tm (_initializeTerminal terminalId options now tm).
Proof.
  unfold _initializeTerminal.
  set (named := match optName options with Some n => _ | None => _ end).
  set (tm1 := match named with Some _ => tm | None => _ end).
  assert (sameWiring tm tm1) as H1 by (unfold tm1; by destruct named).
  apply (sameWiring_trans _ _ _ H1).
  eapply sameWiring_trans; [|apply sameWiring_notify].
  destruct (_ || _); [|done].
  eapply sameWiring_trans; [|apply sameWiring_setActiveTerminal]. done.
Qed.

Lemma closeTerminal_wiring terminalId tm :
  outbox (closeTerminal terminalId tm) =
    (if JsMap.has id terminalId (terminals tm)
     then outbox tm ++ [IPC.TERMINAL_DESTROY terminalId] else outbox tm) /\
  listeners (closeTerminal terminalId tm) = listeners tm /\
  maxTerminals (closeTerminal terminalId tm) = maxTerminals tm /\
  onStateChange (closeTerminal terminalId tm) = onStateChange tm.
Proof.
  unfold closeTerminal, JsMap.has.
  destruct (JsMap.get id terminalId (terminals tm)); [|done].
  set (tm2 := ipcSend _ _).
  set (tm3 := if decide _ then _ else _).
  assert (sameWiring tm2 tm3) as H3.
  { unfold tm3. destruct (decide _); [|apply sameWiring_refl]. simpl.
    destruct (last _) as [a|]; [|done].
    destruct (Js.truthy_string a); [|done].
    eapply sameWiring_trans; [|apply sameWiring_setActiveTerminal]. done. }
  pose proof (sameWiring_trans _ _ _ H3 (sameWiring_notify tm3)) as (-> & -> & -> & ->).
  done.
Qed.

(** *** Sessions keep their identity *)

Lemma shape_renameTerminal terminalId newName tm :
  map shape (terminals (renameTerminal terminalId newName tm)) =
    map shape (terminals tm).
Proof.
  unfold renameTerminal. destruct (JsMap.get _ _ _); [|done].
  rewrite notify_terminals. simpl. by apply shape_update.
Qed.

Lemma shape_selectFirst p tm :
  map shape (terminals (selectFirst p tm)) = map shape (terminals tm).
Proof.
  unfold selectFirst. destruct (getTerminalsByProject p tm); [done|].
  apply shape_setActiveTerminal.
Qed.

Lemma shape_restoreProjectSession p tm :
  map shape (terminals (restoreProjectSession p tm)) = map shape (terminals tm).
Proof.
  unfold restoreProjectSession, tryRestore.
  destruct (parseAllSessions (localStorage tm)) as [all|]; [|done].
  destruct (all !! sessionKey p) as [sd|]; [|apply shape_selectFirst].
  set (tm3 := with_terminals _ _).
  assert (map shape (terminals tm3) = map shape (terminals tm)) as <-.
  { unfold tm3. simpl. rewrite shape_restoreNames.
    destruct (Js.truthy_string (savedGridLayout sd));
      destruct (Js.truthy_string (savedViewMode sd)); done. }
  destruct (savedActiveTerminalId sd) as [a|]; [|apply shape_selectFirst].
  destruct (Js.truthy_string a); [|apply shape_selectFirst].
  destruct (JsMap.get id a (terminals tm3)) as [t|]; [|apply shape_selectFirst].
  destruct (decide _); [apply shape_setActiveTerminal | apply shape_selectFirst].
Qed.

Lemma shape_setCurrentProject p tm :
  map shape (terminals (setCurrentProject p tm)) = map shape (terminals tm).
Proof.
  unfold setCurrentProject.
  rewrite notify_terminals, shape_restoreProjectSession. simpl.
  destruct (decide _); [done|].
  by destruct (saveProjectSession_eq (currentProjectPath tm) tm) as (i & -> & _).
Qed.

End ManagerFacts.

(** ** Claims settled on single operations *)

Section OperationClaims.
Import TerminalManager Spec.

(** C8.  Saving a scope that has no live session returns before any access
    to [localStorage]: the store, and with it every persisted record, is
    unchanged; leaving such a scope through [setCurrentProject] therefore
    writes nothing either. *)
Theorem C8_save_empty_scope_writes_nothing (p : option string) (tm : T) :
  (forall t, t ∈ terminals tm -> projectPath t <> p) ->
  saveProjectSession p tm = tm /\
  (currentProjectPath tm = p ->
   forall q, localStorage (setCurrentProject q tm) = localStorage tm).
Proof.
  intros Hempty.
  assert (saveProjectSession p tm = tm) as Hsave.
  { unfold saveProjectSession, getTerminalsByProject.
    by rewrite (filter_none _ _ Hempty). }
  split; [done|]. intros Hcur q. unfold setCurrentProject.
  rewrite notify_localStorage, restoreProjectSession_localStorage. simpl.
  destruct (decide _); [done|]. by rewrite Hcur, Hsave.
Qed.

Lemma C8_save_empty_scope_writes_nothing_witness :
  saveProjectSession (Some "/proj") Sample.twoTabs = Sample.twoTabs.
Proof.
  apply (C8_save_empty_scope_writes_nothing (Some "/proj") Sample.twoTabs).
  refine (proj1 (Forall_forall (fun t => projectPath t <> Some "/proj") _) _).
  repeat constructor; simpl; discriminate.
Defined.

(** C5 as stated fails: the first creation of a run calls the observer
    twice, once from [setActiveTerminal] and once from
    [_initializeTerminal] itself. *)
Lemma C5_first_create_notifies_twice :
  emitted (Frame.renderer Sample.boot)
    (Frame.renderer
       (Frame.exec (Sample.at_time 10 (Frame.createSession Sample.noOptions))
          Sample.boot)) = 2%nat /\
  emitted (Frame.renderer Sample.boot)
    (Frame.renderer
       (Frame.exec (Sample.at_time 10 (Frame.createSession Sample.noOptions))
          Sample.boot)) <> 1%nat.
Proof. split; [by vm_compute | vm_compute; discriminate]. Qed.

(** C5, amended.  With an observer installed, the number of notifications
    of an operation is fixed by the nested call of [setActiveTerminal]:
    [setActiveTerminal], [setViewMode] and [setGridLayout] notify once;
    [renameTerminal] once for a live session, not at all for an unknown id;
    [closeTerminal] not at all for an unknown id, twice when it closes the
    session the pointer names and hands the pointer on, once otherwise;
    [setCurrentProject] twice when the restore step activates a session,
    once otherwise; the completion of a creation twice when it activates
    the new session, once otherwise; a creation refused or still pending
    not at all. *)
Theorem C5_notifications_per_operation (tm : T) :
  onStateChange tm = true ->
  (forall t, emitted tm (setActiveTerminal t tm) = 1%nat) /\
  (forall mode, emitted tm (setViewMode mode tm) = 1%nat) /\
  (forall layout, emitted tm (setGridLayout layout tm) = 1%nat) /\
  (forall t n,
     emitted tm (renameTerminal t n tm) =
       if JsMap.has id t (terminals tm) then 1%nat else 0%nat) /\
  (forall t,
     emitted tm (closeTerminal t tm) =
       if JsMap.has id t (terminals tm)
       then (if promotes t tm then 2%nat else 1%nat) else 0%nat) /\
  (forall p,
     emitted tm (setCurrentProject p tm) =
       if restoreActivates p tm then 2%nat else 1%nat) /\
  (forall t options now,
     emitted tm (_initializeTerminal t options now tm) =
       if activatesNew t tm then 2%nat else 1%nat) /\
  (forall options, emitted tm (createTerminal options tm).1 = 0%nat).
Proof.
  intros H. unfold emitted. repeat split.
  - intros t. rewrite setActiveTerminal_length by done. lia.
  - intros mode. unfold setViewMode. rewrite notify_length by done. simpl. lia.
  - intros layout. unfold setGridLayout. rewrite notify_length by done. simpl. lia.
  - intros t n. rewrite renameTerminal_length by done.
    destruct (JsMap.has id t (terminals tm)); lia.
  - intros t. rewrite closeTerminal_length by done.
    destruct (JsMap.has id t (terminals tm)); [destruct (promotes t tm)|]; lia.
  - intros p. rewrite setCurrentProject_length by done.
    destruct (restoreActivates p tm); lia.
  - intros t options now. rewrite _initializeTerminal_length by done.
    destruct (activatesNew t tm); lia.
  - intros options. unfold createTerminal.
    destruct (_ <=? _)%nat; simpl; lia.
Qed.

Lemma C5_notifications_per_operation_witness :
  emitted Sample.twoTabs (closeTerminal "term-1" Sample.twoTabs) = 2%nat /\
  emitted Sample.twoTabs (closeTerminal "term-2" Sample.twoTabs) = 1%nat /\
  emitted Sample.twoTabs (setCurrentProject (Some "/proj") Sample.twoTabs) = 1%nat.
Proof.
  pose proof (C5_notifications_per_operation Sample.twoTabs eq_refl)
    as (_ & _ & _ & _ & Hclose & Hswitch & _).
  split; [exact (Hclose "term-1") | split; [exact (Hclose "term-2")|]].
  exact (Hswitch (Some "/proj")).
Defined.

End OperationClaims.

(** ** The two processes together *)

Section FrameFacts.
Import TerminalManager Spec Frame.
Implicit Types (s : Frame.State) (m : PtyManager.State) (r : T).

Lemma with_outbox_id r : outbox r = [] -> with_outbox [] r = r.
Proof. destruct r; simpl; by intros ->. Qed.

Lemma with_queues_id m :
  PtyManager.killed m = [] -> PtyManager.sent m = [] ->
  PtyManager.with_queues [] [] m = m.
Proof. destruct m; simpl; by intros -> ->. Qed.

Lemma exit_all_quiet m : PtyManager.killed m = [] -> exit_all m = m.
Proof. unfold exit_all. intros Hk. rewrite Hk. simpl. destruct m; simpl in *; by subst. Qed.

Lemma round_quiet spawns now s :
  outbox (renderer s) = [] ->
  PtyManager.killed (main s) = [] -> PtyManager.sent (main s) = [] ->
  round spawns now s = (s, []).
Proof.
  intros Ho Hk Hs. unfold round, run_main, run_renderer. rewrite Ho.
  cbn [handle_all foldl main renderer]. rewrite exit_all_quiet by done.
  rewrite Hs, Hk. cbn [receive_all foldl fst snd].
  rewrite with_queues_id, with_outbox_id by done. by destruct s.
Qed.

Lemma settle_quiet spawns now s :
  outbox (renderer s) = [] ->
  PtyManager.killed (main s) = [] -> PtyManager.sent (main s) = [] ->
  settle spawns now s = (s, []).
Proof. intros Ho Hk Hs. unfold settle. by rewrite !round_quiet. Qed.

(** A round followed by quiet. *)
Lemma settle_one_round spawns now s s' out :
  round spawns now s = (s', out) ->
  outbox (renderer s') = [] ->
  PtyManager.killed (main s') = [] -> PtyManager.sent (main s') = [] ->
  settle spawns now s = (s', out).
Proof.
  intros Hr Ho Hk Hs. unfold settle. rewrite Hr, round_quiet by done.
  by rewrite app_nil_r.
Qed.

Lemma step_on_renderer spawns now s f :
  consistent s -> sameWiring (renderer s) (f (renderer s)) ->
  settle spawns now (on_renderer f s) = (on_renderer f s, []).
Proof.
  intros Hc (Ho & _). apply settle_quiet; simpl.
  - rewrite Ho. apply Hc.
  - apply Hc.
  - apply Hc.
Qed.

Lemma delete_delete {A} (key : A -> string) k (l : list A) :
  JsMap.delete key k (JsMap.delete key k l) = JsMap.delete key k l.
Proof. apply delete_absent, get_delete_eq. Qed.

Lemma consistent_has s t :
  consistent s ->
  PtyManager.hasTerminal t (main s) = JsMap.has id t (terminals (renderer s)).
Proof.
  intros Hc. apply eq_true_iff_eq. unfold PtyManager.hasTerminal.
  rewrite !has_true. fold (ids (renderer s)).
  by rewrite (same_ids _ Hc).
Qed.

(** The main process receives [TERMINAL_DESTROY] for a live process: it
    kills it, and the exit event announces the destruction. *)
Lemma run_main_destroy spawns m r t i :
  outbox r = [IPC.TERMINAL_DESTROY t] ->
  JsMap.get PtyManager.terminalId t (PtyManager.ptyInstances m) = Some i ->
  PtyManager.killed m = [] -> PtyManager.sent m = [] ->
  PtyManager.windowAlive m = true ->
  run_main spawns {| main := m; renderer := r |} =
    {| main := PtyManager.reply (IPC.TERMINAL_DESTROYED t 0) (without t m);
       renderer := with_outbox [] r |}.
Proof.
  intros Ho Hi Hk Hs Hw. unfold run_main. cbn [main renderer]. rewrite Ho.
  cbn [handle_all foldl PtyManager.handle].
  rewrite (destroyTerminal_known _ _ _ Hi). cbn [snd].
  f_equal. unfold exit_all, PtyManager.onExit, PtyManager.send, without.
  destruct m; simpl in *; subst. simpl. by rewrite delete_delete.
Qed.

Lemma run_renderer_one now m r msg :
  PtyManager.sent m = [msg] ->
  run_renderer now {| main := m; renderer := r |} =
    ({| main := PtyManager.with_queues (PtyManager.killed m) [] m;
        renderer := (receive now msg r).1 |}, (receive now msg r).2).
Proof.
  intros Hs. unfold run_renderer. cbn [main renderer]. rewrite Hs.
  cbn [receive_all foldl fst snd]. by destruct (receive now msg r).
Qed.

Lemma step_closeSession spawns now s t :
  consistent s ->
  step spawns now (closeSession t) s =
    if JsMap.has id t (terminals (renderer s)) then
      ({| main := without t (main s);
          renderer := with_outbox [] (closeTerminal t (renderer s)) |}, [])
    else (s, []).
Proof.
  intros Hc. pose proof (consistent_has s t Hc) as Hhas.
  destruct (JsMap.has id t (terminals (renderer s))) eqn:Eh.
  - destruct (closeTerminal_wiring t (renderer s)) as (Ho & Hl & _).
    rewrite Eh, (quiet_outbox _ Hc) in Ho. simpl in Ho.
    unfold PtyManager.hasTerminal, JsMap.has in Hhas.
    destruct (JsMap.get PtyManager.terminalId t (PtyManager.ptyInstances (main s)))
      as [i|] eqn:Ei; [|done].
    pose proof (closeTerminal_gone t (renderer s)) as Hgone.
    cbn [step]. apply settle_one_round; cbn [main renderer];
      [|done|apply (quiet_killed _ Hc)|apply (quiet_sent _ Hc)].
    unfold round, on_renderer.
    rewrite (run_main_destroy _ _ _ t i); [|done|done|apply Hc..].
    rewrite (run_renderer_one _ _ _ (IPC.TERMINAL_DESTROYED t 0))
      by (unfold without; cbn; by rewrite (quiet_sent _ Hc)).
    cbn [receive]. unfold JsMap.has. cbn [terminals with_outbox].
    rewrite Hgone. cbn [fst snd]. f_equal. f_equal.
    unfold without. pose proof (quiet_killed _ Hc). pose proof (quiet_sent _ Hc).
    destruct (main s); simpl in *; by subst.
  - unfold JsMap.has in Eh. cbn [step]. unfold on_renderer.
    rewrite closeTerminal_unknown by (by destruct (JsMap.get _ _ _)).
    replace {| main := main s; renderer := renderer s |} with s by (by destruct s).
    apply settle_quiet; apply Hc.
Qed.

(** The exit of a live process: the registry drops it and tells the
    store, which closes the session and sends a [TERMINAL_DESTROY] that
    finds nothing left. *)
Lemma step_processExit spawns now s t c :
  consistent s ->
  step spawns now (processExit t c) s =
    if JsMap.has id t (terminals (renderer s)) then
      ({| main := without t (main s);
          renderer := with_outbox [] (closeTerminal t (renderer s)) |}, [])
    else (s, []).
Proof.
  intros Hc. cbn [step]. rewrite (consistent_has s t Hc).
  destruct (JsMap.has id t (terminals (renderer s))) eqn:Eh; [|done].
  destruct (closeTerminal_wiring t (renderer s)) as (Ho & Hl & _).
  rewrite Eh, (quiet_outbox _ Hc) in Ho. simpl in Ho.
  pose proof (quiet_killed _ Hc) as Hk. pose proof (quiet_sent _ Hc) as Hs.
  pose proof (window_alive _ Hc) as Hw. pose proof (quiet_outbox _ Hc) as Hob.
  assert (PtyManager.onExit t c (main s)
          = PtyManager.reply (IPC.TERMINAL_DESTROYED t c) (without t (main s)))
    as ->.
  { unfold PtyManager.onExit, PtyManager.send, without. cbn. by rewrite Hw. }
  unfold settle.
  assert (round spawns now
            {| main := PtyManager.reply (IPC.TERMINAL_DESTROYED t c)
                         (without t (main s));
               renderer := renderer s |}
          = ({| main := without t (main s);
                renderer := closeTerminal t (renderer s) |}, [])) as ->.
  { unfold round, run_main. cbn [main renderer]. rewrite Hob.
    cbn [handle_all foldl].
    rewrite exit_all_quiet by (by unfold without; cbn).
    rewrite (run_renderer_one _ _ _ (IPC.TERMINAL_DESTROYED t c))
      by (unfold without; cbn; by rewrite Hs).
    cbn [receive]. rewrite with_outbox_id by done. rewrite Eh. cbn [fst snd].
    f_equal. f_equal. unfold without.
    destruct (main s); simpl in *; by subst. }
  assert (round spawns now
            {| main := without t (main s);
               renderer := closeTerminal t (renderer s) |}
          = ({| main := without t (main s);
                renderer := with_outbox [] (closeTerminal t (renderer s)) |}, []))
    as ->; [|done].
  unfold round, run_main. cbn [main renderer]. rewrite Ho.
  cbn [handle_all foldl PtyManager.handle].
  rewrite destroyTerminal_unknown by (unfold without; cbn; apply get_delete_eq).
  cbn [snd]. rewrite exit_all_quiet by (by unfold without; cbn).
  unfold run_renderer. cbn [main renderer].
  replace (PtyManager.sent (without t (main s))) with (@nil IPC.ToRenderer)
    by (unfold without; cbn; by rewrite Hs).
  cbn [receive_all foldl fst snd]. f_equal. f_equal.
  unfold without. destruct (main s); simpl in *; by subst.
Qed.

Lemma consistent_size s :
  consistent s -> PtyManager.size (main s) = length (terminals (renderer s)).
Proof.
  intros Hc. unfold PtyManager.size, JsMap.size.
  rewrite <- (length_map PtyManager.terminalId), <- (length_map id (terminals _)).
  f_equal. symmetry. apply (same_ids _ Hc).
Qed.

Lemma step_createSession spawns now s options :
  consistent s ->
  step spawns now (createSession options) s =
    if (9 <=? length (terminals (renderer s)))%nat then (s, [ResolvedNull])
    else if spawns then
      ({| main := spawned options (renderer s) (main s);
          renderer :=
            _initializeTerminal (termId (S (PtyManager.terminalCounter (main s))))
              (passedOptions options (renderer s)) now (renderer s) |},
       [Resolved (termId (S (PtyManager.terminalCounter (main s))))])
    else
      ({| main := PtyManager.with_counter
                    (S (PtyManager.terminalCounter (main s))) (main s);
          renderer := renderer s |},
       [Rejected (PtyManager.message PtyManager.SpawnFailed)]).
Proof.
  intros Hc.
  pose proof (quiet_killed _ Hc) as Hk. pose proof (quiet_sent _ Hc) as Hs.
  pose proof (quiet_outbox _ Hc) as Hob. pose proof (quiet_listeners _ Hc) as Hl.
  pose proof (consistent_size s Hc) as Hsize.
  cbn [step]. unfold createTerminal, JsMap.size. rewrite (cap_nine _ Hc).
  destruct (9 <=? length (terminals (renderer s)))%nat eqn:Ecap.
  { replace {| main := main s; renderer := renderer s |} with s by (by destruct s).
    by rewrite settle_quiet. }
  apply Nat.leb_gt in Ecap.
  set (p := resolveProjectPath options (renderer s)).
  set (wd := Js.or_else (Js.or_else (optCwd options) p) None).
  set (h := Build_Listener _ _ _).
  set (r1 := ipcSend _ _).
  assert (outbox r1 = [IPC.TERMINAL_CREATE (IPC.CreateObject wd p)]) as Ho1
    by (unfold r1; cbn; by rewrite Hob).
  assert (listeners r1 = [h]) as Hl1 by (unfold r1; cbn; by rewrite Hl).
  assert (with_listeners [] (with_outbox [] r1) = renderer s) as Hback.
  { unfold r1, ipcSend. destruct (renderer s); simpl in *; by subst. }
  pose proof (createTerminal_below_cap spawns wd p (main s)) as Hcreate.
  cbn zeta in Hcreate. unfold PtyManager.MAX_TERMINALS in Hcreate.
  specialize (Hcreate ltac:(lia)).
  destruct spawns.
  - erewrite settle_one_round; [done| |..].
    + unfold round, run_main. cbn [main renderer]. rewrite Ho1.
      cbn [handle_all foldl PtyManager.handle PtyManager.createArgs fst snd].
      rewrite Hcreate. cbn [snd].
      rewrite exit_all_quiet by (by cbn).
      rewrite (run_renderer_one _ _ _
                 (IPC.TERMINAL_CREATED
                    (inl (termId (S (PtyManager.terminalCounter (main s)))))))
        by (cbn; by rewrite Hs).
      cbn [receive]. cbn [listeners with_outbox]. rewrite Hl1.
      cbn [foldl onTerminalCreated fst snd]. rewrite Hback.
      f_equal. f_equal. unfold spawned. fold p wd.
      destruct (main s); simpl in *; by subst.
    + cbn [renderer].
      destruct (sameWiring_initializeTerminal
                  (termId (S (PtyManager.terminalCounter (main s))))
                  (passedOptions options (renderer s)) now (renderer s))
        as (-> & _). done.
    + by unfold spawned.
    + unfold spawned. cbn. done.
  - erewrite settle_one_round; [done| |done..].
    unfold round, run_main. cbn [main renderer]. rewrite Ho1.
    cbn [handle_all foldl PtyManager.handle PtyManager.createArgs fst snd].
    rewrite Hcreate. cbn [snd].
    rewrite exit_all_quiet by (by cbn).
    rewrite (run_renderer_one _ _ _
               (IPC.TERMINAL_CREATED
                  (inr (PtyManager.message PtyManager.SpawnFailed))))
      by (cbn; by rewrite Hs).
    cbn [receive]. cbn [listeners with_outbox]. rewrite Hl1.
    cbn [foldl onTerminalCreated fst snd]. rewrite Hback.
    f_equal. f_equal.
    destruct (main s); simpl in *; by subst.
Qed.

Lemma termId_inj n n' : termId n = termId n' -> n = n'.
Proof.
  unfold termId. intros H. simpl in H. injection H as H.
  by apply string_of_nat_inj.
Qed.

Lemma termId_truthy n : Js.truthy_string (termId n) = true.
Proof. done. Qed.

(** The next identifier of the registry names no session yet. *)
Lemma consistent_next_fresh s :
  consistent s ->
  termId (S (PtyManager.terminalCounter (main s))) ∉ ids (renderer s).
Proof.
  intros Hc Hin.
  pose proof (proj1 (Forall_forall _ _) (ids_issued _ Hc) _ Hin) as (n & Hn & Hle).
  apply termId_inj in Hn. lia.
Qed.

Lemma consistent_initial h store : consistent (initial h store).
Proof. split; cbn; try done; constructor. Qed.

Lemma consistent_on_renderer s f :
  consistent s ->
  sameWiring (renderer s) (f (renderer s)) ->
  ids (f (renderer s)) = ids (renderer s) ->
  consistent (on_renderer f s).
Proof.
  intros Hc (Ho & Hl & Hm & Hobs) Hids. destruct Hc.
  split; cbn [on_renderer main renderer]; try congruence.
Qed.

Lemma consistent_closed s t :
  consistent s ->
  consistent {| main := without t (main s);
                renderer := with_outbox [] (closeTerminal t (renderer s)) |}.
Proof.
  intros Hc. destruct (closeTerminal_wiring t (renderer s)) as (_ & Hl & Hm & Hobs).
  pose proof (closeTerminal_ids t (renderer s)) as Hids.
  assert (ids (with_outbox [] (closeTerminal t (renderer s)))
          = filter (fun k => k <> t) (ids (renderer s))) as Hids' by done.
  destruct Hc.
  split; cbn [main renderer]; try done.
  - cbn. congruence.
  - cbn. congruence.
  - cbn. congruence.
  - rewrite Hids'. unfold PtyManager.getTerminalIds, without.
    cbn [PtyManager.ptyInstances PtyManager.with_instances].
    rewrite keys_delete. by f_equal.
  - rewrite Hids'. unfold without. cbn. apply Forall_forall.
    intros k [_ Hk]%list_elem_of_filter.
    by apply (proj1 (Forall_forall _ _) ids_issued0).
  - rewrite Hids'. by apply NoDup_filter.
Qed.

Lemma consistent_step spawns now o s :
  consistent s -> consistent (step spawns now o s).1.
Proof.
  intros Hc. destruct o as [options|p|t|t n|t|mode|layout|t c].
  - rewrite step_createSession by done.
    destruct (9 <=? _)%nat eqn:Ecap; [done|].
    pose proof (consistent_next_fresh s Hc) as Hfresh.
    set (tid := termId (S (PtyManager.terminalCounter (main s)))) in *.
    destruct spawns; cbn [fst].
    + assert (JsMap.get id tid (terminals (renderer s)) = None) as Hnone
        by (by apply get_None).
      destruct (_initializeTerminal_fresh tid (passedOptions options (renderer s))
                  now (renderer s) Hnone) as (Hts & _).
      cbn zeta in Hts.
      destruct (sameWiring_initializeTerminal tid
                  (passedOptions options (renderer s)) now (renderer s))
        as (Ho & Hl & Hm & Hobs).
      assert (ids (_initializeTerminal tid (passedOptions options (renderer s))
                     now (renderer s)) = ids (renderer s) ++ [tid]) as Hids.
      { unfold ids, JsMap.keys. rewrite Hts, map_app. done. }
      destruct Hc.
      split; cbn [main renderer]; try congruence; try done.
      * rewrite Hids. unfold PtyManager.getTerminalIds, spawned. cbn.
        rewrite set_absent.
        -- unfold JsMap.keys. rewrite map_app. cbn. by f_equal.
        -- apply get_None. cbn. fold tid.
           unfold PtyManager.getTerminalIds in same_ids0. by rewrite <- same_ids0.
      * rewrite Hids. unfold spawned. cbn. apply Forall_app. split.
        -- eapply Forall_impl; [done|]. intros k (n & -> & Hn).
           exists n. split; [done | cbn in *; lia].
        -- constructor; [|done]. exists (S (PtyManager.terminalCounter (main s))).
           split; [done | lia].
      * rewrite Hids. apply NoDup_app. split; [done|]. split.
        -- intros k Hk Hk'. apply list_elem_of_singleton in Hk' as ->. done.
        -- apply NoDup_singleton.
    + destruct Hc. split; cbn [main renderer]; try done.
      eapply Forall_impl; [done|]. intros k (n & -> & Hn).
      exists n. split; [done | cbn in *; lia].
  - cbn [step]. rewrite step_on_renderer by (done || apply sameWiring_setCurrentProject).
    apply consistent_on_renderer; [done | apply sameWiring_setCurrentProject|].
    apply shape_ids, shape_setCurrentProject.
  - cbn [step]. rewrite step_on_renderer by (done || apply sameWiring_setActiveTerminal).
    apply consistent_on_renderer; [done | apply sameWiring_setActiveTerminal|].
    apply setActiveTerminal_ids.
  - cbn [step]. rewrite step_on_renderer by (done || apply sameWiring_renameTerminal).
    apply consistent_on_renderer; [done | apply sameWiring_renameTerminal|].
    apply shape_ids, shape_renameTerminal.
  - rewrite step_closeSession by done.
    destruct (JsMap.has _ _ _); [|done]. by apply consistent_closed.
  - cbn [step]. rewrite step_on_renderer by (done || apply sameWiring_setViewMode).
    apply consistent_on_renderer; [done | apply sameWiring_setViewMode|].
    unfold TerminalManager.setViewMode, ids. by rewrite notify_terminals.
  - cbn [step]. rewrite step_on_renderer by (done || apply sameWiring_setGridLayout).
    apply consistent_on_renderer; [done | apply sameWiring_setGridLayout|].
    unfold TerminalManager.setGridLayout, ids. by rewrite notify_terminals.
  - rewrite step_processExit by done.
    destruct (JsMap.has _ _ _); [|done]. by apply consistent_closed.
Qed.

Lemma consistent_run es s : consistent s -> consistent (run es s).
Proof.
  revert s. induction es as [|e es IH]; intros s Hc; [done|].
  cbn. apply IH. by apply consistent_step.
Qed.

End FrameFacts.

Section CapFacts.
Import TerminalManager Spec.
Implicit Types (s : Frame.State) (m : PtyManager.State) (r : T).

Lemma handle_all_size spawns msgs m :
  (PtyManager.size m <= PtyManager.MAX_TERMINALS)%nat ->
  (PtyManager.size (Frame.handle_all spawns msgs m) <= PtyManager.MAX_TERMINALS)%nat.
Proof.
  unfold Frame.handle_all. revert m.
  induction msgs as [|msg msgs IH]; intros m H; [done|].
  cbn [foldl]. apply IH. by apply handle_size.
Qed.

Lemma exit_all_size m :
  (PtyManager.size m <= PtyManager.MAX_TERMINALS)%nat ->
  (PtyManager.size (Frame.exit_all m) <= PtyManager.MAX_TERMINALS)%nat.
Proof.
  unfold Frame.exit_all.
  assert (PtyManager.size (PtyManager.with_queues [] (PtyManager.sent m) m)
          = PtyManager.size m) as <- by done.
  generalize (PtyManager.with_queues [] (PtyManager.sent m) m).
  induction (PtyManager.killed m) as [|k ks IH]; intros m' H; [done|].
  cbn [foldl]. apply IH. pose proof (onExit_size k 0 m'). lia.
Qed.

Lemma round_size spawns now s :
  (PtyManager.size (Frame.main s) <= PtyManager.MAX_TERMINALS)%nat ->
  (PtyManager.size (Frame.main (Frame.round spawns now s).1)
   <= PtyManager.MAX_TERMINALS)%nat.
Proof.
  intros H. unfold Frame.round, Frame.run_renderer, Frame.run_main.
  cbn [fst Frame.main Frame.renderer].
  change (PtyManager.size (PtyManager.with_queues ?k ?q ?m))
    with (PtyManager.size m).
  by apply exit_all_size, handle_all_size.
Qed.

Lemma settle_size spawns now s :
  (PtyManager.size (Frame.main s) <= PtyManager.MAX_TERMINALS)%nat ->
  (PtyManager.size (Frame.main (Frame.settle spawns now s).1)
   <= PtyManager.MAX_TERMINALS)%nat.
Proof.
  intros H. unfold Frame.settle.
  pose proof (round_size spawns now s H) as H1.
  destruct (Frame.round spawns now s) as [s1 out1]. cbn [fst] in H1.
  pose proof (round_size spawns now s1 H1) as H2.
  by destruct (Frame.round spawns now s1) as [s2 out2].
Qed.

(** Whatever the store asks for, the registry never holds more than
    [MAX_TERMINALS] processes. *)
Lemma step_size spawns now o s :
  (PtyManager.size (Frame.main s) <= PtyManager.MAX_TERMINALS)%nat ->
  (PtyManager.size (Frame.main (Frame.step spawns now o s).1)
   <= PtyManager.MAX_TERMINALS)%nat.
Proof.
  intros H. destruct o; cbn [Frame.step]; try (by apply settle_size).
  - destruct (createTerminal options (Frame.renderer s)) as [tm early].
    pose proof (settle_size spawns now {| Frame.main := Frame.main s;
                                          Frame.renderer := tm |} H) as Hs.
    by destruct (Frame.settle _ _ _).
  - destruct (PtyManager.hasTerminal _ _); [|done].
    apply settle_size. cbn. pose proof (onExit_size terminalId exitCode (Frame.main s)).
    lia.
Qed.

Lemma run_size es s :
  (PtyManager.size (Frame.main s) <= PtyManager.MAX_TERMINALS)%nat ->
  (PtyManager.size (Frame.main (Frame.run es s)) <= PtyManager.MAX_TERMINALS)%nat.
Proof.
  revert s. induction es as [|e es IH]; intros s H; [done|].
  cbn. apply IH. by apply step_size.
Qed.

End CapFacts.

Section SystemClaims.
Import TerminalManager Spec.

(** C1.  Along every run from start-up the registry holds at most nine
    processes and the store at most nine sessions.  A registry that holds
    nine (or more) throws its limit error from [createTerminal] and stays
    as it was, and its IPC handler answers with that error.  When nine are
    live, a creation through the store is refused before anything is sent:
    it resolves to [null] and the whole state, sessions, pointer and view
    included, is unchanged. *)
Theorem C1_session_cap (h : option string) (store : StorageItem)
    (es : list Frame.Event) :
  let s := Frame.run es (Frame.initial h store) in
  (PtyManager.size (Frame.main s) <= 9)%nat /\
  (JsMap.size (terminals (Frame.renderer s)) <= 9)%nat /\
  (forall m spawns workingDir p data,
     (9 <= PtyManager.size m)%nat ->
     PtyManager.createTerminal spawns workingDir p m
       = (inl (PtyManager.MaxTerminalLimitReached 9), m) /\
     PtyManager.handle spawns (IPC.TERMINAL_CREATE data) m
       = (inr tt,
          PtyManager.reply
            (IPC.TERMINAL_CREATED (inr "Maximum terminal limit (9) reached")) m)) /\
  (PtyManager.size (Frame.main s) = 9%nat ->
   forall spawns options now,
     Frame.step spawns now (Frame.createSession options) s = (s, [ResolvedNull])).
Proof.
  intros s.
  assert (consistent s) as Hc by apply consistent_run, consistent_initial.
  assert (PtyManager.size (Frame.main s) <= 9)%nat as Hsize
    by (apply run_size; cbn; unfold PtyManager.MAX_TERMINALS; lia).
  split; [done|]. split.
  { unfold JsMap.size. by rewrite <- (consistent_size s Hc). }
  split.
  - intros m spawns workingDir p data Hfull.
    assert (forall dir q,
              PtyManager.createTerminal spawns dir q m
              = (inl (PtyManager.MaxTerminalLimitReached 9), m)) as Hthrow
      by (intros dir q; by apply createTerminal_at_cap).
    split; [done|]. cbn [PtyManager.handle]. by rewrite Hthrow.
  - intros Hfull spawns options now. rewrite step_createSession by done.
    rewrite <- (consistent_size s Hc), Hfull. done.
Qed.

Lemma C1_session_cap_witness :
  PtyManager.createTerminal true None None
    (Frame.main (Frame.run Sample.nineCreates Sample.boot))
  = (inl (PtyManager.MaxTerminalLimitReached 9),
     Frame.main (Frame.run Sample.nineCreates Sample.boot)) /\
  Frame.step true 100 (Frame.createSession Sample.noOptions)
    (Frame.run Sample.nineCreates Sample.boot)
  = (Frame.run Sample.nineCreates Sample.boot, [ResolvedNull]).
Proof.
  assert (PtyManager.size (Frame.main (Frame.run Sample.nineCreates Sample.boot))
          = 9%nat) as Hfull by (vm_compute; reflexivity).
  destruct (C1_session_cap (Some "/home/user") Missing Sample.nineCreates)
    as (_ & _ & Hregistry & Hstore).
  split.
  - apply (Hregistry _ true None None IPC.NoData). rewrite Hfull. lia.
  - exact (Hstore Hfull true Sample.noOptions 100).
Defined.

(** C7.  In the registry, [writeToTerminal], [resizeTerminal] and
    [destroyTerminal] on an identifier that is not registered return
    normally and leave the registry exactly as it was; destroying twice is
    destroying once.  In the store, closing a session a second time changes
    nothing, and so it is for both processes together after any run. *)
Theorem C7_unknown_session_is_noop :
  (forall tid m,
     JsMap.get PtyManager.terminalId tid (PtyManager.ptyInstances m) = None ->
     (forall data, PtyManager.writeToTerminal tid data m = (inr tt, m)) /\
     (forall c r, PtyManager.resizeTerminal tid c r m = (inr tt, m)) /\
     PtyManager.destroyTerminal tid m = (inr tt, m)) /\
  (forall tid m,
     PtyManager.destroyTerminal tid (PtyManager.destroyTerminal tid m).2
       = (inr tt, (PtyManager.destroyTerminal tid m).2)) /\
  (forall tid tm, closeTerminal tid (closeTerminal tid tm) = closeTerminal tid tm) /\
  (forall h store es spawns now spawns' now' tid,
     let s := (Frame.step spawns now (Frame.closeSession tid)
                 (Frame.run es (Frame.initial h store))).1 in
     Frame.step spawns' now' (Frame.closeSession tid) s = (s, [])).
Proof.
  repeat split.
  - intros data. by apply writeToTerminal_unknown.
  - intros c r. by apply resizeTerminal_unknown.
  - by apply destroyTerminal_unknown.
  - intros tid m. apply destroyTerminal_unknown, destroyTerminal_gone.
  - intros tid tm. apply closeTerminal_unknown, closeTerminal_gone.
  - intros h store es spawns now spawns' now' tid s.
    assert (consistent (Frame.run es (Frame.initial h store))) as Hc
      by apply consistent_run, consistent_initial.
    assert (consistent s) as Hs by (by apply consistent_step).
    rewrite step_closeSession by done.
    assert (JsMap.has id tid (terminals (Frame.renderer s)) = false) as ->; [|done].
    unfold s. rewrite step_closeSession by done.
    destruct (JsMap.has id tid (terminals (Frame.renderer (Frame.run es _)))) eqn:Eh;
      [|done].
    cbn. unfold JsMap.has. by rewrite closeTerminal_gone.
Qed.

Lemma C7_unknown_session_is_noop_witness :
  PtyManager.writeToTerminal "term-7" "ls" Sample.twoPtys = (inr tt, Sample.twoPtys) /\
  PtyManager.resizeTerminal "term-7" 120 40 Sample.twoPtys = (inr tt, Sample.twoPtys) /\
  PtyManager.destroyTerminal "term-7" Sample.twoPtys = (inr tt, Sample.twoPtys).
Proof.
  destruct (proj1 C7_unknown_session_is_noop "term-7" Sample.twoPtys eq_refl)
    as (Hw & Hr & Hd).
  split; [apply Hw | split; [apply Hr | apply Hd]].
Defined.

(** C4 as stated fails: a second creation in the same scope leaves the new
    session inactive and the first one active. *)
Lemma C4_second_create_stays_inactive :
  let s1 := Frame.run [Sample.at_time 10 (Frame.createSession Sample.noOptions)]
              Sample.boot in
  let r := Frame.step true 20 (Frame.createSession Sample.noOptions) s1 in
  r.2 = [Resolved "term-2"] /\
  map (fun t => (id t, isActive t)) (terminals (Frame.renderer r.1))
    = [("term-1", true); ("term-2", false)].
Proof. split; by vm_compute. Qed.

(** C4, amended.  The claim is about a creation that does not overlap
    another one: its listener is the only one waiting for
    [TERMINAL_CREATED], and the id of the reply is not live.  Such a call
    registers its listener and changes neither the sessions nor the
    pointer.  When its reply arrives, the new session is appended, in the
    project resolved at the call, and every existing session is left as it
    was, its [isActive] flag included, in every scope.  The new session is
    marked active, and the pointer moved to it, exactly when the store then
    holds no session or the pointer is null; otherwise it stays inactive
    and the pointer stays where it was.  This is what every successful
    creation of a run of [Frame.run] does, where each operation is issued
    once the messages of the one before have been delivered and
    answered. *)
Theorem C4_create_activates_only_without_active :
  (forall options tm,
     listeners tm = [] ->
     (JsMap.size (terminals tm) < maxTerminals tm)%nat ->
     exists h,
       createTerminal options tm
       = (ipcSend (IPC.TERMINAL_CREATE
                     (IPC.CreateObject (heldWorkingDir h) (heldProjectPath h)))
            (with_listeners [h] tm), None) /\
       heldProjectPath h = resolveProjectPath options tm) /\
  (forall now tid h tm,
     listeners tm = [h] ->
     JsMap.get id tid (terminals tm) = None ->
     let r := receive now (IPC.TERMINAL_CREATED (inl tid)) tm in
     let act := bool_decide (terminals tm = [])
                || negb (Js.truthy (activeTerminalId tm)) in
     r.2 = [Resolved tid] /\
     listeners r.1 = [] /\
     exists new,
       terminals r.1 = terminals tm ++ [new] /\
       id new = tid /\
       projectPath new = heldProjectPath h /\
       isActive new = act /\
       activeTerminalId r.1 = (if act then Some tid else activeTerminalId tm)) /\
  (forall h store es spawns now options s' tid,
     let s := Frame.run es (Frame.initial h store) in
     Frame.step spawns now (Frame.createSession options) s = (s', [Resolved tid]) ->
     let act := bool_decide (terminals (Frame.renderer s) = [])
                || negb (Js.truthy (activeTerminalId (Frame.renderer s))) in
     listeners (Frame.renderer s) = [] /\
     exists new,
       terminals (Frame.renderer s') = terminals (Frame.renderer s) ++ [new] /\
       id new = tid /\
       projectPath new = resolveProjectPath options (Frame.renderer s) /\
       isActive new = act /\
       activeTerminalId (Frame.renderer s') =
         (if act then Some tid else activeTerminalId (Frame.renderer s))).
Proof.
  split; [|split].
  - intros options tm Hl Hcap. unfold createTerminal.
    apply Nat.leb_gt in Hcap. rewrite Hcap, Hl. cbn [app].
    by eexists {| heldOptions := options;
                  heldProjectPath := resolveProjectPath options tm;
                  heldWorkingDir := _ |}.
  - intros now tid h tm Hl Hfresh r act. unfold r. cbn [receive].
    rewrite Hl. cbn [foldl onTerminalCreated fst snd app].
    set (tm0 := with_listeners [] tm).
    set (opts := {| optCwd := heldWorkingDir h;
                    optProjectPath := Some (heldProjectPath h);
                    optName := optName (heldOptions h) |}).
    assert (JsMap.get id tid (terminals tm0) = None) as Hfresh0 by done.
    destruct (_initializeTerminal_fresh tid opts now tm0 Hfresh0) as (Hts & Hptr).
    cbn zeta in Hts, Hptr. rewrite activatesNew_fresh in Hts, Hptr by done.
    destruct (sameWiring_initializeTerminal tid opts now tm0) as (_ & Hls & _).
    split; [done|]. split; [exact Hls|].
    eexists. split; [exact Hts|]. by repeat split.
  - intros h store es spawns now options s' tid s Hstep act.
    assert (consistent s) as Hc by apply consistent_run, consistent_initial.
    split; [apply (quiet_listeners _ Hc)|].
    rewrite step_createSession in Hstep by done.
    destruct (9 <=? _)%nat; [done|]. destruct spawns; [|done].
    injection Hstep as <- <-.
    pose proof (consistent_next_fresh s Hc) as Hfresh.
    apply get_None in Hfresh.
    destruct (_initializeTerminal_fresh _ (passedOptions options (Frame.renderer s))
                now _ Hfresh) as (Hts & Hptr).
    cbn zeta in Hts, Hptr. rewrite activatesNew_fresh in Hts, Hptr by done.
    fold act in Hts, Hptr.
    eexists. split; [exact Hts|]. cbn [Frame.renderer]. by repeat split.
Qed.

Lemma C4_create_activates_only_without_active_witness :
  exists new,
    terminals (Frame.renderer Sample.afterFirstCreate) = [new] /\
    id new = "term-1" /\ isActive new = true.
Proof.
  assert (Frame.step true 10 (Frame.createSession Sample.noOptions)
            (Frame.run [] Sample.boot)
          = (Sample.afterFirstCreate, [Resolved "term-1"])) as Hstep
    by (vm_compute; reflexivity).
  destruct (proj2 (proj2 C4_create_activates_only_without_active)
              (Some "/home/user") Missing [] true 10 Sample.noOptions
              Sample.afterFirstCreate "term-1" Hstep)
    as (_ & new & Hts & Hid & _ & Hact & _).
  exists new. split; [exact Hts|]. split; [exact Hid | exact Hact].
Defined.

End SystemClaims.

(** ** Restoring a scope *)

Section RestoreFacts.
Import TerminalManager Spec.
Implicit Types (tm : T) (t u : TerminalState) (l : list TerminalState).

Lemma get_update_shape k k' (f : TerminalState -> TerminalState) l t :
  (forall x, shape (f x) = shape x) ->
  JsMap.get id k l = Some t ->
  exists x, JsMap.get id k (JsMap.update id k' f l) = Some x /\ shape x = shape t.
Proof.
  intros Hf Hget.
  assert (forall x, id (f x) = id x) as Hid
    by (intros x; by injection (Hf x)).
  destruct (decide (k' = k)) as [->|Hne].
  - rewrite get_update_eq, Hget by done. eauto.
  - rewrite get_update_ne by done. eauto.
Qed.

Lemma get_update_shape_inv k k' (f : TerminalState -> TerminalState) l x :
  (forall x, shape (f x) = shape x) ->
  JsMap.get id k (JsMap.update id k' f l) = Some x ->
  exists t, JsMap.get id k l = Some t /\ shape x = shape t.
Proof.
  intros Hf Hget.
  assert (forall x, id (f x) = id x) as Hid
    by (intros y; by injection (Hf y)).
  destruct (decide (k' = k)) as [->|Hne].
  - rewrite get_update_eq in Hget by done.
    destruct (JsMap.get id k l) as [t|]; [|done].
    injection Hget as <-. eauto.
  - rewrite get_update_ne in Hget by done. eauto.
Qed.

Lemma get_deactivate_shape a k l t :
  JsMap.get id k l = Some t ->
  exists x, JsMap.get id k (deactivate a l) = Some x /\ shape x = shape t.
Proof.
  intros Hget. unfold deactivate. destruct a as [a|]; [|eauto].
  destruct (Js.truthy_string a); [|eauto]. by apply get_update_shape.
Qed.

Lemma get_restoreNames_shape_inv names ps k l x :
  JsMap.get id k (restoreNames names ps l) = Some x ->
  exists t, JsMap.get id k l = Some t /\ shape x = shape t.
Proof.
  unfold restoreNames. revert l. induction ps as [|q ps IH]; intros l; cbn [foldl].
  - eauto.
  - intros Hget. destruct (IH _ Hget) as (t & Ht & Hs).
    destruct (names !! id q) as [n|]; [|eauto].
    destruct (Js.truthy_string n); [|eauto].
    apply get_update_shape_inv in Ht as (t0 & ? & ?); [|done].
    exists t0. split; [done | congruence].
Qed.

Lemma wf_shape l l' :
  map shape l = map shape l' -> JsMap.wf id l -> JsMap.wf id l'.
Proof. unfold JsMap.wf. intros H. by rewrite (shape_ids _ _ H). Qed.

(** Selecting the first session of a scope: the oldest one becomes the
    active one, or the pointer is cleared when the scope is empty. *)
Lemma selectFirst_spec p tm :
  JsMap.wf id (terminals tm) ->
  (inScope p tm = [] -> activeTerminalId (selectFirst p tm) = None) /\
  (inScope p tm <> [] ->
   exists t,
     activeTerminalId (selectFirst p tm) = Some (id t) /\
     JsMap.get id (id t) (terminals (selectFirst p tm)) = Some t /\
     isActive t = true /\ projectPath t = p /\
     forall u, u ∈ terminals (selectFirst p tm) -> projectPath u = p ->
       (createdAt t <= createdAt u)%Z).
Proof.
  intros Hwf. unfold selectFirst.
  destruct (getTerminalsByProject p tm) as [|t0 rest] eqn:E.
  { split; [done|]. intros Hne. by apply getTerminalsByProject_nil in E. }
  split. { intros Hnil%getTerminalsByProject_nil. congruence. }
  intros _.
  assert (t0 ∈ getTerminalsByProject p tm) as Hin by (rewrite E; left).
  apply getTerminalsByProject_elem in Hin as [Hin Hp].
  pose proof (get_elem id _ _ Hwf Hin) as Hget.
  destruct (get_deactivate_shape (activeTerminalId tm) _ _ _ Hget) as (x & Hx & Hsx).
  exists (set_isActive true x).
  assert (id x = id t0 /\ projectPath x = projectPath t0 /\ createdAt x = createdAt t0)
    as (Hid & Hpp & Hca) by (by injection Hsx).
  rewrite setActiveTerminal_activeTerminalId, setActiveTerminal_terminals.
  cbn [id set_isActive isActive projectPath createdAt]. rewrite Hid.
  split; [done|]. split.
  { rewrite get_update_eq by done. by rewrite Hx. }
  split; [done|]. split; [congruence|].
  intros u Hu Hup.
  rewrite <- setActiveTerminal_terminals in Hu.
  destruct (shape_elem _ _ u (eq_sym (shape_setActiveTerminal (id t0) tm)) Hu)
    as (u0 & Hu0 & Hs0).
  assert (projectPath u0 = projectPath u /\ createdAt u0 = createdAt u)
    as (Hpu & Hcu) by (by injection Hs0).
  rewrite Hca, <- Hcu.
  apply (sort_by_createdAt_head_min _ _ _ E).
  apply list_elem_of_filter. split; [congruence | done].
Qed.

Lemma setCurrentProject_leaving p tm :
  setCurrentProject p tm = _notifyStateChange (restoreProjectSession p (leaving p tm)).
Proof. done. Qed.

Lemma leaving_terminals p tm : terminals (leaving p tm) = terminals tm.
Proof.
  unfold leaving. cbn. destruct (decide _); [done|].
  by destruct (saveProjectSession_eq (currentProjectPath tm) tm) as (i & -> & _).
Qed.

(** With a readable store and a stale persisted id, the restore step ends
    in [selectFirst], on the sessions it started with up to their names. *)
Lemma tryRestore_stale p tm :
  localStorage tm <> Malformed ->
  persistedActiveStale p tm ->
  exists tm3,
    tryRestore p tm = Some (selectFirst p tm3) /\
    map shape (terminals tm3) = map shape (terminals tm).
Proof.
  intros Hread Hstale. unfold tryRestore.
  unfold persistedActiveStale, persistedActive in Hstale.
  destruct (parseAllSessions (localStorage tm)) as [all|] eqn:Ep.
  2:{ by destruct (localStorage tm). }
  destruct (all !! sessionKey p) as [sd|]; [|by exists tm].
  set (tm3 := with_terminals _ _).
  assert (map shape (terminals tm3) = map shape (terminals tm)) as Hs.
  { unfold tm3. simpl. rewrite shape_restoreNames.
    destruct (Js.truthy_string (savedGridLayout sd));
      destruct (Js.truthy_string (savedViewMode sd)); done. }
  exists tm3. split; [|done].
  destruct (savedActiveTerminalId sd) as [a|]; [|done].
  destruct (Js.truthy_string a); [|done].
  destruct (JsMap.get id a (terminals tm3)) as [x|] eqn:Ex; [|done].
  destruct (decide (projectPath x = p)) as [Hp|]; [|done].
  exfalso. unfold tm3 in Ex. cbn [terminals with_terminals] in Ex.
  apply get_restoreNames_shape_inv in Ex as (t & Ht & Hsx).
  assert (terminals
            (if Js.truthy_string (savedGridLayout sd)
             then with_gridLayout (savedGridLayout sd)
                    (if Js.truthy_string (savedViewMode sd)
                     then with_viewMode (savedViewMode sd) tm else tm)
             else if Js.truthy_string (savedViewMode sd)
                  then with_viewMode (savedViewMode sd) tm else tm)
          = terminals tm) as Ht2.
  { destruct (Js.truthy_string (savedGridLayout sd));
      destruct (Js.truthy_string (savedViewMode sd)); done. }
  rewrite Ht2 in Ht.
  apply (Hstale a t eq_refl Ht).
  assert (projectPath x = projectPath t) as <- by (by injection Hsx). done.
Qed.

End RestoreFacts.

Section RestoreClaims.
Import TerminalManager Spec.

(** C6.  When the stored sessions are readable and the [activeTerminalId]
    persisted for the target scope names no live session of that scope,
    [setCurrentProject] completes without an exception, even inside its
    [try] block, and activates the session of the target scope with the
    earliest [createdAt]; when the scope has no live session it sets the
    pointer to [null]. *)
Theorem C6_stale_active_falls_back_to_oldest (p : option string) (tm : T) :
  JsMap.wf id (terminals tm) ->
  localStorage (leaving p tm) <> Malformed ->
  persistedActiveStale p (leaving p tm) ->
  let tm' := setCurrentProject p tm in
  tryRestore p (leaving p tm) <> None /\
  (inScope p tm = [] -> activeTerminalId tm' = None) /\
  (inScope p tm <> [] ->
   exists t,
     activeTerminalId tm' = Some (id t) /\
     JsMap.get id (id t) (terminals tm') = Some t /\
     isActive t = true /\ projectPath t = p /\
     forall u, u ∈ terminals tm' -> projectPath u = p ->
       (createdAt t <= createdAt u)%Z).
Proof.
  intros Hwf Hread Hstale tm'.
  destruct (tryRestore_stale p (leaving p tm) Hread Hstale) as (tm3 & Htry & Hs).
  rewrite leaving_terminals in Hs.
  assert (JsMap.wf id (terminals tm3)) as Hwf3 by (by apply (wf_shape _ _ (eq_sym Hs))).
  assert (inScope p tm3 = [] <-> inScope p tm = []) as Hnil.
  { rewrite !inScope_nil. by rewrite (shape_projectPaths _ _ Hs). }
  assert (activeTerminalId tm' = activeTerminalId (selectFirst p tm3)) as ->.
  { unfold tm'. rewrite setCurrentProject_leaving, notify_activeTerminalId.
    unfold restoreProjectSession. by rewrite Htry. }
  assert (terminals tm' = terminals (selectFirst p tm3)) as ->.
  { unfold tm'. rewrite setCurrentProject_leaving, notify_terminals.
    unfold restoreProjectSession. by rewrite Htry. }
  destruct (selectFirst_spec p tm3 Hwf3) as (Hempty & Hsome).
  split; [by rewrite Htry|]. split.
  - intros H. apply Hempty, Hnil, H.
  - intros H. apply Hsome. by rewrite Hnil.
Qed.

Lemma C6_stale_active_falls_back_to_oldest_witness :
  exists t,
    activeTerminalId (setCurrentProject (Some "/proj") Sample.staleStore) = Some (id t) /\
    JsMap.get id (id t)
      (terminals (setCurrentProject (Some "/proj") Sample.staleStore)) = Some t /\
    isActive t = true /\ projectPath t = Some "/proj" /\
    forall u, u ∈ terminals (setCurrentProject (Some "/proj") Sample.staleStore) ->
      projectPath u = Some "/proj" -> (createdAt t <= createdAt u)%Z.
Proof.
  apply (C6_stale_active_falls_back_to_oldest (Some "/proj") Sample.staleStore).
  - unfold JsMap.wf. simpl. apply (bool_decide_unpack (NoDup _)). vm_compute. exact I.
  - vm_compute. discriminate.
  - intros a t Ha Hget. vm_compute in Ha. injection Ha as <-.
    vm_compute in Hget. discriminate.
  - vm_compute. discriminate.
Defined.

End RestoreClaims.

(** ** Renaming *)

Section RenameFacts.
Import TerminalManager Spec.
Implicit Types (tm : T) (t u : TerminalState) (l : list TerminalState).

(** A property of the session stored under [k] that field updates keep. *)
Section Kept.
Context (P : TerminalState -> Prop) (k : string).
Hypothesis P_isActive : forall t b, P t -> P (set_isActive b t).
Hypothesis P_names : forall t n, P t -> P (set_names n t).


Lemma holds_at_update k' (f : TerminalState -> TerminalState) l :
  (forall t, id (f t) = id t) -> (forall t, P t -> P (f t)) ->
  heldAt P k l -> heldAt P k (JsMap.update id k' f l).
Proof.
  intros Hid Hf Hl x Hx. destruct (decide (k' = k)) as [->|Hne].
  - rewrite get_update_eq in Hx by done.
    destruct (JsMap.get id k l) as [t|] eqn:E; [|done].
    injection Hx as <-. by apply Hf, Hl.
  - rewrite get_update_ne in Hx by done. by apply Hl.
Qed.

Lemma holds_at_deactivate a l : heldAt P k l -> heldAt P k (deactivate a l).
Proof.
  intros Hl. unfold deactivate. destruct a as [a|]; [|done].
  destruct (Js.truthy_string a); [|done].
  apply holds_at_update; [done | intros; by apply P_isActive | done].
Qed.

Lemma holds_at_setActiveTerminal x tm :
  heldAt P k (terminals tm) -> heldAt P k (terminals (setActiveTerminal x tm)).
Proof.
  intros Hl. rewrite setActiveTerminal_terminals.
  apply holds_at_update; [done | intros; by apply P_isActive|].
  by apply holds_at_deactivate.
Qed.

Lemma holds_at_delete k' l : heldAt P k l -> heldAt P k (JsMap.delete id k' l).
Proof.
  intros Hl x Hx. destruct (decide (k' = k)) as [->|Hne].
  - by rewrite get_delete_eq in Hx.
  - rewrite get_delete_ne in Hx by done. by apply Hl.
Qed.

Lemma holds_at_closeTerminal x tm :
  heldAt P k (terminals tm) -> heldAt P k (terminals (closeTerminal x tm)).
Proof.
  intros Hl. unfold closeTerminal.
  destruct (JsMap.get id x (terminals tm)); [|done].
  rewrite notify_terminals.
  destruct (decide _); [|by apply holds_at_delete]. cbn.
  destruct (last _) as [a|]; [|by apply holds_at_delete].
  destruct (Js.truthy_string a); [|by apply holds_at_delete].
  apply holds_at_setActiveTerminal. by apply holds_at_delete.
Qed.

Lemma holds_at_renameTerminal x n tm :
  heldAt P k (terminals tm) -> heldAt P k (terminals (renameTerminal x n tm)).
Proof.
  intros Hl. unfold renameTerminal.
  destruct (JsMap.get id x (terminals tm)); [|done].
  rewrite notify_terminals.
  apply holds_at_update; [done | intros; by apply P_names | done].
Qed.

Lemma holds_at_restoreNames names ps l :
  heldAt P k l -> heldAt P k (restoreNames names ps l).
Proof.
  unfold restoreNames. revert l. induction ps as [|q ps IH]; intros l Hl; [done|].
  cbn [foldl]. apply IH. destruct (names !! id q) as [n|]; [|done].
  destruct (Js.truthy_string n); [|done].
  apply holds_at_update; [done | intros; by apply P_names | done].
Qed.

Lemma holds_at_selectFirst p tm :
  heldAt P k (terminals tm) -> heldAt P k (terminals (selectFirst p tm)).
Proof.
  intros Hl. unfold selectFirst. destruct (getTerminalsByProject p tm); [done|].
  by apply holds_at_setActiveTerminal.
Qed.

Lemma holds_at_restoreProjectSession p tm :
  heldAt P k (terminals tm) -> heldAt P k (terminals (restoreProjectSession p tm)).
Proof.
  intros Hl. unfold restoreProjectSession, tryRestore.
  destruct (parseAllSessions (localStorage tm)) as [all|]; [|done].
  destruct (all !! sessionKey p) as [sd|]; [|by apply holds_at_selectFirst].
  set (tm3 := with_terminals _ _).
  assert (heldAt P k (terminals tm3)) as H3.
  { unfold tm3. cbn. apply holds_at_restoreNames.
    destruct (Js.truthy_string (savedGridLayout sd));
      destruct (Js.truthy_string (savedViewMode sd)); done. }
  destruct (savedActiveTerminalId sd) as [a|]; [|by apply holds_at_selectFirst].
  destruct (Js.truthy_string a); [|by apply holds_at_selectFirst].
  destruct (JsMap.get id a (terminals tm3)) as [t|]; [|by apply holds_at_selectFirst].
  destruct (decide _);
    [by apply holds_at_setActiveTerminal | by apply holds_at_selectFirst].
Qed.

Lemma holds_at_setCurrentProject p tm :
  heldAt P k (terminals tm) -> heldAt P k (terminals (setCurrentProject p tm)).
Proof.
  intros Hl. rewrite setCurrentProject_leaving, notify_terminals.
  apply holds_at_restoreProjectSession. by rewrite leaving_terminals.
Qed.

End Kept.

Lemma get_snoc_ne k l u :
  id u <> k -> JsMap.get id k (l ++ [u]) = JsMap.get id k l.
Proof.
  intros Hne. unfold JsMap.get. induction l as [|a l IH]; cbn.
  - unfold JsMap.has_key. by rewrite bool_decide_false.
  - by destruct (JsMap.has_key id k a).
Qed.

Lemma get_snoc_eq k l u :
  JsMap.get id k l = None -> id u = k -> JsMap.get id k (l ++ [u]) = Some u.
Proof.
  intros Hnone Hid. unfold JsMap.get in *. induction l as [|a l IH]; cbn in *.
  - unfold JsMap.has_key. by rewrite bool_decide_true.
  - destruct (JsMap.has_key id k a); [done|]. by apply IH.
Qed.

Lemma renamed_set_isActive t b : renamed t -> renamed (set_isActive b t).
Proof. done. Qed.

Lemma renamed_set_names t n : renamed (set_names n t).
Proof. done. Qed.

Lemma namedAs_set_isActive n t b : namedAs n t -> namedAs n (set_isActive b t).
Proof. done. Qed.

(** The names reapplied by [restoreProjectSession]. *)
Lemma restoreNames_keeps names ps l k n :
  names !! k = Some n ->
  heldAt (namedAs n) k l -> heldAt (namedAs n) k (restoreNames names ps l).
Proof.
  intros Hn. unfold restoreNames. revert l.
  induction ps as [|q ps IH]; intros l Hl; [done|].
  cbn [foldl]. apply IH. destruct (names !! id q) as [n'|] eqn:Eq; [|done].
  destruct (Js.truthy_string n'); [|done].
  intros x Hx. destruct (decide (id q = k)) as [Hk|Hk].
  - rewrite Hk in *. rewrite get_update_eq in Hx by done.
    destruct (JsMap.get id k l); [|done]. injection Hx as <-.
    rewrite Hn in Eq. by injection Eq as <-.
  - rewrite get_update_ne in Hx by done. by apply Hl.
Qed.

Lemma restoreNames_applied names ps l k n :
  names !! k = Some n -> Js.truthy_string n = true ->
  k ∈ map id ps ->
  heldAt (namedAs n) k (restoreNames names ps l).
Proof.
  intros Hn Ht. revert l. induction ps as [|q ps IH]; intros l Hin.
  { by apply elem_of_nil in Hin. }
  cbn in Hin. unfold restoreNames. cbn [foldl]. fold (restoreNames names ps).
  destruct (decide (id q = k)) as [Hk|Hk].
  - rewrite Hk, Hn, Ht. apply restoreNames_keeps; [done|].
    intros x Hx. rewrite get_update_eq in Hx by done.
    destruct (JsMap.get id k l); [|done]. by injection Hx as <-.
  - apply elem_of_cons in Hin as [Hin|Hin]; [congruence|].
    unfold restoreNames in IH. by apply IH.
Qed.

Lemma restoreProjectSession_names p tm all sd t n :
  parseAllSessions (localStorage tm) = Some all ->
  all !! sessionKey p = Some sd ->
  t ∈ terminals tm -> projectPath t = p ->
  terminalNames sd !! id t = Some n -> n <> EmptyString ->
  exists x,
    JsMap.get id (id t) (terminals (restoreProjectSession p tm)) = Some x /\
    customName x = Some n /\ name x = n.
Proof.
  intros Hparse Hsd Hin Hp Hn Hne.
  apply truthy_string_true in Hne.
  assert (is_Some (JsMap.get id (id t) (terminals (restoreProjectSession p tm))))
    as [x Hx].
  { apply get_is_Some.
    rewrite (shape_ids _ _ (shape_restoreProjectSession p tm)).
    by apply (list_elem_of_fmap_2 id). }
  exists x. split; [done|]. revert x Hx.
  change (heldAt (namedAs n) (id t) (terminals (restoreProjectSession p tm))).
  unfold restoreProjectSession, tryRestore. rewrite Hparse, Hsd.
  set (tm3 := with_terminals _ _).
  assert (heldAt (namedAs n) (id t) (terminals tm3)) as H3.
  { unfold tm3. cbn [terminals with_terminals].
    apply restoreNames_applied; [done..|].
    apply (list_elem_of_fmap_2 id). apply getTerminalsByProject_elem.
    split; [|done].
    destruct (Js.truthy_string (savedGridLayout sd));
      destruct (Js.truthy_string (savedViewMode sd)); done. }
  assert (forall q y, heldAt (namedAs n) (id t) (terminals y) ->
                      heldAt (namedAs n) (id t) (terminals (selectFirst q y))) as Hsel.
  { intros q y Hy. apply holds_at_selectFirst; [|done].
    intros; by apply namedAs_set_isActive. }
  destruct (savedActiveTerminalId sd) as [a|]; [|by apply Hsel].
  destruct (Js.truthy_string a); [|by apply Hsel].
  destruct (JsMap.get id a (terminals tm3)) as [u|]; [|by apply Hsel].
  destruct (decide _); [|by apply Hsel].
  apply holds_at_setActiveTerminal; [|done].
  intros; by apply namedAs_set_isActive.
Qed.

End RenameFacts.

Section RenameSystem.
Import TerminalManager Spec.

(** Once issued, an identifier stays below the registry's counter, and the
    session it names keeps whatever field updates keep. *)
Lemma issued_step (P : TerminalState -> Prop) tid spawns now o s :
  (forall t b, P t -> P (set_isActive b t)) ->
  (forall t n, P t -> P (set_names n t)) ->
  consistent s ->
  (exists n, tid = termId n /\ (n <= PtyManager.terminalCounter (Frame.main s))%nat) ->
  heldAt P tid (terminals (Frame.renderer s)) ->
  (exists n, tid = termId n /\
     (n <= PtyManager.terminalCounter (Frame.main (Frame.step spawns now o s).1))%nat) /\
  heldAt P tid (terminals (Frame.renderer (Frame.step spawns now o s).1)).
Proof.
  intros Pa Pn Hc (n & Hn & Hle) Hheld.
  destruct o as [options|p|t|t nm|t|mode|layout|t c].
  - rewrite step_createSession by done.
    destruct (9 <=? _)%nat; [by eauto|].
    destruct spawns; cbn [fst Frame.main Frame.renderer].
    + split; [exists n; split; [done | unfold spawned; cbn; lia]|].
      pose proof (consistent_next_fresh s Hc) as Hfresh.
      apply get_None in Hfresh.
      destruct (_initializeTerminal_fresh _ (passedOptions options (Frame.renderer s))
                  now _ Hfresh) as (-> & _).
      intros x Hx. rewrite get_snoc_ne in Hx; [by apply Hheld|].
      cbn. rewrite Hn. intros Heq%termId_inj. lia.
    + split; [exists n; split; [done | cbn; lia] | done].
  - cbn [Frame.step].
    rewrite step_on_renderer by (done || apply sameWiring_setCurrentProject).
    split; [by eauto|]. by apply holds_at_setCurrentProject.
  - cbn [Frame.step].
    rewrite step_on_renderer by (done || apply sameWiring_setActiveTerminal).
    split; [by eauto|]. by apply holds_at_setActiveTerminal.
  - cbn [Frame.step].
    rewrite step_on_renderer by (done || apply sameWiring_renameTerminal).
    split; [by eauto|]. by apply holds_at_renameTerminal.
  - rewrite step_closeSession by done.
    destruct (JsMap.has _ _ _); [|by eauto].
    split; [by eauto|]. by apply holds_at_closeTerminal.
  - cbn [Frame.step].
    rewrite step_on_renderer by (done || apply sameWiring_setViewMode).
    split; [by eauto|]. cbn. unfold TerminalManager.setViewMode.
    by rewrite notify_terminals.
  - cbn [Frame.step].
    rewrite step_on_renderer by (done || apply sameWiring_setGridLayout).
    split; [by eauto|]. cbn. unfold TerminalManager.setGridLayout.
    by rewrite notify_terminals.
  - rewrite step_processExit by done.
    destruct (JsMap.has _ _ _); [|by eauto].
    split; [by eauto|]. by apply holds_at_closeTerminal.
Qed.

Lemma issued_run (P : TerminalState -> Prop) tid es s :
  (forall t b, P t -> P (set_isActive b t)) ->
  (forall t n, P t -> P (set_names n t)) ->
  consistent s ->
  (exists n, tid = termId n /\ (n <= PtyManager.terminalCounter (Frame.main s))%nat) ->
  heldAt P tid (terminals (Frame.renderer s)) ->
  heldAt P tid (terminals (Frame.renderer (Frame.run es s))).
Proof.
  intros Pa Pn. revert s. induction es as [|e es IH]; intros s Hc Hi Hh; [done|].
  cbn. destruct (issued_step P tid (Frame.spawns e) (Frame.now e) (Frame.op e) s
                   Pa Pn Hc Hi Hh) as (Hi' & Hh').
  apply IH; [by apply consistent_step | done | done].
Qed.

(** C9.  [renameTerminal] on a live session writes the new name into both
    [customName] and [name]; the record it leaves does not depend on the
    names the session had, so the default name is gone.  From then on, and
    whatever happens next, the session's [customName] is set and equal to
    its [name], so the display rule never shows a default name.  The restore
    step of a scope switch overwrites both fields in the same way for every
    session of the scope that has a persisted custom name. *)
Theorem C9_rename_overwrites_both_names :
  (forall tid newName tm t,
     JsMap.get id tid (terminals tm) = Some t ->
     JsMap.get id tid (terminals (renameTerminal tid newName tm))
       = Some (set_names newName t) /\
     customName (set_names newName t) = Some newName /\
     name (set_names newName t) = newName /\
     forall t0, shape t0 = shape t -> isActive t0 = isActive t ->
       set_names newName t0 = set_names newName t) /\
  (forall h store es spawns now tid newName es' t',
     let s := Frame.run es (Frame.initial h store) in
     JsMap.has id tid (terminals (Frame.renderer s)) = true ->
     let s1 := (Frame.step spawns now (Frame.renameSession tid newName) s).1 in
     JsMap.get id tid (terminals (Frame.renderer (Frame.run es' s1))) = Some t' ->
     customName t' = Some (name t') /\
     displayName t' = name t' /\ displayNullish t' = name t') /\
  (forall p tm allSessions sessionData t n,
     parseAllSessions (localStorage tm) = Some allSessions ->
     allSessions !! sessionKey p = Some sessionData ->
     t ∈ terminals tm -> projectPath t = p ->
     terminalNames sessionData !! id t = Some n -> n <> EmptyString ->
     exists x,
       JsMap.get id (id t) (terminals (restoreProjectSession p tm)) = Some x /\
       customName x = Some n /\ name x = n).
Proof.
  split; [|split].
  - intros tid newName tm t Hget. split; [|split; [done | split; [done|]]].
    + unfold renameTerminal. rewrite Hget, notify_terminals.
      cbn [terminals with_terminals].
      rewrite get_update_eq by done. by rewrite Hget.
    + intros t0 Hs Ha. destruct t0, t. cbn in *. injection Hs as -> -> ->.
      by subst.
  - intros h store es spawns now tid newName es' t' s Hlive s1 Hget.
    assert (consistent s) as Hc by apply consistent_run, consistent_initial.
    assert (consistent s1) as Hc1 by (by apply consistent_step).
    assert (renamed t') as Hr.
    { apply (issued_run renamed tid es' s1); try done.
      - apply has_true in Hlive. fold (ids (Frame.renderer s)) in Hlive.
        pose proof (proj1 (Forall_forall _ _) (ids_issued _ Hc) _ Hlive)
          as (n & Hn & Hle).
        exists n. split; [done|].
        unfold s1. cbn [Frame.step].
        rewrite step_on_renderer by (done || apply sameWiring_renameTerminal).
        cbn. lia.
      - unfold s1. cbn [Frame.step].
        rewrite step_on_renderer by (done || apply sameWiring_renameTerminal).
        cbn. intros x Hx. unfold renameTerminal in Hx.
        unfold JsMap.has in Hlive.
        destruct (JsMap.get id tid (terminals (Frame.renderer s))) as [t|] eqn:E;
          [|done].
        rewrite notify_terminals in Hx. cbn [terminals with_terminals] in Hx.
        rewrite get_update_eq, E in Hx by done. by injection Hx as <-. }
    unfold renamed in Hr. split; [done|].
    unfold displayName, displayNullish, Js.or_default. rewrite Hr.
    split; [|done]. by destruct (Js.truthy_string (name t')).
  - apply restoreProjectSession_names.
Qed.

Lemma C9_rename_overwrites_both_names_witness :
  JsMap.get id "term-2" (terminals (renameTerminal "term-2" "db" Sample.twoTabs))
    = Some (set_names "db" (Sample.session "term-2" "Terminal 2" false 20 None)) /\
  displayName (set_names "db" (Sample.session "term-1" "Terminal 1" true 10 None))
    = "db" /\
  exists x,
    JsMap.get id "term-3"
      (terminals (restoreProjectSession (Some "/proj") Sample.staleStore)) = Some x /\
    customName x = Some "Build" /\ name x = "Build".
Proof.
  destruct C9_rename_overwrites_both_names as (Hrename & Hlater & Hrestore).
  split; [|split].
  - apply (Hrename "term-2" "db" Sample.twoTabs). reflexivity.
  - assert (JsMap.get id "term-1"
              (terminals
                 (Frame.renderer
                    (Frame.run [Sample.at_time 20 (Frame.createSession Sample.noOptions)]
                       (Frame.step true 15 (Frame.renameSession "term-1" "db")
                          (Frame.run
                             [Sample.at_time 10 (Frame.createSession Sample.noOptions)]
                             (Frame.initial (Some "/home/user") Missing))).1)))
            = Some (set_names "db" (Sample.session "term-1" "Terminal 1" true 10 None)))
      as Hget by (vm_compute; reflexivity).
    assert (JsMap.has id "term-1"
              (terminals
                 (Frame.renderer
                    (Frame.run
                       [Sample.at_time 10 (Frame.createSession Sample.noOptions)]
                       (Frame.initial (Some "/home/user") Missing)))) = true)
      as Hlive by (vm_compute; reflexivity).
    exact (proj1 (proj2 (Hlater (Some "/home/user") Missing
                           [Sample.at_time 10 (Frame.createSession Sample.noOptions)]
                           true 15 "term-1" "db"
                           [Sample.at_time 20 (Frame.createSession Sample.noOptions)]
                           _ Hlive Hget))).
  - apply (Hrestore (Some "/proj") Sample.staleStore
             {[ "/proj" :=
                  {| savedActiveTerminalId := Some "term-9";
                     savedViewMode := "grid";
                     savedGridLayout := "2x2";
                     terminalNames := {[ "term-3" := "Build" ]} |} ]}
             {| savedActiveTerminalId := Some "term-9";
                savedViewMode := "grid";
                savedGridLayout := "2x2";
                terminalNames := {[ "term-3" := "Build" ]} |}
             (Sample.session "term-3" "Terminal 3" false 30 (Some "/proj")) "Build").
    + reflexivity.
    + vm_compute. reflexivity.
    + left.
    + reflexivity.
    + vm_compute. reflexivity.
    + discriminate.
Defined.

End RenameSystem.

(** ** Closing the active session *)

Section CloseClaims.
Import TerminalManager Spec.

(** Explicit close and process exit remove a session in the same way. *)
Lemma processExit_as_closeSession spawns now s t c :
  consistent s ->
  Frame.step spawns now (Frame.processExit t c) s
    = Frame.step spawns now (Frame.closeSession t) s.
Proof. intros Hc. by rewrite step_processExit, step_closeSession. Qed.

(** The closed session is no longer visible. *)
Lemma closeTerminal_not_visible t tm x :
  x ∈ getTerminalStates false (closeTerminal t tm) -> id x <> t.
Proof.
  unfold getTerminalStates. rewrite elem_of_sort_by_createdAt.
  intros [_ Hin]%list_elem_of_filter Hid. subst t.
  pose proof (closeTerminal_gone (id x) tm) as Hgone. apply get_None in Hgone.
  apply Hgone. unfold JsMap.keys. by apply (list_elem_of_fmap_2 id).
Qed.

(** C3 on the code.  With [term-1] (active) and [term-2] in scope [/A] and
    [term-3] in scope [/B], the store being in [/A], closing [term-1] hands
    the pointer to [term-3], the last key of the map, which belongs to
    [/B]; [term-2], the remaining session of [/A], stays inactive and the
    visible sessions have no active one.  A process exit of [term-1] does
    the same.  The claim promotes [term-2]. *)
Theorem C3_close_promotes_session_of_other_scope :
  let s := Frame.run Sample.twoScopes Sample.boot in
  let closed := Frame.exec (Sample.at_time 60 (Frame.closeSession "term-1")) s in
  let exited := Frame.exec (Sample.at_time 60 (Frame.processExit "term-1" 0)) s in
  currentProjectPath (Frame.renderer s) = Some "/A" /\
  activeTerminalId (Frame.renderer s) = Some "term-1" /\
  map Sample.seen (terminals (Frame.renderer s))
    = [("term-1", Some "/A", true); ("term-2", Some "/A", false);
       ("term-3", Some "/B", false)] /\
  activeTerminalId (Frame.renderer closed) = Some "term-3" /\
  map Sample.seen (terminals (Frame.renderer closed))
    = [("term-2", Some "/A", false); ("term-3", Some "/B", true)] /\
  map Sample.seen (Frame.getVisibleSessions closed)
    = [("term-2", Some "/A", false)] /\
  exited = closed.
Proof.
  cbv zeta. do 6 (split; [vm_compute; reflexivity|]). vm_compute. reflexivity.
Qed.

End CloseClaims.

(** ** The active pointer *)

Section PointerFacts.
Import TerminalManager Spec.
Implicit Types (tm : T) (t u : TerminalState) (l : list TerminalState).

Lemma get_app_l k l l' t :
  JsMap.get id k l = Some t -> JsMap.get id k (l ++ l') = Some t.
Proof.
  unfold JsMap.get. induction l as [|a l IH]; cbn; [done|].
  by destruct (JsMap.has_key id k a).
Qed.

Lemma has_get k l : JsMap.has id k l = true -> exists t, JsMap.get id k l = Some t.
Proof. unfold JsMap.has. destruct (JsMap.get id k l); [eauto | done]. Qed.

Lemma last_keys_live l a : last (JsMap.keys id l) = Some a -> a ∈ JsMap.keys id l.
Proof.
  intros H. apply last_Some in H as (l' & ->). apply elem_of_app. right. left.
Qed.

Lemma last_keys_None l : last (JsMap.keys id l) = None -> l = [].
Proof.
  intros H. apply last_None in H. unfold JsMap.keys in H.
  by destruct l.
Qed.

(** *** The session the pointer names is flagged active *)

Lemma pointerSound_setActiveTerminal x tm :
  JsMap.has id x (terminals tm) = true -> pointerSound (setActiveTerminal x tm).
Proof.
  intros (t & Ht)%has_get a.
  rewrite setActiveTerminal_activeTerminalId, setActiveTerminal_terminals.
  intros [= <-].
  destruct (get_deactivate_shape (activeTerminalId tm) _ _ _ Ht) as (y & Hy & _).
  exists (set_isActive true y). split; [|done].
  rewrite get_update_eq by done. by rewrite Hy.
Qed.

Lemma pointerSound_ext tm tm' :
  activeTerminalId tm' = activeTerminalId tm ->
  (forall a t, JsMap.get id a (terminals tm) = Some t -> isActive t = true ->
     activeTerminalId tm = Some a ->
     exists t', JsMap.get id a (terminals tm') = Some t' /\ isActive t' = true) ->
  pointerSound tm -> pointerSound tm'.
Proof.
  intros Hp Hl Hs a Ha. rewrite Hp in Ha.
  destruct (Hs a Ha) as (t & Ht & Hact). eauto.
Qed.

Lemma get_update_names k a n l t :
  JsMap.get id a l = Some t ->
  exists t', JsMap.get id a (JsMap.update id k (set_names n) l) = Some t' /\
             isActive t' = isActive t.
Proof.
  intros Ht. destruct (decide (k = a)) as [->|Hne].
  - rewrite get_update_eq, Ht by done. eauto.
  - rewrite get_update_ne by done. eauto.
Qed.

Lemma get_restoreNames_isActive names ps a l t :
  JsMap.get id a l = Some t ->
  exists t', JsMap.get id a (restoreNames names ps l) = Some t' /\
             isActive t' = isActive t.
Proof.
  unfold restoreNames. revert l t. induction ps as [|q ps IH]; intros l t0 Ht; [eauto|].
  cbn [foldl]. destruct (names !! id q) as [n|]; [|by apply IH].
  destruct (Js.truthy_string n); [|by apply IH].
  destruct (get_update_names (id q) a n l t0 Ht) as (t1 & Ht1 & Ha1).
  destruct (IH _ _ Ht1) as (t2 & Ht2 & Ha2). exists t2. split; [done | congruence].
Qed.

Lemma pointerSound_renameTerminal x n tm :
  pointerSound tm -> pointerSound (renameTerminal x n tm).
Proof.
  unfold renameTerminal. destruct (JsMap.get id x (terminals tm)) as [tx|]; [|done].
  apply pointerSound_ext; [by rewrite notify_activeTerminalId|].
  intros a t Ht Hact _. rewrite notify_terminals. cbn [terminals with_terminals].
  destruct (get_update_names x a n _ t Ht) as (t' & ? & ?).
  exists t'. split; [done | congruence].
Qed.

Lemma pointerSound_closeTerminal x tm :
  idsTruthy tm -> pointerSound tm -> pointerSound (closeTerminal x tm).
Proof.
  intros Htr Hs. unfold closeTerminal.
  destruct (JsMap.get id x (terminals tm)) as [tx|] eqn:Ex; [|done].
  cbn [activeTerminalId ipcSend with_outbox with_terminals terminals].
  destruct (decide (activeTerminalId tm = Some x)) as [Hp|Hp].
  - destruct (last (JsMap.keys id (JsMap.delete id x (terminals tm)))) as [a|] eqn:El.
    + cbn [activeTerminalId with_activeTerminalId].
      assert (a ∈ JsMap.keys id (JsMap.delete id x (terminals tm))) as Hlive
        by (by apply last_keys_live).
      assert (Js.truthy_string a = true) as ->.
      { apply Htr. unfold ids. rewrite keys_delete in Hlive.
        by apply list_elem_of_filter in Hlive as [_ ?]. }
      intros b. rewrite notify_activeTerminalId, notify_terminals.
      apply pointerSound_setActiveTerminal. cbn. by apply has_true.
    + cbn [activeTerminalId with_activeTerminalId]. intros b.
      by rewrite notify_activeTerminalId.
  - intros a. rewrite notify_activeTerminalId, notify_terminals.
    cbn [terminals activeTerminalId ipcSend with_outbox with_terminals].
    intros Ha. destruct (Hs a Ha) as (t & Ht & Hact). exists t. split; [|done].
    rewrite get_delete_ne; [done | congruence].
Qed.

Lemma pointerSound_selectFirst p tm :
  JsMap.wf id (terminals tm) -> pointerSound (selectFirst p tm).
Proof.
  intros Hwf. unfold selectFirst.
  destruct (getTerminalsByProject p tm) as [|t0 r] eqn:E; [done|].
  apply pointerSound_setActiveTerminal. apply has_true.
  assert (t0 ∈ getTerminalsByProject p tm) as Hin by (rewrite E; left).
  apply getTerminalsByProject_elem in Hin as [Hin _].
  by apply (list_elem_of_fmap_2 id).
Qed.

Lemma pointerSound_restoreProjectSession p tm :
  JsMap.wf id (terminals tm) -> pointerSound tm ->
  pointerSound (restoreProjectSession p tm).
Proof.
  intros Hwf Hs. unfold restoreProjectSession, tryRestore.
  destruct (parseAllSessions (localStorage tm)) as [all|]; [|done].
  destruct (all !! sessionKey p) as [sd|]; [|by apply pointerSound_selectFirst].
  set (tm3 := with_terminals _ _).
  assert (JsMap.wf id (terminals tm3)) as Hwf3.
  { apply (wf_shape (terminals tm)); [|done]. unfold tm3. cbn.
    rewrite shape_restoreNames.
    destruct (Js.truthy_string (savedGridLayout sd));
      destruct (Js.truthy_string (savedViewMode sd)); done. }
  destruct (savedActiveTerminalId sd) as [a|]; [|by apply pointerSound_selectFirst].
  destruct (Js.truthy_string a); [|by apply pointerSound_selectFirst].
  destruct (JsMap.get id a (terminals tm3)) as [t|] eqn:Ea;
    [|by apply pointerSound_selectFirst].
  destruct (decide _); [|by apply pointerSound_selectFirst].
  apply pointerSound_setActiveTerminal. unfold JsMap.has. by rewrite Ea.
Qed.

Lemma pointerSound_setCurrentProject p tm :
  JsMap.wf id (terminals tm) -> pointerSound tm ->
  pointerSound (setCurrentProject p tm).
Proof.
  intros Hwf Hs. rewrite setCurrentProject_leaving.
  assert (pointerSound (restoreProjectSession p (leaving p tm))) as Hr.
  { apply pointerSound_restoreProjectSession.
    - by rewrite leaving_terminals.
    - intros a Ha. rewrite leaving_terminals. apply Hs.
      revert Ha. unfold leaving. cbn. destruct (decide _); [done|].
      by destruct (saveProjectSession_eq (currentProjectPath tm) tm) as (i & -> & _). }
  intros a. rewrite notify_activeTerminalId, notify_terminals. apply Hr.
Qed.

Lemma pointerSound_initializeTerminal tid options now tm :
  JsMap.get id tid (terminals tm) = None ->
  pointerSound tm -> pointerSound (_initializeTerminal tid options now tm).
Proof.
  intros Hfresh Hs a.
  destruct (_initializeTerminal_fresh tid options now tm Hfresh) as (-> & ->).
  destruct (activatesNew tid tm).
  - intros [= <-]. eexists. split; [by apply get_snoc_eq | done].
  - intros Ha. destruct (Hs a Ha) as (t & Ht & Hact).
    exists t. split; [by apply get_app_l | done].
Qed.

(** *** Only the session the pointer names is flagged active *)

Lemma pointerOwnsActive_setActiveTerminal x tm :
  JsMap.wf id (terminals tm) -> Js.truthy_string x = true ->
  pointerOwnsActive tm -> pointerOwnsActive (setActiveTerminal x tm).
Proof.
  intros Hwf Hx Hown t.
  rewrite setActiveTerminal_activeTerminalId, setActiveTerminal_terminals.
  intros Hin Hact.
  apply elem_of_update_wf in Hin as [[Hin _]|(y & Hy & ->)].
  - by rewrite (deactivate_all_inactive tm Hwf Hown t Hin) in Hact.
  - apply get_Some in Hy as [Hid _]. cbn. rewrite Hid.
    split; [done|]. by apply truthy_string_true.
  - unfold JsMap.wf. by rewrite keys_deactivate.
Qed.

Lemma pointerOwnsActive_sub tm tm' :
  activeTerminalId tm' = activeTerminalId tm ->
  (forall t', t' ∈ terminals tm' -> isActive t' = true ->
     exists t, t ∈ terminals tm /\ isActive t = true /\ id t = id t') ->
  pointerOwnsActive tm -> pointerOwnsActive tm'.
Proof.
  intros Hp Hl Hown t' Hin Hact. rewrite Hp.
  destruct (Hl t' Hin Hact) as (t & Ht & Ha & <-). by apply Hown.
Qed.

Lemma elem_of_update_names k n l t' :
  t' ∈ JsMap.update id k (set_names n) l ->
  exists t, t ∈ l /\ isActive t = isActive t' /\ id t = id t'
            /\ projectPath t = projectPath t'.
Proof.
  intros [Hin|(t & Ht & ->)]%elem_of_update; [by eauto|].
  apply get_Some in Ht as [_ Hin]. by eauto.
Qed.

Lemma elem_of_restoreNames names ps l t' :
  t' ∈ restoreNames names ps l ->
  exists t, t ∈ l /\ isActive t = isActive t' /\ id t = id t'
            /\ projectPath t = projectPath t'.
Proof.
  unfold restoreNames. revert l. induction ps as [|q ps IH]; intros l; cbn [foldl].
  { by eauto. }
  intros (t1 & Hin1 & Ha1 & Hi1 & Hp1)%IH.
  destruct (names !! id q) as [n|]; [|by eauto].
  destruct (Js.truthy_string n); [|by eauto].
  apply elem_of_update_names in Hin1 as (t & ? & ? & ? & ?).
  exists t. repeat split; congruence.
Qed.

Lemma pointerOwnsActive_renameTerminal x n tm :
  pointerOwnsActive tm -> pointerOwnsActive (renameTerminal x n tm).
Proof.
  unfold renameTerminal. destruct (JsMap.get id x (terminals tm)) as [tx|]; [|done].
  apply pointerOwnsActive_sub; [by rewrite notify_activeTerminalId|].
  intros t'. rewrite notify_terminals. cbn [terminals with_terminals].
  intros (t & ? & ? & ? & _)%elem_of_update_names Hact.
  exists t. repeat split; congruence.
Qed.

Lemma pointerOwnsActive_closeTerminal x tm :
  JsMap.wf id (terminals tm) -> idsTruthy tm ->
  pointerOwnsActive tm -> pointerOwnsActive (closeTerminal x tm).
Proof.
  intros Hwf Htr Hown. unfold closeTerminal.
  destruct (JsMap.get id x (terminals tm)) as [tx|] eqn:Ex; [|done].
  cbn [activeTerminalId ipcSend with_outbox with_terminals terminals].
  destruct (decide (activeTerminalId tm = Some x)) as [Hp|Hp].
  - (* every flagged session was the closed one *)
    assert (forall a, pointerOwnsActive
              (with_activeTerminalId a
                 (with_outbox (outbox tm ++ [IPC.TERMINAL_DESTROY x])
                    (with_terminals (JsMap.delete id x (terminals tm)) tm))))
      as Hnone.
    { intros a t Hin Hact. cbn in Hin. apply elem_of_delete in Hin as [Hne Hin].
      destruct (Hown t Hin Hact) as [Hpt _]. congruence. }
    destruct (last (JsMap.keys id (JsMap.delete id x (terminals tm)))) as [a|] eqn:El.
    + cbn [activeTerminalId with_activeTerminalId].
      assert (a ∈ JsMap.keys id (JsMap.delete id x (terminals tm))) as Hlive
        by (by apply last_keys_live).
      assert (Js.truthy_string a = true) as Hta.
      { apply Htr. unfold ids. rewrite keys_delete in Hlive.
        by apply list_elem_of_filter in Hlive as [_ ?]. }
      rewrite Hta. intros t. rewrite notify_activeTerminalId, notify_terminals.
      apply pointerOwnsActive_setActiveTerminal; [|done|apply Hnone].
      cbn. by apply wf_delete.
    + cbn [activeTerminalId with_activeTerminalId]. intros t.
      rewrite notify_activeTerminalId, notify_terminals. apply Hnone.
  - intros t. rewrite notify_activeTerminalId, notify_terminals.
    cbn [terminals activeTerminalId ipcSend with_outbox with_terminals].
    intros [_ Hin]%elem_of_delete Hact. by apply Hown.
Qed.

Lemma shape_nil l l' : map shape l = map shape l' -> l = [] -> l' = [].
Proof. intros H ->. by destruct l'. Qed.

Lemma pointerOwnsActive_selectFirst p tm :
  JsMap.wf id (terminals tm) -> idsTruthy tm ->
  (inScope p tm = [] -> terminals tm = []) ->
  pointerOwnsActive tm -> pointerOwnsActive (selectFirst p tm).
Proof.
  intros Hwf Htr Hempty Hown. unfold selectFirst.
  destruct (getTerminalsByProject p tm) as [|t0 r] eqn:E.
  - apply getTerminalsByProject_nil in E. intros t Hin. cbn in Hin.
    rewrite (Hempty E) in Hin. by apply elem_of_nil in Hin.
  - apply pointerOwnsActive_setActiveTerminal; [done| |done].
    apply Htr. assert (t0 ∈ getTerminalsByProject p tm) as Hin by (rewrite E; left).
    apply getTerminalsByProject_elem in Hin as [Hin _].
    by apply (list_elem_of_fmap_2 id).
Qed.

(** The store after the first three steps of the [try] block. *)
Lemma restored_names_facts sd p tm :
  let tm2 :=
    if Js.truthy_string (savedGridLayout sd)
    then with_gridLayout (savedGridLayout sd)
           (if Js.truthy_string (savedViewMode sd)
            then with_viewMode (savedViewMode sd) tm else tm)
    else if Js.truthy_string (savedViewMode sd)
         then with_viewMode (savedViewMode sd) tm else tm in
  let tm3 :=
    with_terminals
      (restoreNames (terminalNames sd) (getTerminalsByProject p tm2) (terminals tm2))
      tm2 in
  terminals tm2 = terminals tm /\
  activeTerminalId tm3 = activeTerminalId tm /\
  currentProjectPath tm3 = currentProjectPath tm /\
  map shape (terminals tm3) = map shape (terminals tm).
Proof.
  cbn zeta. cbn [terminals activeTerminalId currentProjectPath with_terminals].
  rewrite shape_restoreNames.
  destruct (Js.truthy_string (savedGridLayout sd));
    destruct (Js.truthy_string (savedViewMode sd)); done.
Qed.

Lemma pointerOwnsActive_restoreProjectSession p tm :
  JsMap.wf id (terminals tm) -> idsTruthy tm ->
  (inScope p tm = [] -> terminals tm = []) ->
  pointerOwnsActive tm -> pointerOwnsActive (restoreProjectSession p tm).
Proof.
  intros Hwf Htr Hempty Hown. unfold restoreProjectSession, tryRestore.
  destruct (parseAllSessions (localStorage tm)) as [all|]; [|done].
  destruct (all !! sessionKey p) as [sd|];
    [|by apply pointerOwnsActive_selectFirst].
  destruct (restored_names_facts sd p tm) as (Ht2 & Hp3 & _ & Hs3).
  cbn zeta in Ht2, Hp3, Hs3.
  set (tm3 := with_terminals _ _) in *.
  assert (JsMap.wf id (terminals tm3)) as Hwf3
    by (by apply (wf_shape _ _ (eq_sym Hs3))).
  assert (idsTruthy tm3) as Htr3.
  { intros k. unfold ids. rewrite (shape_ids _ _ Hs3). apply Htr. }
  assert (inScope p tm3 = [] -> terminals tm3 = []) as Hempty3.
  { intros H. apply (shape_nil _ _ (eq_sym Hs3)), Hempty.
    apply inScope_nil. apply inScope_nil in H.
    by rewrite <- (shape_projectPaths _ _ Hs3). }
  assert (pointerOwnsActive tm3) as Hown3.
  { revert Hown. apply pointerOwnsActive_sub; [done|].
    intros t'. unfold tm3. cbn [terminals with_terminals]. rewrite Ht2.
    intros (t & ? & ? & ? & _)%elem_of_restoreNames Hact.
    exists t. repeat split; congruence. }
  destruct (savedActiveTerminalId sd) as [a|];
    [|by apply pointerOwnsActive_selectFirst].
  destruct (Js.truthy_string a) eqn:Ea; [|by apply pointerOwnsActive_selectFirst].
  destruct (JsMap.get id a (terminals tm3)) as [t|];
    [|by apply pointerOwnsActive_selectFirst].
  destruct (decide _); [|by apply pointerOwnsActive_selectFirst].
  by apply pointerOwnsActive_setActiveTerminal.
Qed.

Lemma leaving_same p tm :
  currentProjectPath tm = p -> leaving p tm = tm.
Proof.
  intros <-. unfold leaving. rewrite decide_True by done. by destruct tm.
Qed.

Lemma pointerOwnsActive_initializeTerminal tid options now tm :
  JsMap.get id tid (terminals tm) = None -> Js.truthy_string tid = true ->
  pointerOwnsActive tm ->
  pointerOwnsActive (_initializeTerminal tid options now tm).
Proof.
  intros Hfresh Htid Hown t.
  destruct (_initializeTerminal_fresh tid options now tm Hfresh) as (-> & ->).
  rewrite activatesNew_fresh by done.
  intros [Hin| ->%list_elem_of_singleton]%elem_of_app Hact.
  - destruct (Hown t Hin Hact) as [Hp Hne]. rewrite Hp. cbn.
    pose proof (proj2 (truthy_string_true _) Hne) as Htr. rewrite Htr. cbn.
    rewrite bool_decide_false; [done|]. intros Hnil. rewrite Hnil in Hin.
    by apply elem_of_nil in Hin.
  - cbn in Hact. rewrite Hact. cbn. split; [done|]. by apply truthy_string_true.
Qed.

(** *** Whenever a session is live the pointer is set *)

Lemma pointerSet_setActiveTerminal x tm : pointerSet (setActiveTerminal x tm).
Proof. intros _. rewrite setActiveTerminal_activeTerminalId. eauto. Qed.

Lemma pointerSet_renameTerminal x n tm :
  pointerSet tm -> pointerSet (renameTerminal x n tm).
Proof.
  unfold renameTerminal. destruct (JsMap.get id x (terminals tm)) as [tx|]; [|done].
  intros Hset. unfold pointerSet.
  rewrite notify_terminals, notify_activeTerminalId.
  cbn [terminals activeTerminalId with_terminals]. intros Hne. apply Hset.
  intros Hnil. apply Hne. by rewrite Hnil.
Qed.

Lemma pointerSet_closeTerminal x tm :
  idsTruthy tm -> pointerSet tm -> pointerSet (closeTerminal x tm).
Proof.
  intros Htr Hset. unfold closeTerminal.
  destruct (JsMap.get id x (terminals tm)) as [tx|] eqn:Ex; [|done].
  cbn [activeTerminalId ipcSend with_outbox with_terminals terminals].
  destruct (decide (activeTerminalId tm = Some x)) as [Hp|Hp].
  - destruct (last (JsMap.keys id (JsMap.delete id x (terminals tm)))) as [a|] eqn:El.
    + cbn [activeTerminalId with_activeTerminalId].
      assert (a ∈ JsMap.keys id (JsMap.delete id x (terminals tm))) as Hlive
        by (by apply last_keys_live).
      assert (Js.truthy_string a = true) as ->.
      { apply Htr. unfold ids. rewrite keys_delete in Hlive.
        by apply list_elem_of_filter in Hlive as [_ ?]. }
      unfold pointerSet. rewrite notify_activeTerminalId, notify_terminals.
      apply pointerSet_setActiveTerminal.
    + apply last_keys_None in El. unfold pointerSet.
      rewrite notify_terminals. cbn. by rewrite El.
  - unfold pointerSet. rewrite notify_activeTerminalId, notify_terminals.
    cbn [terminals activeTerminalId ipcSend with_outbox with_terminals].
    intros _. apply Hset. apply get_Some in Ex as [_ Hin]. intros Hnil.
    rewrite Hnil in Hin. by apply elem_of_nil in Hin.
Qed.

Lemma pointerSet_selectFirst p tm :
  (inScope p tm = [] -> terminals tm = []) -> pointerSet (selectFirst p tm).
Proof.
  intros Hempty. unfold selectFirst.
  destruct (getTerminalsByProject p tm) as [|t0 r] eqn:E.
  - apply getTerminalsByProject_nil in E. intros Hne. cbn in Hne. by apply Hempty in E.
  - apply pointerSet_setActiveTerminal.
Qed.

Lemma pointerSet_restoreProjectSession p tm :
  (inScope p tm = [] -> terminals tm = []) ->
  pointerSet tm -> pointerSet (restoreProjectSession p tm).
Proof.
  intros Hempty Hset. unfold restoreProjectSession, tryRestore.
  destruct (parseAllSessions (localStorage tm)) as [all|]; [|done].
  destruct (all !! sessionKey p) as [sd|]; [|by apply pointerSet_selectFirst].
  destruct (restored_names_facts sd p tm) as (Ht2 & Hp3 & _ & Hs3).
  cbn zeta in Ht2, Hp3, Hs3.
  set (tm3 := with_terminals _ _) in *.
  assert (inScope p tm3 = [] -> terminals tm3 = []) as Hempty3.
  { intros H. apply (shape_nil _ _ (eq_sym Hs3)), Hempty.
    apply inScope_nil. apply inScope_nil in H.
    by rewrite <- (shape_projectPaths _ _ Hs3). }
  destruct (savedActiveTerminalId sd) as [a|]; [|by apply pointerSet_selectFirst].
  destruct (Js.truthy_string a); [|by apply pointerSet_selectFirst].
  destruct (JsMap.get id a (terminals tm3)) as [t|];
    [|by apply pointerSet_selectFirst].
  destruct (decide _); [|by apply pointerSet_selectFirst].
  apply pointerSet_setActiveTerminal.
Qed.

Lemma pointerSet_initializeTerminal tid options now tm :
  JsMap.get id tid (terminals tm) = None ->
  pointerSet (_initializeTerminal tid options now tm).
Proof.
  intros Hfresh _.
  destruct (_initializeTerminal_fresh tid options now tm Hfresh) as (_ & ->).
  rewrite activatesNew_fresh by done.
  destruct (bool_decide (terminals tm = [])); cbn; [by eauto|].
  destruct (activeTerminalId tm) as [a|]; cbn; [|by eauto].
  destruct (Js.truthy_string a); cbn; by eauto.
Qed.

(** *** Every session belongs to the current scope *)

Lemma notify_currentProjectPath tm :
  currentProjectPath (_notifyStateChange tm) = currentProjectPath tm.
Proof. unfold _notifyStateChange. by destruct (onStateChange tm). Qed.

Lemma setActiveTerminal_currentProjectPath x tm :
  currentProjectPath (setActiveTerminal x tm) = currentProjectPath tm.
Proof. by rewrite setActiveTerminal_eq, notify_currentProjectPath. Qed.

Lemma closeTerminal_currentProjectPath x tm :
  currentProjectPath (closeTerminal x tm) = currentProjectPath tm.
Proof.
  unfold closeTerminal. destruct (JsMap.get id x (terminals tm)); [|done].
  rewrite notify_currentProjectPath. destruct (decide _); [|done]. cbn.
  destruct (last _) as [a|]; [|done]. destruct (Js.truthy_string a); [|done].
  by rewrite setActiveTerminal_currentProjectPath.
Qed.

Lemma closeTerminal_elem x tm t' :
  t' ∈ terminals (closeTerminal x tm) ->
  exists t, t ∈ terminals tm /\ shape t = shape t'.
Proof.
  unfold closeTerminal. destruct (JsMap.get id x (terminals tm)) as [tx|];
    [|by eauto].
  rewrite notify_terminals.
  assert (forall u, u ∈ JsMap.delete id x (terminals tm) ->
                    exists t, t ∈ terminals tm /\ shape t = shape u) as Hdel.
  { intros u [_ Hu]%elem_of_delete. eauto. }
  destruct (decide _); [|by apply Hdel]. cbn [activeTerminalId with_activeTerminalId].
  destruct (last _) as [a|]; [|by apply Hdel].
  destruct (Js.truthy_string a); [|by apply Hdel].
  intros Hin.
  destruct (shape_elem _ _ t' (eq_sym (shape_setActiveTerminal a _)) Hin)
    as (u & Hu & Hs).
  destruct (Hdel u Hu) as (t & ? & ?). exists t. split; [done | congruence].
Qed.

Lemma allInCurrentScope_sub tm tm' :
  currentProjectPath tm' = currentProjectPath tm ->
  (forall t', t' ∈ terminals tm' ->
     exists t, t ∈ terminals tm /\ shape t = shape t') ->
  allInCurrentScope tm -> allInCurrentScope tm'.
Proof.
  intros Hc Hl Hall t' Hin. destruct (Hl t' Hin) as (t & Ht & Hs).
  rewrite Hc, <- (Hall t Ht). by injection Hs.
Qed.

Lemma allInCurrentScope_shape tm tm' :
  currentProjectPath tm' = currentProjectPath tm ->
  map shape (terminals tm') = map shape (terminals tm) ->
  allInCurrentScope tm -> allInCurrentScope tm'.
Proof.
  intros Hc Hs. apply allInCurrentScope_sub; [done|].
  intros t' Hin. by apply (shape_elem _ _ t' (eq_sym Hs)).
Qed.

Lemma setCurrentProject_currentProjectPath p tm :
  currentProjectPath (setCurrentProject p tm) = p.
Proof.
  rewrite setCurrentProject_leaving, notify_currentProjectPath.
  unfold restoreProjectSession, tryRestore.
  destruct (parseAllSessions (localStorage (leaving p tm))) as [all|]; [|done].
  assert (forall q y, currentProjectPath (selectFirst q y) = currentProjectPath y)
    as Hsel.
  { intros q y. unfold selectFirst. destruct (getTerminalsByProject q y); [done|].
    apply setActiveTerminal_currentProjectPath. }
  destruct (all !! sessionKey p) as [sd|]; [|by rewrite Hsel].
  destruct (restored_names_facts sd p (leaving p tm)) as (_ & _ & Hc3 & _).
  cbn zeta in Hc3. set (tm3 := with_terminals _ _) in *.
  assert (currentProjectPath tm3 = p) as Hp3 by (by rewrite Hc3).
  destruct (savedActiveTerminalId sd) as [a|]; [|by rewrite Hsel].
  destruct (Js.truthy_string a); [|by rewrite Hsel].
  destruct (JsMap.get id a (terminals tm3)) as [t|]; [|by rewrite Hsel].
  destruct (decide _); [|by rewrite Hsel].
  by rewrite setActiveTerminal_currentProjectPath.
Qed.

Lemma initializeTerminal_currentProjectPath tid options now tm :
  currentProjectPath (_initializeTerminal tid options now tm) = currentProjectPath tm.
Proof.
  unfold _initializeTerminal. rewrite notify_currentProjectPath.
  set (named := match optName options with Some n => _ | None => _ end).
  set (tm1 := match named with Some _ => tm | None => _ end).
  assert (currentProjectPath tm1 = currentProjectPath tm) as <-
    by (unfold tm1; by destruct named).
  destruct (_ || _); [|done]. by rewrite setActiveTerminal_currentProjectPath.
Qed.

(** *** Counting the flagged sessions *)

Lemma filter_all {A} (P : A -> Prop) `{!forall x, Decision (P x)} (l : list A) :
  (forall x, x ∈ l -> P x) -> filter P l = l.
Proof.
  induction l as [|a l IH]; intros Hall; [done|].
  rewrite filter_cons_True by (apply Hall; left).
  f_equal. apply IH. intros x Hx. apply Hall. by right.
Qed.



End PointerFacts.

Section PointerSystem.
Import TerminalManager Spec.
Implicit Types (s : Frame.State).

Lemma consistent_idsTruthy s : consistent s -> idsTruthy (Frame.renderer s).
Proof.
  intros Hc k Hk.
  by destruct (proj1 (Forall_forall _ _) (ids_issued _ Hc) _ Hk) as (n & -> & _).
Qed.

(** Along a run that activates live sessions only, the session the pointer
    names is live and flagged active. *)
Lemma pointerSound_step spawns now o s :
  consistent s -> targetsLive o s ->
  pointerSound (Frame.renderer s) ->
  pointerSound (Frame.renderer (Frame.step spawns now o s).1).
Proof.
  intros Hc Hlive Hs.
  pose proof (ids_once _ Hc) as Hwf. pose proof (consistent_idsTruthy s Hc) as Htr.
  destruct o as [options|p|t|t n|t|mode|layout|t c].
  - rewrite step_createSession by done.
    destruct (9 <=? _)%nat; [done|]. destruct spawns; [|done].
    cbn [fst Frame.renderer]. apply pointerSound_initializeTerminal; [|done].
    apply get_None, (consistent_next_fresh s Hc).
  - cbn [Frame.step].
    rewrite step_on_renderer by (done || apply sameWiring_setCurrentProject).
    by apply pointerSound_setCurrentProject.
  - cbn [Frame.step].
    rewrite step_on_renderer by (done || apply sameWiring_setActiveTerminal).
    by apply pointerSound_setActiveTerminal.
  - cbn [Frame.step].
    rewrite step_on_renderer by (done || apply sameWiring_renameTerminal).
    by apply pointerSound_renameTerminal.
  - rewrite step_closeSession by done.
    destruct (JsMap.has _ _ _); [|done]. by apply pointerSound_closeTerminal.
  - cbn [Frame.step].
    rewrite step_on_renderer by (done || apply sameWiring_setViewMode).
    intros a. cbn. unfold TerminalManager.setViewMode.
    rewrite notify_activeTerminalId, notify_terminals. apply Hs.
  - cbn [Frame.step].
    rewrite step_on_renderer by (done || apply sameWiring_setGridLayout).
    intros a. cbn. unfold TerminalManager.setGridLayout.
    rewrite notify_activeTerminalId, notify_terminals. apply Hs.
  - rewrite step_processExit by done.
    destruct (JsMap.has _ _ _); [|done]. by apply pointerSound_closeTerminal.
Qed.


Lemma inOneScope_step spawns now o s :
  consistent s -> targetsLive o s -> keepsOneScope o s ->
  inOneScope (Frame.renderer s) ->
  inOneScope (Frame.renderer (Frame.step spawns now o s).1).
Proof.
  intros Hc Hlive Hstay (Hs & Hown & Hset & Hall).
  pose proof (pointerSound_step spawns now o s Hc Hlive Hs) as Hs'.
  split; [done|]. clear Hs'.
  pose proof (ids_once _ Hc) as Hwf. pose proof (consistent_idsTruthy s Hc) as Htr.
  assert (forall p, p = currentProjectPath (Frame.renderer s) ->
            inScope p (Frame.renderer s) = [] -> terminals (Frame.renderer s) = [])
    as Hempty.
  { intros p -> Hnil. destruct (terminals (Frame.renderer s)) as [|u r] eqn:E; [done|].
    assert (u ∈ inScope (currentProjectPath (Frame.renderer s)) (Frame.renderer s))
      as Hu.
    { apply list_elem_of_filter. split; [apply Hall|]; rewrite E; left. }
    rewrite Hnil in Hu. by apply elem_of_nil in Hu. }
  destruct o as [options|p|t|t n|t|mode|layout|t c].
  - rewrite step_createSession by done.
    destruct (9 <=? _)%nat; [done|]. destruct spawns; [|done].
    cbn [fst Frame.renderer].
    pose proof (consistent_next_fresh s Hc) as Hfresh. apply get_None in Hfresh.
    split; [by apply pointerOwnsActive_initializeTerminal|].
    split; [by apply pointerSet_initializeTerminal|].
    intros t'. rewrite initializeTerminal_currentProjectPath.
    destruct (_initializeTerminal_fresh _ (passedOptions options (Frame.renderer s))
                now _ Hfresh) as (-> & _).
    intros [Hin| ->%list_elem_of_singleton]%elem_of_app; [by apply Hall|].
    cbn in Hstay. by cbn.
  - cbn [Frame.step]. cbn in Hstay.
    rewrite step_on_renderer by (done || apply sameWiring_setCurrentProject).
    cbn [fst Frame.on_renderer Frame.renderer].
    destruct Hstay as [Hstay|Hnone].
    + rewrite setCurrentProject_leaving, leaving_same by done.
      split; [|split].
      * intros t'. rewrite notify_activeTerminalId, notify_terminals.
        by apply pointerOwnsActive_restoreProjectSession; [| |apply Hempty|].
      * unfold pointerSet. rewrite notify_activeTerminalId, notify_terminals.
        by apply pointerSet_restoreProjectSession; [apply Hempty|].
      * rewrite <- (leaving_same p (Frame.renderer s)) at 1 by done.
        rewrite <- setCurrentProject_leaving.
        apply (allInCurrentScope_shape (Frame.renderer s));
          [|apply shape_setCurrentProject|done].
        by rewrite setCurrentProject_currentProjectPath.
    + assert (terminals (setCurrentProject p (Frame.renderer s)) = []) as Hts.
      { apply (shape_nil (terminals (Frame.renderer s))); [|done].
        symmetry. apply shape_setCurrentProject. }
      split; [|split].
      * intros t' Hin. rewrite Hts in Hin. by apply elem_of_nil in Hin.
      * intros Hne. by rewrite Hts in Hne.
      * intros t' Hin. rewrite Hts in Hin. by apply elem_of_nil in Hin.
  - cbn [Frame.step]. cbn in Hlive.
    rewrite step_on_renderer by (done || apply sameWiring_setActiveTerminal).
    cbn [fst Frame.on_renderer Frame.renderer].
    split; [|split].
    + apply pointerOwnsActive_setActiveTerminal; [done| |done].
      apply Htr. by apply has_true.
    + apply pointerSet_setActiveTerminal.
    + apply (allInCurrentScope_shape (Frame.renderer s));
        [apply setActiveTerminal_currentProjectPath
        |apply shape_setActiveTerminal|done].
  - cbn [Frame.step].
    rewrite step_on_renderer by (done || apply sameWiring_renameTerminal).
    cbn [fst Frame.on_renderer Frame.renderer].
    split; [by apply pointerOwnsActive_renameTerminal|].
    split; [by apply pointerSet_renameTerminal|].
    apply (allInCurrentScope_shape (Frame.renderer s));
      [|apply shape_renameTerminal|done].
    unfold renameTerminal. destruct (JsMap.get _ _ _); [|done].
    by rewrite notify_currentProjectPath.
  - rewrite step_closeSession by done.
    destruct (JsMap.has _ _ _); [|done]. cbn [fst Frame.renderer].
    split; [by apply pointerOwnsActive_closeTerminal|].
    split; [by apply pointerSet_closeTerminal|].
    apply (allInCurrentScope_sub (Frame.renderer s));
      [apply closeTerminal_currentProjectPath | apply closeTerminal_elem | done].
  - cbn [Frame.step].
    rewrite step_on_renderer by (done || apply sameWiring_setViewMode).
    cbn [fst Frame.on_renderer Frame.renderer]. unfold TerminalManager.setViewMode.
    split; [|split].
    + intros t'. rewrite notify_activeTerminalId, notify_terminals. apply Hown.
    + unfold pointerSet. rewrite notify_activeTerminalId, notify_terminals.
      apply Hset.
    + intros t'. rewrite notify_currentProjectPath, notify_terminals. apply Hall.
  - cbn [Frame.step].
    rewrite step_on_renderer by (done || apply sameWiring_setGridLayout).
    cbn [fst Frame.on_renderer Frame.renderer]. unfold TerminalManager.setGridLayout.
    split; [|split].
    + intros t'. rewrite notify_activeTerminalId, notify_terminals. apply Hown.
    + unfold pointerSet. rewrite notify_activeTerminalId, notify_terminals.
      apply Hset.
    + intros t'. rewrite notify_currentProjectPath, notify_terminals. apply Hall.
  - rewrite step_processExit by done.
    destruct (JsMap.has _ _ _); [|done]. cbn [fst Frame.renderer].
    split; [by apply pointerOwnsActive_closeTerminal|].
    split; [by apply pointerSet_closeTerminal|].
    apply (allInCurrentScope_sub (Frame.renderer s));
      [apply closeTerminal_currentProjectPath | apply closeTerminal_elem | done].
Qed.

Lemma inOneScope_run es s :
  consistent s -> along targetsLive es s -> along keepsOneScope es s ->
  inOneScope (Frame.renderer s) ->
  inOneScope (Frame.renderer (Frame.run es s)).
Proof.
  revert s. induction es as [|e es IH]; intros s Hc Hal Hst Hs; [done|].
  destruct Hal as [He Hal]. destruct Hst as [Hse Hst]. cbn.
  apply IH; [by apply consistent_step | done | done|].
  by apply inOneScope_step.
Qed.




(** C10 as stated fails: in a state the operations reach, with a session
    flagged active in the global scope and another in [/B] which the
    pointer names, [setActiveTerminal] with an unknown id clears the flag
    of the pointer's session only; the session of the global scope is live
    and still has [isActive = true]. *)
Lemma C10_other_scope_session_stays_active :
  JsMap.get id "ghost" (terminals Sample.bothFlagged) = None /\
  map Sample.seen (terminals Sample.bothFlagged)
    = [("term-1", None, true); ("term-2", Some "/B", true)] /\
  activeTerminalId (setActiveTerminal "ghost" Sample.bothFlagged) = Some "ghost" /\
  map Sample.seen (terminals (setActiveTerminal "ghost" Sample.bothFlagged))
    = [("term-1", None, true); ("term-2", Some "/B", false)].
Proof. do 3 (split; [vm_compute; reflexivity|]). vm_compute. reflexivity. Qed.

(** C10, amended.  [setActiveTerminal] called with an id that names no live
    session still clears the [isActive] flag of the session the pointer
    named, changes no other session, and stores the unknown id in the
    pointer.  No session gets the flag.  So when, before the call, the only
    sessions flagged active were the pointer's, the pointer is afterwards
    non-null while no live session has [isActive = true]; a session left
    flagged in another scope keeps its flag.  The condition holds in every
    state reached by a run of [Frame.run] (operations issued one after the
    other) that activates live sessions only and keeps the live sessions
    in the current scope. *)
Theorem C10_setActive_unknown_id :
  (forall terminalId tm,
     JsMap.get id terminalId (terminals tm) = None ->
     let tm' := setActiveTerminal terminalId tm in
     activeTerminalId tm' = Some terminalId /\
     JsMap.get id terminalId (terminals tm') = None /\
     terminals tm' = deactivate (activeTerminalId tm) (terminals tm) /\
     (forall a t,
        activeTerminalId tm = Some a -> a <> EmptyString ->
        JsMap.get id a (terminals tm) = Some t ->
        JsMap.get id a (terminals tm') = Some (set_isActive false t)) /\
     (JsMap.wf id (terminals tm) -> pointerOwnsActive tm ->
      forall t, t ∈ terminals tm' -> isActive t = false)) /\
  (forall h store es terminalId,
     along targetsLive es (Frame.initial h store) ->
     along keepsOneScope es (Frame.initial h store) ->
     let tm := Frame.renderer (Frame.run es (Frame.initial h store)) in
     JsMap.get id terminalId (terminals tm) = None ->
     let tm' := setActiveTerminal terminalId tm in
     activeTerminalId tm' = Some terminalId /\
     forall t, t ∈ terminals tm' -> isActive t = false).
Proof.
  assert (forall terminalId tm,
            JsMap.get id terminalId (terminals tm) = None ->
            terminals (setActiveTerminal terminalId tm)
            = deactivate (activeTerminalId tm) (terminals tm)) as Hts.
  { intros terminalId tm Hunknown. rewrite setActiveTerminal_terminals.
    apply update_absent. by apply get_deactivate_None. }
  split.
  - intros terminalId tm Hunknown tm'. unfold tm'.
    split; [apply setActiveTerminal_activeTerminalId|].
    split; [rewrite Hts by done; by apply get_deactivate_None|].
    split; [by apply Hts|]. split.
    + intros a t Ha Hne Hget. rewrite Hts, Ha by done. unfold deactivate.
      apply truthy_string_true in Hne. rewrite Hne.
      rewrite get_update_eq by done. by rewrite Hget.
    + intros Hwf Hown t. rewrite Hts by done. by apply deactivate_all_inactive.
  - intros h store es terminalId Hlive Hstay tm Hunknown tm'. unfold tm'.
    split; [apply setActiveTerminal_activeTerminalId|].
    pose proof (consistent_initial h store) as Hc0.
    destruct (inOneScope_run es _ Hc0 Hlive Hstay) as (_ & Hown & _).
    { split; [intros a; cbn; discriminate|]. split; [|split].
      - intros t Hin. cbn in Hin. by apply elem_of_nil in Hin.
      - intros Hne. by cbn in Hne.
      - intros t Hin. cbn in Hin. by apply elem_of_nil in Hin. }
    pose proof (ids_once _ (consistent_run es _ Hc0)) as Hwf.
    intros t. rewrite Hts by done. by apply deactivate_all_inactive.
Qed.

Lemma C10_setActive_unknown_id_witness :
  activeTerminalId (setActiveTerminal "ghost" Sample.twoTabs) = Some "ghost" /\
  forall t, t ∈ terminals (setActiveTerminal "ghost" Sample.twoTabs) ->
    isActive t = false.
Proof.
  pose proof (proj1 C10_setActive_unknown_id "ghost" Sample.twoTabs eq_refl)
    as (Hp & _ & _ & _ & Hall).
  split; [exact Hp|]. apply Hall.
  - unfold JsMap.wf. simpl. apply (bool_decide_unpack (NoDup _)). vm_compute. exact I.
  - refine (proj1 (Forall_forall
      (fun t => isActive t = true ->
                activeTerminalId Sample.twoTabs = Some (id t) /\
                id t <> EmptyString) _) _).
    repeat constructor; simpl; discriminate.
Defined.

End PointerSystem.

(** ** More facts about insertion-ordered maps *)

Section JsMapMore.
Context {A : Type} (key : A -> string).
Implicit Types (m : list A) (k : string) (f g : A -> A).

Lemma get_set_eq a m : JsMap.get key (key a) (JsMap.set key a m) = Some a.
Proof.
  unfold JsMap.get. induction m as [|b m IH]; simpl.
  - unfold JsMap.has_key. by rewrite bool_decide_eq_true_2.
  - destruct (JsMap.has_key key (key a) b) eqn:E; simpl.
    + unfold JsMap.has_key. by rewrite bool_decide_eq_true_2.
    + by rewrite E.
Qed.

Lemma get_set_ne a k m :
  k <> key a -> JsMap.get key k (JsMap.set key a m) = JsMap.get key k m.
Proof.
  intros Hk. unfold JsMap.get. induction m as [|b m IH]; simpl.
  - unfold JsMap.has_key. by rewrite bool_decide_eq_false_2.
  - destruct (JsMap.has_key key (key a) b) eqn:E; simpl.
    + unfold JsMap.has_key in *. apply bool_decide_eq_true in E.
      rewrite !bool_decide_eq_false_2; [done| congruence | congruence].
    + destruct (JsMap.has_key key k b); [done | apply IH].
Qed.


Lemma length_delete_known k m a :
  JsMap.wf key m -> JsMap.get key k m = Some a ->
  S (length (JsMap.delete key k m)) = length m.
Proof.
  unfold JsMap.wf, JsMap.keys, JsMap.get, JsMap.delete.
  induction m as [|b m IH]; simpl; intros Hn Hg; [done|].
  apply NoDup_cons in Hn as [Hb Hn].
  unfold JsMap.has_key in Hg. case_bool_decide as Hk.
  - rewrite filter_cons_False by (intros ?; congruence).
    rewrite filter_all; [done|]. intros x Hx E. apply Hb. rewrite Hk, <- E.
    by apply (list_elem_of_fmap_2 key).
  - rewrite filter_cons_True by done. simpl. f_equal. by apply IH.
Qed.

End JsMapMore.

(** ** The registry under arbitrary requests *)

Section RegistryFacts.
Import PtyManager PtyHost Laws.
Implicit Types (st : State) (tid : string) (rs : list Request).

Lemma createTerminal_cases spawns wd p st :
  (createTerminal spawns wd p st = (inl (MaxTerminalLimitReached MAX_TERMINALS), st)
   /\ (MAX_TERMINALS <= size st)%nat) \/
  (spawns = false /\ (size st < MAX_TERMINALS)%nat /\
   createTerminal spawns wd p st
     = (inl SpawnFailed, with_counter (S (terminalCounter st)) st)) \/
  (spawns = true /\ (size st < MAX_TERMINALS)%nat /\
   createTerminal spawns wd p st
     = (inr (Spec.termId (S (terminalCounter st))),
        with_instances
          (JsMap.set terminalId
             {| terminalId := Spec.termId (S (terminalCounter st));
                cwd := Js.or_else wd (home st);
                projectPath := p; written := []; cols := 80; rows := 24 |}
             (ptyInstances st))
          (with_counter (S (terminalCounter st)) st))).
Proof.
  destruct (decide (MAX_TERMINALS <= size st)%nat) as [Hc|Hc].
  - left. split; [by apply createTerminal_at_cap | done].
  - right. assert (size st < MAX_TERMINALS)%nat as Hlt by lia.
    pose proof (createTerminal_below_cap spawns wd p st Hlt) as E.
    cbv zeta in E. destruct spawns; [right | left]; done.
Qed.

Lemma createTerminal_returns spawns wd p st tid st' :
  createTerminal spawns wd p st = (inr tid, st') ->
  tid = Spec.termId (S (terminalCounter st)) /\
  terminalCounter st' = S (terminalCounter st).
Proof.
  intros H.
  destruct (createTerminal_cases spawns wd p st)
    as [[E _]|[(_ & _ & E)|(_ & _ & E)]]; rewrite E in H; [done..|].
  by injection H as <- <-.
Qed.

Lemma createTerminal_counter spawns wd p st :
  (terminalCounter st <= terminalCounter (createTerminal spawns wd p st).2)%nat.
Proof.
  destruct (createTerminal_cases spawns wd p st)
    as [[E _]|[(_ & _ & E)|(_ & _ & E)]]; rewrite E; simpl; lia.
Qed.

Lemma writeToTerminal_counter tid data st :
  terminalCounter (writeToTerminal tid data st).2 = terminalCounter st.
Proof.
  unfold writeToTerminal, bind, gets, modify, ret; simpl.
  by destruct (JsMap.get _ _ _).
Qed.

Lemma resizeTerminal_counter tid c r st :
  terminalCounter (resizeTerminal tid c r st).2 = terminalCounter st.
Proof.
  unfold resizeTerminal, bind, gets, modify, ret; simpl.
  by destruct (JsMap.get _ _ _).
Qed.

Lemma destroyTerminal_counter tid st :
  terminalCounter (destroyTerminal tid st).2 = terminalCounter st.
Proof.
  unfold destroyTerminal, bind, gets, modify, ret; simpl.
  by destruct (JsMap.get _ _ _).
Qed.

Lemma kills_fields (l : list PtyInstance) st :
  let st' := fold_left (fun s i => kill (terminalId i) s) l st in
  ptyInstances st' = ptyInstances st /\ terminalCounter st' = terminalCounter st /\
  windowAlive st' = windowAlive st /\ home st' = home st /\
  sent st' = sent st /\ killed st' = killed st ++ map terminalId l.
Proof.
  revert st. induction l as [|i l IH]; intros st; simpl.
  - by rewrite app_nil_r.
  - destruct (IH (kill (terminalId i) st)) as (-> & -> & -> & -> & -> & ->).
    simpl. by rewrite <- app_assoc.
Qed.

Lemma destroyAll_eq st :
  destroyAll st =
    (inr tt,
     {| ptyInstances := []; terminalCounter := terminalCounter st;
        windowAlive := windowAlive st; home := home st;
        killed := killed st ++ getTerminalIds st; sent := sent st |}).
Proof.
  unfold destroyAll, bind, gets, modify, with_instances; simpl.
  destruct (kills_fields (ptyInstances st) st) as (_ & -> & -> & -> & -> & ->).
  done.
Qed.

Lemma handle_counter spawns msg st :
  (terminalCounter st <= terminalCounter (handle spawns msg st).2)%nat.
Proof.
  destruct msg as [data|tid|tid data|tid c r]; simpl.
  - pose proof (createTerminal_counter spawns (createArgs data).1
                  (createArgs data).2 st) as H.
    destruct (createTerminal spawns _ _ st) as [[e|t] st']; simpl in *; done.
  - by rewrite destroyTerminal_counter.
  - by rewrite writeToTerminal_counter.
  - by rewrite resizeTerminal_counter.
Qed.

Lemma onExit_counter tid c st : terminalCounter (onExit tid c st) = terminalCounter st.
Proof. unfold onExit, send. simpl. by destruct (windowAlive st). Qed.

Lemma serve_counter r st : (terminalCounter st <= terminalCounter (serve r st))%nat.
Proof.
  destruct r as [spawns msg|tid c|]; cbn [serve].
  - apply handle_counter.
  - by rewrite onExit_counter.
  - by rewrite destroyAll_eq.
Qed.

Lemma serveAll_counter rs st :
  (terminalCounter st <= terminalCounter (serveAll rs st))%nat.
Proof.
  revert st. induction rs as [|r rs IH]; intros st; simpl; [done|].
  etrans; [apply serve_counter | apply IH].
Qed.

Lemma serveAll_app rs rs' st :
  serveAll (rs ++ rs') st = serveAll rs' (serveAll rs st).
Proof. unfold serveAll. by rewrite foldl_app. Qed.

(** X1.  The registry never issues an identifier twice.  If [createTerminal]
    returned [tid1] and, after any sequence of later requests (messages of
    the renderer, process exits, the window closing), returns [tid2], then
    [tid1] and [tid2] differ: the counter only grows, also through failed
    spawns and [destroyAll]. *)
Theorem X1_registry_never_reissues_an_id sp1 wd1 p1 sp2 wd2 p2 rs st tid1 st1 tid2 st2 :
  createTerminal sp1 wd1 p1 st = (inr tid1, st1) ->
  createTerminal sp2 wd2 p2 (serveAll rs st1) = (inr tid2, st2) ->
  tid1 <> tid2.
Proof.
  intros H1 H2.
  apply createTerminal_returns in H1 as [-> Hc1].
  apply createTerminal_returns in H2 as [-> _].
  intros E. apply termId_inj in E.
  pose proof (serveAll_counter rs st1). lia.
Qed.

Lemma X1_registry_never_reissues_an_id_witness :
  "term-1" <> "term-2".
Proof.
  apply (X1_registry_never_reissues_an_id true None None true None None
           [FromRenderer true (IPC.TERMINAL_DESTROY "term-1")]
           (initial (Some "/home/user"))
           "term-1"
           (createTerminal true None None (initial (Some "/home/user"))).2
           "term-2"
           (createTerminal true None None
              (serveAll [FromRenderer true (IPC.TERMINAL_DESTROY "term-1")]
                 (createTerminal true None None (initial (Some "/home/user"))).2)).2);
    vm_compute; reflexivity.
Defined.

Lemma home_serve r st : home (serve r st) = home st.
Proof.
  destruct r as [spawns msg|tid c|]; cbn [serve].
  - destruct msg as [data|tid|tid data|tid c r]; simpl.
    + destruct (createTerminal_cases spawns (createArgs data).1 (createArgs data).2 st)
        as [[E _]|[(_ & _ & E)|(_ & _ & E)]]; by rewrite E.
    + unfold destroyTerminal, bind, gets, modify, ret; simpl.
      by destruct (JsMap.get _ _ _).
    + unfold writeToTerminal, bind, gets, modify, ret; simpl.
      by destruct (JsMap.get _ _ _).
    + unfold resizeTerminal, bind, gets, modify, ret; simpl.
      by destruct (JsMap.get _ _ _).
  - unfold onExit, send. simpl. by destruct (windowAlive st).
  - by rewrite destroyAll_eq.
Qed.

Lemma home_serveAll rs st : home (serveAll rs st) = home st.
Proof.
  revert st. induction rs as [|r rs IH]; intros st; simpl; [done|].
  by rewrite IH, home_serve.
Qed.

Lemma issuedOnce_fresh st :
  issuedOnce st ->
  JsMap.get terminalId (Spec.termId (S (terminalCounter st))) (ptyInstances st) = None.
Proof.
  intros [_ Hi]. apply get_None. intros Hin.
  rewrite Forall_forall in Hi. destruct (Hi _ Hin) as (n & E & Hn).
  apply termId_inj in E. lia.
Qed.

Lemma issuedOnce_weaken l c c' :
  (c <= c')%nat ->
  Forall (fun k => exists n, k = Spec.termId n /\ (1 <= n <= c)%nat) l ->
  Forall (fun k => exists n, k = Spec.termId n /\ (1 <= n <= c')%nat) l.
Proof.
  intros Hc H. eapply Forall_impl; [exact H|].
  intros k (n & -> & Hn). exists n. split; [done|lia].
Qed.

Lemma issuedOnce_delete tid st :
  issuedOnce st ->
  issuedOnce (with_instances (JsMap.delete terminalId tid (ptyInstances st)) st).
Proof.
  intros [Hn Hi]. unfold issuedOnce, getTerminalIds in *. simpl.
  rewrite keys_delete. split.
  - by apply NoDup_filter.
  - rewrite Forall_forall in Hi |- *. intros k Hk.
    apply list_elem_of_filter in Hk as [_ Hk]. by apply Hi.
Qed.

Lemma issuedOnce_send m st : issuedOnce st -> issuedOnce (send m st).
Proof. unfold send. by destruct (windowAlive st). Qed.

Lemma issuedOnce_create spawns wd p st :
  issuedOnce st -> issuedOnce (createTerminal spawns wd p st).2.
Proof.
  intros H. pose proof (issuedOnce_fresh st H) as Hf. destruct H as [Hn Hi].
  destruct (createTerminal_cases spawns wd p st)
    as [[E _]|[(_ & _ & E)|(_ & _ & E)]]; rewrite E; simpl.
  - done.
  - split; [done|]. unfold getTerminalIds in *. simpl.
    eapply issuedOnce_weaken; [|exact Hi]. lia.
  - unfold issuedOnce, getTerminalIds in *. simpl.
    rewrite set_absent by exact Hf.
    unfold JsMap.keys in *. rewrite map_app. simpl. split.
    + apply NoDup_app. split; [done|]. split; [|apply NoDup_singleton].
      intros k Hk Hk'. apply list_elem_of_singleton in Hk'. subst k.
      by apply (get_None terminalId) in Hf.
    + apply Forall_app. split.
      * eapply issuedOnce_weaken; [|exact Hi]. lia.
      * apply Forall_singleton. eexists. split; [done|]. lia.
Qed.

Lemma issuedOnce_update tid f st :
  (forall i, terminalId (f i) = terminalId i) ->
  issuedOnce st ->
  issuedOnce (with_instances (JsMap.update terminalId tid f (ptyInstances st)) st).
Proof.
  intros Hf H. unfold issuedOnce, getTerminalIds in *. simpl.
  by rewrite keys_update.
Qed.

Lemma issuedOnce_serve r st : issuedOnce st -> issuedOnce (serve r st).
Proof.
  intros H. destruct r as [spawns msg|tid c|]; cbn [serve].
  - destruct msg as [data|tid|tid data|tid c r]; simpl.
    + pose proof (issuedOnce_create spawns (createArgs data).1 (createArgs data).2
                    st H) as Hc.
      destruct (createTerminal spawns _ _ st) as [[e|t] st']; simpl in *; done.
    + unfold destroyTerminal, bind, gets, modify, ret; simpl.
      destruct (JsMap.get _ _ _); simpl; [|done].
      by apply (issuedOnce_delete tid (kill tid st)).
    + unfold writeToTerminal, bind, gets, modify, ret; simpl.
      destruct (JsMap.get _ _ _); simpl; [|done].
      by apply issuedOnce_update.
    + unfold resizeTerminal, bind, gets, modify, ret; simpl.
      destruct (JsMap.get _ _ _); simpl; [|done].
      by apply issuedOnce_update.
  - unfold onExit. apply issuedOnce_send. by apply issuedOnce_delete.
  - rewrite destroyAll_eq. simpl. split; [apply NoDup_nil_2 | apply Forall_nil_2].
Qed.

Lemma issuedOnce_initial h : issuedOnce (initial h).
Proof. split; [apply NoDup_nil_2 | apply Forall_nil_2]. Qed.

Lemma issuedOnce_serveAll rs st : issuedOnce st -> issuedOnce (serveAll rs st).
Proof.
  revert st. induction rs as [|r rs IH]; intros st H; simpl; [done|].
  apply IH. by apply issuedOnce_serve.
Qed.

Lemma serve_size r st :
  (size st <= MAX_TERMINALS)%nat -> (size (serve r st) <= MAX_TERMINALS)%nat.
Proof.
  intros H. destruct r as [spawns msg|tid c|]; cbn [serve].
  - by apply handle_size.
  - pose proof (onExit_size tid c st). lia.
  - rewrite destroyAll_eq. unfold size, JsMap.size. simpl. lia.
Qed.

(** X2.  Whatever requests the main process serves from start-up, in any
    order, the registry holds at most nine processes, holds each identifier
    once, holds only identifiers [term-n] with [n] between 1 and the
    counter, and keeps its home directory. *)
Theorem X2_registry_holds_issued_ids_at_most_nine rs h :
  let st := serveAll rs (initial h) in
  (getTerminalCount st <= 9)%nat /\
  NoDup (getTerminalIds st) /\
  (forall tid, hasTerminal tid st = true ->
     exists n, tid = Spec.termId n /\ (1 <= n <= terminalCounter st)%nat) /\
  home st = h.
Proof.
  cbv zeta. split; [|split; [|split]].
  - assert (forall rs st, (size st <= MAX_TERMINALS)%nat ->
              (size (serveAll rs st) <= MAX_TERMINALS)%nat) as Hsz.
    { clear. intros rs. induction rs as [|r rs IH]; intros st H; simpl; [done|].
      apply IH. by apply serve_size. }
    apply (Hsz rs (initial h)). unfold size, JsMap.size, MAX_TERMINALS. simpl. lia.
  - apply (issuedOnce_serveAll rs (initial h) (issuedOnce_initial h)).
  - intros tid Hh. apply has_true in Hh.
    destruct (issuedOnce_serveAll rs (initial h) (issuedOnce_initial h)) as [_ Hi].
    rewrite Forall_forall in Hi. by apply Hi.
  - apply home_serveAll.
Qed.

(** X3.  The [TERMINAL_CREATE] handler answers every request with exactly
    one [TERMINAL_CREATED] and never kills a process.  A success answer
    is only given below the cap when the spawn succeeded, and then names a
    registered terminal whose working directory is the requested one or,
    when that is falsy, the home directory, and whose project is the
    requested one (for the legacy string payload: no project).  A failure
    answer means the cap was reached or the spawn failed, and the registry
    holds the same processes as before. *)
Theorem X3_create_request_is_answered_once spawns data st :
  let st' := serve (FromRenderer spawns (IPC.TERMINAL_CREATE data)) st in
  exists response,
    sent st' = sent st ++ [IPC.TERMINAL_CREATED response] /\
    killed st' = killed st /\
    match response with
    | inl tid =>
        spawns = true /\ (getTerminalCount st < 9)%nat /\
        getTerminalInfo tid st'
          = Some {| infoCwd := Js.or_else (createArgs data).1 (home st);
                    infoProjectPath := (createArgs data).2 |}
    | inr _ =>
        (spawns = false \/ (9 <= getTerminalCount st)%nat) /\
        ptyInstances st' = ptyInstances st
    end.
Proof.
  cbv zeta. cbn [serve handle].
  destruct (createTerminal_cases spawns (createArgs data).1 (createArgs data).2 st)
    as [[E Hc]|[(Hs & Hc & E)|(Hs & Hc & E)]]; rewrite E; cbn [snd].
  - eexists (inr _). simpl. split; [done|]. split; [done|]. split; [by right|done].
  - eexists (inr _). simpl. split; [done|]. split; [done|]. split; [by left|done].
  - eexists (inl _). cbn [sent reply killed with_instances with_counter].
    split; [done|]. split; [done|]. split; [done|]. split; [exact Hc|].
    unfold getTerminalInfo. cbn [ptyInstances reply with_instances].
    by rewrite (get_set_eq terminalId
      {| terminalId := Spec.termId (S (terminalCounter st));
         cwd := Js.or_else (createArgs data).1 (home st);
         projectPath := (createArgs data).2; written := []; cols := 80; rows := 24 |}).
Qed.

Lemma creation_appends st data :
  issuedOnce st -> (getTerminalCount st < 9)%nat ->
  let tid := Spec.termId (S (terminalCounter st)) in
  let st' := serve (FromRenderer true (IPC.TERMINAL_CREATE data)) st in
  hasTerminal tid st = false /\
  getTerminalIds st' = getTerminalIds st ++ [tid] /\
  inputOf tid st' = Some [] /\
  sizeOf tid st' = Some (80, 24) /\
  (forall k, k <> tid ->
     JsMap.get terminalId k (ptyInstances st')
     = JsMap.get terminalId k (ptyInstances st)).
Proof.
  intros Hi Hc. cbv zeta.
  pose proof (issuedOnce_fresh st Hi) as Hf.
  cbn [serve handle].
  destruct (createTerminal_cases true (createArgs data).1 (createArgs data).2 st)
    as [[E Hc']|[(Hs & _ & E)|(_ & _ & E)]];
    [unfold getTerminalCount, MAX_TERMINALS in *; lia | done |].
  rewrite E. cbn [snd].
  set (i := {| terminalId := Spec.termId (S (terminalCounter st));
               cwd := Js.or_else (createArgs data).1 (home st);
               projectPath := (createArgs data).2;
               written := []; cols := 80; rows := 24 |}).
  split; [|split; [|split; [|split]]].
  - unfold hasTerminal, JsMap.has. by rewrite Hf.
  - unfold getTerminalIds. cbn [ptyInstances reply with_instances].
    rewrite (set_absent terminalId i) by exact Hf.
    unfold JsMap.keys. by rewrite map_app.
  - unfold inputOf. cbn [ptyInstances reply with_instances].
    by rewrite (get_set_eq terminalId i).
  - unfold sizeOf. cbn [ptyInstances reply with_instances].
    by rewrite (get_set_eq terminalId i).
  - intros k Hk. cbn [ptyInstances reply with_instances].
    by rewrite (get_set_ne terminalId i).
Qed.

(** X4.  In a registry reached from start-up and holding fewer than nine
    processes, a creation whose spawn succeeds registers the identifier
    [term-(counter+1)], which was not registered before, after all the
    others; the new process is 80 columns by 24 rows and has received no
    input, and no other entry changes. *)
Theorem X4_creation_appends_a_fresh_terminal rs h data :
  let st := serveAll rs (initial h) in
  (getTerminalCount st < 9)%nat ->
  let tid := Spec.termId (S (terminalCounter st)) in
  let st' := serve (FromRenderer true (IPC.TERMINAL_CREATE data)) st in
  hasTerminal tid st = false /\
  getTerminalIds st' = getTerminalIds st ++ [tid] /\
  inputOf tid st' = Some [] /\
  sizeOf tid st' = Some (80, 24) /\
  (forall k, k <> tid ->
     JsMap.get terminalId k (ptyInstances st')
     = JsMap.get terminalId k (ptyInstances st)).
Proof.
  cbv zeta. intros Hc.
  apply creation_appends; [|done].
  apply issuedOnce_serveAll, issuedOnce_initial.
Qed.

Lemma X4_creation_appends_a_fresh_terminal_witness :
  getTerminalIds
    (serve (FromRenderer true (IPC.TERMINAL_CREATE (IPC.LegacyString "/work")))
       (serveAll [FromRenderer true (IPC.TERMINAL_CREATE IPC.NoData);
                  FromRenderer false (IPC.TERMINAL_CREATE IPC.NoData);
                  FromRenderer true (IPC.TERMINAL_CREATE IPC.NoData)]
          (initial (Some "/home/user"))))
  = ["term-1"; "term-3"; "term-4"].
Proof.
  assert (getTerminalCount
            (serveAll [FromRenderer true (IPC.TERMINAL_CREATE IPC.NoData);
                       FromRenderer false (IPC.TERMINAL_CREATE IPC.NoData);
                       FromRenderer true (IPC.TERMINAL_CREATE IPC.NoData)]
               (initial (Some "/home/user"))) < 9)%nat as Hc by (vm_compute; lia).
  destruct (X4_creation_appends_a_fresh_terminal
              [FromRenderer true (IPC.TERMINAL_CREATE IPC.NoData);
               FromRenderer false (IPC.TERMINAL_CREATE IPC.NoData);
               FromRenderer true (IPC.TERMINAL_CREATE IPC.NoData)]
              (Some "/home/user") (IPC.LegacyString "/work") Hc) as (_ & Hids & _).
  exact Hids.
Defined.

Lemma writes_input tid ds spawns st i :
  JsMap.get terminalId tid (ptyInstances st) = Some i ->
  let st' :=
    serveAll (map (fun d => FromRenderer spawns (IPC.TERMINAL_INPUT_ID tid d)) ds) st in
  inputOf tid st' = Some (written i ++ ds) /\
  (forall k, k <> tid ->
     JsMap.get terminalId k (ptyInstances st')
     = JsMap.get terminalId k (ptyInstances st)) /\
  getTerminalIds st' = getTerminalIds st /\
  sent st' = sent st /\ killed st' = killed st.
Proof.
  cbv zeta. revert st i. induction ds as [|d ds IH]; intros st i Hg.
  - simpl. unfold inputOf. rewrite Hg. simpl. by rewrite app_nil_r.
  - cbn [map serveAll foldl]. cbn [serve handle].
    set (f := fun j : PtyInstance =>
                {| terminalId := terminalId j; cwd := cwd j;
                   projectPath := projectPath j;
                   written := written j ++ [d];
                   cols := cols j; rows := rows j |}).
    assert ((writeToTerminal tid d st).2
            = with_instances (JsMap.update terminalId tid f (ptyInstances st)) st)
      as E.
    { unfold writeToTerminal, bind, gets, modify. simpl. by rewrite Hg. }
    rewrite E.
    assert (JsMap.get terminalId tid
              (ptyInstances (with_instances
                 (JsMap.update terminalId tid f (ptyInstances st)) st))
            = Some (f i)) as Hg'.
    { simpl. rewrite get_update_eq by done. by rewrite Hg. }
    destruct (IH _ _ Hg') as (Hin & Hothers & Hids & Hsent & Hkilled).
    fold (serveAll (map (fun d => FromRenderer spawns (IPC.TERMINAL_INPUT_ID tid d)) ds)
            (with_instances (JsMap.update terminalId tid f (ptyInstances st)) st)).
    split; [|split; [|split; [|split]]].
    + rewrite Hin. simpl. by rewrite <- app_assoc.
    + intros k Hk. rewrite Hothers by done. simpl.
      by rewrite get_update_ne.
    + rewrite Hids. unfold getTerminalIds. simpl. by rewrite keys_update.
    + by rewrite Hsent.
    + by rewrite Hkilled.
Qed.

(** X5.  Input messages for a registered terminal are written to its
    process in the order they arrive, after what it had received before.
    They change neither the input nor the size of any other process, nor
    the size of the target, nor the set of identifiers, and nothing is
    sent or killed. *)
Theorem X5_input_reaches_its_process_in_order tid ds spawns st :
  hasTerminal tid st = true ->
  let st' :=
    serveAll (map (fun d => FromRenderer spawns (IPC.TERMINAL_INPUT_ID tid d)) ds) st in
  (exists before, inputOf tid st = Some before /\
                  inputOf tid st' = Some (before ++ ds)) /\
  (forall k, k <> tid -> inputOf k st' = inputOf k st /\ sizeOf k st' = sizeOf k st) /\
  sizeOf tid st' = sizeOf tid st /\
  getTerminalIds st' = getTerminalIds st /\
  sent st' = sent st /\ killed st' = killed st.
Proof.
  intros Hh. cbv zeta. unfold hasTerminal, JsMap.has in Hh.
  destruct (JsMap.get terminalId tid (ptyInstances st)) as [i|] eqn:Hg; [|done].
  destruct (writes_input tid ds spawns st i Hg) as (Hin & Ho & Hids & Hs & Hk).
  split; [|split; [|split; [|split; [|split]]]]; [| |  |done..].
  - exists (written i). split; [|done]. unfold inputOf. by rewrite Hg.
  - intros k Hne. unfold inputOf, sizeOf. by rewrite Ho.
  - clear Hin Ho Hids Hs Hk. unfold sizeOf. revert st i Hg.
    induction ds as [|d ds IH]; intros st i Hg; [done|].
    cbn [map serveAll foldl]. cbn [serve handle].
    set (f := fun j : PtyInstance =>
                {| terminalId := terminalId j; cwd := cwd j;
                   projectPath := projectPath j;
                   written := written j ++ [d];
                   cols := cols j; rows := rows j |}).
    assert ((writeToTerminal tid d st).2
            = with_instances (JsMap.update terminalId tid f (ptyInstances st)) st)
      as E.
    { unfold writeToTerminal, bind, gets, modify. simpl. by rewrite Hg. }
    rewrite E.
    assert (JsMap.get terminalId tid
              (ptyInstances (with_instances
                 (JsMap.update terminalId tid f (ptyInstances st)) st))
            = Some (f i)) as Hg'.
    { simpl. rewrite get_update_eq by done. by rewrite Hg. }
    fold (serveAll (map (fun d => FromRenderer spawns (IPC.TERMINAL_INPUT_ID tid d)) ds)
            (with_instances (JsMap.update terminalId tid f (ptyInstances st)) st)).
    rewrite (IH _ _ Hg'). by rewrite Hg', Hg.
Qed.

Lemma X5_input_reaches_its_process_in_order_witness :
  inputOf "term-2"
    (serveAll (map (fun d => FromRenderer true (IPC.TERMINAL_INPUT_ID "term-2" d))
                 ["ls"; "pwd"]) Sample.twoPtys)
  = Some ["ls"; "pwd"].
Proof.
  assert (hasTerminal "term-2" Sample.twoPtys = true) as Hh by (vm_compute; reflexivity).
  destruct (X5_input_reaches_its_process_in_order "term-2" ["ls"; "pwd"] true
              Sample.twoPtys Hh) as ((before & Hb & Ha) & _).
  assert (inputOf "term-2" Sample.twoPtys = Some []) as Hb'
    by (vm_compute; reflexivity).
  rewrite Hb' in Hb. injection Hb as <-. exact Ha.
Defined.



(** X7.  In a registry reached from start-up, destroying a registered
    terminal removes that entry and no other: the count drops by one, the
    other entries are unchanged, the process is killed once, nothing is
    sent (the renderer hears of it only through the exit event), and a
    second [TERMINAL_DESTROY] for the same identifier changes nothing. *)
Theorem X7_destroy_removes_exactly_one_terminal rs h spawns tid :
  let st := serveAll rs (initial h) in
  hasTerminal tid st = true ->
  let st' := serve (FromRenderer spawns (IPC.TERMINAL_DESTROY tid)) st in
  hasTerminal tid st' = false /\
  S (getTerminalCount st') = getTerminalCount st /\
  (forall k, k <> tid ->
     JsMap.get terminalId k (ptyInstances st')
     = JsMap.get terminalId k (ptyInstances st)) /\
  killed st' = killed st ++ [tid] /\
  sent st' = sent st /\
  serve (FromRenderer spawns (IPC.TERMINAL_DESTROY tid)) st' = st'.
Proof.
  cbv zeta. intros Hh.
  destruct (issuedOnce_serveAll rs (initial h) (issuedOnce_initial h)) as [Hn _].
  revert Hn Hh. generalize (serveAll rs (initial h)). intros st Hn Hh.
  cbn [serve handle].
  unfold hasTerminal, JsMap.has in Hh.
  destruct (JsMap.get terminalId tid (ptyInstances st)) as [i|] eqn:Hg; [|done].
  rewrite (destroyTerminal_known _ _ _ Hg). cbn [snd].
  assert (JsMap.get terminalId tid
            (ptyInstances (with_instances
               (JsMap.delete terminalId tid (ptyInstances st)) (kill tid st)))
          = None) as Hgone by (simpl; apply get_delete_eq).
  split; [|split; [|split; [|split; [|split]]]].
  - unfold hasTerminal, JsMap.has. by rewrite Hgone.
  - unfold getTerminalCount, size, JsMap.size. simpl.
    by apply (length_delete_known terminalId tid _ i).
  - intros k Hk. simpl. by apply get_delete_ne.
  - done.
  - done.
  - by rewrite destroyTerminal_unknown.
Qed.

Lemma X7_destroy_removes_exactly_one_terminal_witness :
  getTerminalIds
    (serve (FromRenderer true (IPC.TERMINAL_DESTROY "term-1"))
       (serveAll [FromRenderer true (IPC.TERMINAL_CREATE IPC.NoData);
                  FromRenderer true (IPC.TERMINAL_CREATE IPC.NoData)]
          (initial (Some "/home/user"))))
  = ["term-2"] /\
  killed
    (serve (FromRenderer true (IPC.TERMINAL_DESTROY "term-1"))
       (serveAll [FromRenderer true (IPC.TERMINAL_CREATE IPC.NoData);
                  FromRenderer true (IPC.TERMINAL_CREATE IPC.NoData)]
          (initial (Some "/home/user"))))
  = ["term-1"].
Proof.
  assert (hasTerminal "term-1"
            (serveAll [FromRenderer true (IPC.TERMINAL_CREATE IPC.NoData);
                       FromRenderer true (IPC.TERMINAL_CREATE IPC.NoData)]
               (initial (Some "/home/user"))) = true) as Hh
    by (vm_compute; reflexivity).
  destruct (X7_destroy_removes_exactly_one_terminal
              [FromRenderer true (IPC.TERMINAL_CREATE IPC.NoData);
               FromRenderer true (IPC.TERMINAL_CREATE IPC.NoData)]
              (Some "/home/user") true "term-1" Hh) as (_ & _ & _ & Hk & _).
  split; [vm_compute; reflexivity | exact Hk].
Defined.

Lemma exits_after_close ks c st :
  windowAlive st = false -> ptyInstances st = [] ->
  sent (serveAll (exits ks c) st) = sent st /\
  ptyInstances (serveAll (exits ks c) st) = [] /\
  killed (serveAll (exits ks c) st) = killed st.
Proof.
  revert st. induction ks as [|k ks IH]; intros st Hw He; [done|].
  cbn [exits map serveAll foldl serve].
  assert (onExit k c st = st) as ->.
  { unfold onExit, send. cbn [windowAlive with_instances]. rewrite Hw.
    rewrite delete_absent by (by rewrite He). apply with_instances_id. }
  by apply IH.
Qed.

(** X8.  When the window closes, [destroyAll] kills every registered
    process in map order and empties the registry, keeping the counter.
    The exit events that follow find a destroyed window: nothing is sent
    and the registry stays empty. *)
Theorem X8_closing_the_window_kills_every_process st :
  let st' := serve WindowClosed st in
  getTerminalCount st' = 0%nat /\
  killed st' = killed st ++ getTerminalIds st /\
  terminalCounter st' = terminalCounter st /\
  forall ks c,
    sent (serveAll (exits ks c) st') = sent st /\
    getTerminalCount (serveAll (exits ks c) st') = 0%nat.
Proof.
  cbv zeta. cbn [serve]. rewrite destroyAll_eq. cbn [snd].
  split; [done|]. split; [done|]. split; [done|].
  intros ks c.
  destruct (exits_after_close ks c
    (with_window false
       {| ptyInstances := []; terminalCounter := terminalCounter st;
          windowAlive := windowAlive st; home := home st;
          killed := killed st ++ getTerminalIds st; sent := sent st |}))
    as (Hs & Hp & _); [done..|].
  split; [exact Hs|]. unfold getTerminalCount, size, JsMap.size. by rewrite Hp.
Qed.

(** X9.  When a process exits, its entry is dropped and
    [TERMINAL_DESTROYED] is sent exactly when the window given to [init] is
    alive; this also happens for a terminal the registry no longer holds
    (it was destroyed first), in which case the registry is unchanged.  No
    other entry changes and nothing is killed. *)
Theorem X9_exit_is_reported_to_a_live_window_only alive tid exitCode st :
  let st' := serve (ProcessExited tid exitCode) (init alive st) in
  sent st'
  = sent st ++ (if alive then [IPC.TERMINAL_DESTROYED tid exitCode] else []) /\
  hasTerminal tid st' = false /\
  (forall k, k <> tid ->
     JsMap.get terminalId k (ptyInstances st')
     = JsMap.get terminalId k (ptyInstances st)) /\
  killed st' = killed st /\
  (hasTerminal tid st = false -> ptyInstances st' = ptyInstances st).
Proof.
  cbv zeta. cbn [serve]. unfold onExit, send, init.
  cbn [windowAlive with_window with_instances ptyInstances].
  set (st1 := with_instances
                (JsMap.delete terminalId tid (ptyInstances st))
                (with_window alive st)).
  assert (ptyInstances st1 = JsMap.delete terminalId tid (ptyInstances st)) as Hp
    by done.
  assert (sent st1 = sent st /\ killed st1 = killed st) as [Hs Hk] by done.
  assert (forall x, ptyInstances x = ptyInstances st1 ->
            hasTerminal tid x = false /\
            (forall k, k <> tid ->
               JsMap.get terminalId k (ptyInstances x)
               = JsMap.get terminalId k (ptyInstances st)) /\
            (hasTerminal tid st = false -> ptyInstances x = ptyInstances st)) as Hrest.
  { intros x Hx. unfold hasTerminal at 1. unfold JsMap.has. rewrite Hx, Hp.
    split; [|split].
    - by rewrite get_delete_eq.
    - intros k Hk'. by apply get_delete_ne.
    - intros Hh. apply delete_absent. unfold hasTerminal, JsMap.has in Hh.
      by destruct (JsMap.get terminalId tid (ptyInstances st)). }
  destruct alive.
  - destruct (Hrest (reply (IPC.TERMINAL_DESTROYED tid exitCode) st1) eq_refl)
      as (H1 & H2 & H3).
    split; [by cbn [sent reply]; rewrite Hs|]. done.
  - destruct (Hrest st1 eq_refl) as (H1 & H2 & H3).
    split; [by rewrite app_nil_r|]. done.
Qed.

(** X10.  In a registry reached from start-up, [getTerminalsByProject]
    returns exactly the identifiers whose [getTerminalInfo] names that
    project, in the order of [getTerminalIds]; and [getTerminalInfo] is
    [null] exactly for the identifiers [hasTerminal] rejects. *)
Theorem X10_registry_lists_terminals_by_project rs h p :
  let st := serveAll rs (initial h) in
  (forall tid,
     tid ∈ getTerminalsByProject p st <->
     exists info, getTerminalInfo tid st = Some info /\ infoProjectPath info = p) /\
  sublist (getTerminalsByProject p st) (getTerminalIds st) /\
  (forall tid, hasTerminal tid st = false <-> getTerminalInfo tid st = None).
Proof.
  cbv zeta.
  destruct (issuedOnce_serveAll rs (initial h) (issuedOnce_initial h)) as [Hn _].
  revert Hn. generalize (serveAll rs (initial h)). intros st Hn.
  split; [|split].
  - intros tid. unfold getTerminalsByProject, getTerminalInfo. split.
    + intros Hin. apply list_elem_of_fmap in Hin as (i & -> & Hi).
      apply list_elem_of_filter in Hi as [Hp Hi].
      rewrite (get_elem terminalId _ i Hn Hi). eexists. split; [done|]. exact Hp.
    + intros (info & Hg & Hp).
      destruct (JsMap.get terminalId tid (ptyInstances st)) as [i|] eqn:E; [|done].
      injection Hg as <-. simpl in Hp.
      apply get_Some in E as [<- Hi].
      apply (list_elem_of_fmap_2 terminalId). by apply list_elem_of_filter.
  - unfold getTerminalsByProject, getTerminalIds, JsMap.keys.
    apply (fmap_sublist terminalId). apply sublist_filter.
  - intros tid. unfold hasTerminal, JsMap.has, getTerminalInfo.
    by destruct (JsMap.get terminalId tid (ptyInstances st)).
Qed.

(** X11.  [getShell] never returns the empty string: on Windows it is one
    of the two PowerShell programs, elsewhere the [SHELL] variable when it
    is set and not empty, and [/bin/zsh] otherwise.  On Windows the shell
    gets no arguments. *)
Theorem X11_getShell_names_a_program p :
  getShell p <> EmptyString /\
  (win32 p = false -> Js.truthy (SHELL p) = true -> Some (getShell p) = SHELL p) /\
  (win32 p = true -> shellArgs p = []).
Proof.
  unfold getShell, shellArgs. destruct p as [w f s]; simpl.
  split; [|split].
  - destruct w; [by destruct f|]. destruct s as [[|a s]|]; done.
  - intros -> H. destruct s as [[|a s]|]; done.
  - by intros ->.
Qed.

End RegistryFacts.

(** ** The order of the visible sessions *)

Section OrderFacts.
Import TerminalManager Spec Laws.
Implicit Types (t u : TerminalState) (l : list TerminalState) (tm : T).

Lemma insert_by_createdAt_perm t l : insert_by_createdAt t l ≡ₚ t :: l.
Proof.
  induction l as [|u l IH]; simpl; [done|].
  destruct (createdAt t <=? createdAt u); [done|].
  rewrite IH. apply Permutation_swap.
Qed.

Lemma sort_by_createdAt_perm l : sort_by_createdAt l ≡ₚ l.
Proof.
  induction l as [|t l IH]; simpl; [done|].
  rewrite insert_by_createdAt_perm. by rewrite IH.
Qed.

Lemma insert_by_createdAt_sorted t l :
  StronglySorted (fun a b => createdAt a <= createdAt b) l ->
  StronglySorted (fun a b => createdAt a <= createdAt b) (insert_by_createdAt t l).
Proof.
  induction l as [|u l IH]; simpl; intros Hs.
  - apply SSorted_cons; [apply SSorted_nil | apply Forall_nil_2].
  - apply StronglySorted_inv in Hs as [Hl Hu].
    destruct (createdAt t <=? createdAt u) eqn:E.
    + apply Z.leb_le in E. apply SSorted_cons.
      * by apply SSorted_cons.
      * apply Forall_cons. split; [done|].
        eapply Forall_impl; [exact Hu|]. intros x Hx. simpl in *. lia.
    + apply Z.leb_gt in E. apply SSorted_cons; [by apply IH|].
      rewrite Forall_forall. intros x Hx.
      apply elem_of_insert_by_createdAt in Hx as [->|Hx]; [lia|].
      rewrite Forall_forall in Hu. by apply Hu.
Qed.

Lemma sort_by_createdAt_sorted l :
  StronglySorted (fun a b => createdAt a <= createdAt b) (sort_by_createdAt l).
Proof.
  induction l as [|t l IH]; simpl; [apply SSorted_nil|].
  by apply insert_by_createdAt_sorted.
Qed.

Lemma insert_by_createdAt_same_age c t l :
  filter (fun u => createdAt u = c) (insert_by_createdAt t l)
  = filter (fun u => createdAt u = c) (t :: l).
Proof.
  induction l as [|u l IH]; simpl; [done|].
  destruct (createdAt t <=? createdAt u) eqn:E; [done|].
  apply Z.leb_gt in E.
  rewrite (filter_cons _ u (insert_by_createdAt t l)), IH.
  rewrite !(filter_cons _ t), !(filter_cons _ u).
  destruct (decide (createdAt u = c)), (decide (createdAt t = c)); try done.
  lia.
Qed.

Lemma sort_by_createdAt_stable c l :
  filter (fun u => createdAt u = c) (sort_by_createdAt l)
  = filter (fun u => createdAt u = c) l.
Proof.
  induction l as [|t l IH]; simpl; [done|].
  rewrite insert_by_createdAt_same_age, !(filter_cons _ t), IH. done.
Qed.

(** X12.  [getTerminalStates] returns the sessions of the current project
    (or all of them) ordered by [createdAt], oldest first: the result is
    sorted, is a permutation of the sessions it selects, and sessions
    created at the same instant keep their map order. *)
Theorem X12_visible_sessions_are_ordered_by_age allProjects tm :
  let shown := getTerminalStates allProjects tm in
  StronglySorted (fun a b => createdAt a <= createdAt b) shown /\
  shown ≡ₚ (if allProjects then terminals tm
            else inScope (currentProjectPath tm) tm) /\
  (forall c,
     filter (fun u => createdAt u = c) shown
     = filter (fun u => createdAt u = c)
         (if allProjects then terminals tm
          else inScope (currentProjectPath tm) tm)).
Proof.
  cbv zeta. unfold getTerminalStates, inScope. split; [|split].
  - apply sort_by_createdAt_sorted.
  - apply sort_by_createdAt_perm.
  - intros c. apply sort_by_createdAt_stable.
Qed.

End OrderFacts.

(** ** Sessions along a run of the two processes *)

Section RunFacts.
Import TerminalManager Spec Laws.
Implicit Types (t u : TerminalState) (l : list TerminalState) (tm : T)
  (s : Frame.State).

Lemma storeView_shape l l' :
  map shape l = map shape l' ->
  map (fun t => (id t, projectPath t)) l = map (fun t => (id t, projectPath t)) l'.
Proof.
  revert l'. induction l as [|t l IH]; intros [|t' l'] H; simpl in *; try done.
  injection H as Hi Hp Hc Hl. rewrite Hi, Hp. f_equal. by apply IH.
Qed.

Lemma shape_closeTerminal k tm :
  map shape (terminals (closeTerminal k tm))
  = map shape (JsMap.delete id k (terminals tm)).
Proof.
  unfold closeTerminal. destruct (JsMap.get id k (terminals tm)) eqn:E.
  - rewrite notify_terminals. destruct (decide _); [|done].
    cbn [activeTerminalId with_activeTerminalId].
    destruct (last _) as [a|]; [|done]. destruct (Js.truthy_string a); [|done].
    by rewrite shape_setActiveTerminal.
  - by rewrite delete_absent.
Qed.

Lemma storeView_delete k l :
  map (fun t => (id t, projectPath t)) (JsMap.delete id k l)
  = filter (fun x => x.1 <> k) (map (fun t => (id t, projectPath t)) l).
Proof.
  unfold JsMap.delete. induction l as [|t l IH]; simpl; [done|].
  rewrite (filter_cons _ t), (filter_cons _ (id t, projectPath t)). simpl.
  destruct (decide (id t <> k)); simpl; by rewrite IH.
Qed.

Lemma registryView_delete k (l : list PtyManager.PtyInstance) :
  map (fun i => (PtyManager.terminalId i, PtyManager.projectPath i))
    (JsMap.delete PtyManager.terminalId k l)
  = filter (fun x => x.1 <> k)
      (map (fun i => (PtyManager.terminalId i, PtyManager.projectPath i)) l).
Proof.
  unfold JsMap.delete. induction l as [|t l IH]; simpl; [done|].
  rewrite (filter_cons _ t),
    (filter_cons _ (PtyManager.terminalId t, PtyManager.projectPath t)). simpl.
  destruct (decide (PtyManager.terminalId t <> k)); simpl; by rewrite IH.
Qed.

Lemma sameProjects_on_renderer s f :
  map shape (terminals (f (Frame.renderer s))) = map shape (terminals (Frame.renderer s)) ->
  storeView (Frame.renderer s) = registryView (Frame.main s) ->
  storeView (Frame.renderer (Frame.on_renderer f s))
  = registryView (Frame.main (Frame.on_renderer f s)).
Proof.
  intros Hs H. cbn [Frame.on_renderer Frame.main Frame.renderer].
  rewrite <- H. unfold storeView. by apply storeView_shape.
Qed.

Lemma sameProjects_closed s k :
  storeView (Frame.renderer s) = registryView (Frame.main s) ->
  storeView (with_outbox [] (closeTerminal k (Frame.renderer s)))
  = registryView (without k (Frame.main s)).
Proof.
  intros H. unfold storeView, registryView, without in *.
  cbn [terminals with_outbox PtyManager.ptyInstances PtyManager.with_instances].
  rewrite (storeView_shape _ _ (shape_closeTerminal k (Frame.renderer s))).
  by rewrite storeView_delete, registryView_delete, H.
Qed.

Lemma sameProjects_step spawns now o s :
  consistent s ->
  storeView (Frame.renderer s) = registryView (Frame.main s) ->
  storeView (Frame.renderer (Frame.step spawns now o s).1)
  = registryView (Frame.main (Frame.step spawns now o s).1).
Proof.
  intros Hc H. destruct o as [options|p|t|t nm|t|mode|layout|t c].
  - rewrite step_createSession by done.
    destruct (9 <=? _)%nat; [done|].
    destruct spawns; cbn [fst Frame.main Frame.renderer]; [|done].
    pose proof (consistent_next_fresh s Hc) as Hfresh.
    assert (JsMap.get PtyManager.terminalId
              (termId (S (PtyManager.terminalCounter (Frame.main s))))
              (PtyManager.ptyInstances (Frame.main s)) = None) as Hfresh'.
    { apply get_None. rewrite (same_ids s Hc) in Hfresh. exact Hfresh. }
    apply get_None in Hfresh.
    destruct (_initializeTerminal_fresh _ (passedOptions options (Frame.renderer s))
                now _ Hfresh) as (Hts & _).
    unfold storeView, registryView, spawned in *. rewrite Hts.
    cbn [PtyManager.ptyInstances PtyManager.with_instances PtyManager.with_counter].
    rewrite set_absent by exact Hfresh'.
    rewrite !map_app, H. done.
  - cbn [Frame.step].
    rewrite step_on_renderer by (done || apply sameWiring_setCurrentProject).
    apply sameProjects_on_renderer; [apply shape_setCurrentProject | done].
  - cbn [Frame.step].
    rewrite step_on_renderer by (done || apply sameWiring_setActiveTerminal).
    apply sameProjects_on_renderer; [apply shape_setActiveTerminal | done].
  - cbn [Frame.step].
    rewrite step_on_renderer by (done || apply sameWiring_renameTerminal).
    apply sameProjects_on_renderer; [apply shape_renameTerminal | done].
  - rewrite step_closeSession by done.
    destruct (JsMap.has _ _ _); [|done]. by apply sameProjects_closed.
  - cbn [Frame.step].
    rewrite step_on_renderer by (done || apply sameWiring_setViewMode).
    apply sameProjects_on_renderer; [|done].
    unfold TerminalManager.setViewMode. by rewrite notify_terminals.
  - cbn [Frame.step].
    rewrite step_on_renderer by (done || apply sameWiring_setGridLayout).
    apply sameProjects_on_renderer; [|done].
    unfold TerminalManager.setGridLayout. by rewrite notify_terminals.
  - rewrite step_processExit by done.
    destruct (JsMap.has _ _ _); [|done]. by apply sameProjects_closed.
Qed.

Lemma sameProjects_run es s :
  consistent s ->
  storeView (Frame.renderer s) = registryView (Frame.main s) ->
  storeView (Frame.renderer (Frame.run es s))
  = registryView (Frame.main (Frame.run es s)).
Proof.
  revert s. induction es as [|e es IH]; intros s Hc H; [done|].
  cbn. apply IH; [by apply consistent_step | by apply sameProjects_step].
Qed.

Lemma byProject_of_views p (l : list TerminalState)
    (l' : list PtyManager.PtyInstance) :
  map (fun t => (id t, projectPath t)) l
  = map (fun i => (PtyManager.terminalId i, PtyManager.projectPath i)) l' ->
  map PtyManager.terminalId (filter (fun i => PtyManager.projectPath i = p) l')
  = map id (filter (fun t => projectPath t = p) l).
Proof.
  revert l'. induction l as [|t l IH]; intros [|i l'] H; simpl in *; try done.
  injection H as Hi Hp Hl.
  rewrite (filter_cons _ t), (filter_cons _ i).
  rewrite <- Hp.
  destruct (decide (projectPath t = p)); simpl; rewrite (IH _ Hl); congruence.
Qed.

(** Two creations issued back to back at start-up: the first reply runs
    both listeners. *)
Lemma two_creations_at_once now first second h store :
  let r := twoCreationsAtOnce true now first second (Frame.initial h store) in
  r.2 = [Resolved "term-1"; Resolved "term-1"] /\
  ids (Frame.renderer r.1) = ["term-1"] /\
  PtyManager.getTerminalIds (Frame.main r.1) = ["term-1"; "term-2"] /\
  outbox (Frame.renderer r.1) = [] /\ listeners (Frame.renderer r.1) = [] /\
  PtyManager.killed (Frame.main r.1) = [] /\
  PtyManager.sent (Frame.main r.1) = [].
Proof.
  cbv zeta.
  destruct first as [cwd1 pp1 [[|a1 n1]|]], second as [cwd2 pp2 [[|a2 n2]|]];
    (do 6 (split; [vm_compute; reflexivity|]); vm_compute; reflexivity).
Qed.

(** X13.  The runs are those of [Frame.run]: every operation is issued
    once the messages of the one before have been delivered and answered,
    so no [createTerminal] call is pending when another operation starts.
    After every such run from start-up, the store and the registry hold the
    same sessions with the same projects in the same order, each once, so
    that the registry's [getTerminalsByProject] lists the identifiers of the
    store's sessions of that project; nothing is left in flight on either
    side.  The condition is needed: when two creations are issued back to
    back at start-up, both resolve with [term-1], and once every message is
    delivered the store holds [term-1] alone while the registry holds
    [term-1] and [term-2]. *)
Theorem X13_store_and_registry_agree_without_overlap :
  (forall es h store,
     let s := Frame.run es (Frame.initial h store) in
     storeView (Frame.renderer s) = registryView (Frame.main s) /\
     NoDup (ids (Frame.renderer s)) /\
     (forall p,
        PtyManager.getTerminalsByProject p (Frame.main s)
        = map id (inScope p (Frame.renderer s))) /\
     outbox (Frame.renderer s) = [] /\ listeners (Frame.renderer s) = [] /\
     PtyManager.killed (Frame.main s) = [] /\ PtyManager.sent (Frame.main s) = []) /\
  (forall now first second h store,
     let r := twoCreationsAtOnce true now first second (Frame.initial h store) in
     r.2 = [Resolved "term-1"; Resolved "term-1"] /\
     ids (Frame.renderer r.1) = ["term-1"] /\
     PtyManager.getTerminalIds (Frame.main r.1) = ["term-1"; "term-2"] /\
     outbox (Frame.renderer r.1) = [] /\ listeners (Frame.renderer r.1) = [] /\
     PtyManager.killed (Frame.main r.1) = [] /\
     PtyManager.sent (Frame.main r.1) = []).
Proof.
  split.
  - intros es h store. cbv zeta.
    pose proof (consistent_run es _ (consistent_initial h store)) as Hc.
    pose proof (sameProjects_run es _ (consistent_initial h store) eq_refl) as Hv.
    split; [exact Hv|]. split; [apply (ids_once _ Hc)|].
    split; [|by destruct Hc].
    intros p. unfold PtyManager.getTerminalsByProject, inScope.
    by apply byProject_of_views.
  - intros now first second h store. cbv zeta.
    apply two_creations_at_once.
Qed.

(** X14.  A session never changes project or creation time: whatever
    operations follow, a session found under the same identifier has the
    [id], [projectPath] and [createdAt] it had. *)
Theorem X14_session_keeps_id_project_and_age h store es0 es k t0 t :
  let s := Frame.run es0 (Frame.initial h store) in
  JsMap.get id k (terminals (Frame.renderer s)) = Some t0 ->
  JsMap.get id k (terminals (Frame.renderer (Frame.run es s))) = Some t ->
  id t = id t0 /\ projectPath t = projectPath t0 /\ createdAt t = createdAt t0.
Proof.
  cbv zeta.
  pose proof (consistent_run es0 _ (consistent_initial h store)) as Hc.
  revert Hc. generalize (Frame.run es0 (Frame.initial h store)). intros s Hc H0 Ht.
  assert (exists n, k = termId n /\
            (n <= PtyManager.terminalCounter (Frame.main s))%nat) as Hi.
  { pose proof (ids_issued s Hc) as Hf. rewrite Forall_forall in Hf.
    destruct (Hf k) as (n & -> & Hn).
    - apply get_is_Some. by rewrite H0.
    - exists n. split; [done|lia]. }
  assert (shape t = shape t0) as Hs.
  { apply (issued_run (fun x => shape x = shape t0) k es s); try done.
    intros x Hx. rewrite H0 in Hx. by injection Hx as ->. }
  by injection Hs.
Qed.

Lemma X14_session_keeps_id_project_and_age_witness :
  projectPath (set_names "db" (Sample.session "term-1" "Terminal 1" true 10 None))
  = None.
Proof.
  assert (JsMap.get id "term-1"
            (terminals (Frame.renderer
               (Frame.run [Sample.at_time 10 (Frame.createSession Sample.noOptions)]
                  (Frame.initial (Some "/home/user") Missing))))
          = Some (Sample.session "term-1" "Terminal 1" true 10 None)) as H0
    by (vm_compute; reflexivity).
  assert (JsMap.get id "term-1"
            (terminals (Frame.renderer
               (Frame.run [Sample.at_time 15 (Frame.renameSession "term-1" "db");
                           Sample.at_time 20 (Frame.switchScope (Some "/A"))]
                  (Frame.run [Sample.at_time 10 (Frame.createSession Sample.noOptions)]
                     (Frame.initial (Some "/home/user") Missing)))))
          = Some (set_names "db"
                    (Sample.session "term-1" "Terminal 1" true 10 None))) as H1
    by (vm_compute; reflexivity).
  exact (proj1 (proj2 (X14_session_keeps_id_project_and_age (Some "/home/user") Missing
                  [Sample.at_time 10 (Frame.createSession Sample.noOptions)]
                  [Sample.at_time 15 (Frame.renameSession "term-1" "db");
                   Sample.at_time 20 (Frame.switchScope (Some "/A"))]
                  "term-1" _ _ H0 H1))).
Defined.

(** X15.  Once a live session is closed, no later operation brings its
    identifier back, in the store or in the registry. *)
Theorem X15_closed_session_never_returns h store es0 spawns now k es :
  let s := Frame.run es0 (Frame.initial h store) in
  JsMap.has id k (terminals (Frame.renderer s)) = true ->
  let s' := Frame.run es (Frame.step spawns now (Frame.closeSession k) s).1 in
  JsMap.has id k (terminals (Frame.renderer s')) = false /\
  PtyManager.hasTerminal k (Frame.main s') = false.
Proof.
  cbv zeta.
  pose proof (consistent_run es0 _ (consistent_initial h store)) as Hc.
  revert Hc. generalize (Frame.run es0 (Frame.initial h store)). intros s Hc Hh.
  pose proof (consistent_step spawns now (Frame.closeSession k) s Hc) as Hc1.
  pose proof (consistent_run es _ Hc1) as Hc2.
  assert (exists n, k = termId n /\
            (n <= PtyManager.terminalCounter (Frame.main s))%nat) as Hi.
  { pose proof (ids_issued s Hc) as Hf. rewrite Forall_forall in Hf.
    destruct (Hf k) as (n & -> & Hn).
    - by apply has_true.
    - exists n. split; [done|lia]. }
  assert (heldAt (fun _ => False) k
            (terminals (Frame.renderer
               (Frame.run es (Frame.step spawns now (Frame.closeSession k) s).1))))
    as Hnever.
  { apply issued_run; try done.
    - destruct Hi as (n & Hn & Hle). exists n. split; [done|].
      rewrite step_closeSession by done. rewrite Hh. cbn. lia.
    - rewrite step_closeSession by done. rewrite Hh. cbn [fst Frame.renderer].
      intros x Hx. cbn [terminals with_outbox] in Hx.
      by rewrite closeTerminal_gone in Hx. }
  assert (JsMap.has id k
            (terminals (Frame.renderer
               (Frame.run es (Frame.step spawns now (Frame.closeSession k) s).1)))
          = false) as Hgone.
  { unfold JsMap.has. destruct (JsMap.get id k _) as [x|] eqn:E; [|done].
    destruct (Hnever x E). }
  split; [exact Hgone|]. by rewrite consistent_has.
Qed.

Lemma X15_closed_session_never_returns_witness :
  PtyManager.hasTerminal "term-1"
    (Frame.main
       (Frame.run [Sample.at_time 30 (Frame.createSession Sample.noOptions)]
          (Frame.step true 20 (Frame.closeSession "term-1")
             (Frame.run [Sample.at_time 10 (Frame.createSession Sample.noOptions)]
                (Frame.initial (Some "/home/user") Missing))).1)) = false.
Proof.
  assert (JsMap.has id "term-1"
            (terminals (Frame.renderer
               (Frame.run [Sample.at_time 10 (Frame.createSession Sample.noOptions)]
                  (Frame.initial (Some "/home/user") Missing)))) = true) as Hh
    by (vm_compute; reflexivity).
  exact (proj2 (X15_closed_session_never_returns (Some "/home/user") Missing
                  [Sample.at_time 10 (Frame.createSession Sample.noOptions)]
                  true 20 "term-1"
                  [Sample.at_time 30 (Frame.createSession Sample.noOptions)] Hh)).
Defined.

End RunFacts.

(** ** Persistence of a scope *)

Section PersistFacts.
Import TerminalManager Spec Laws.
Implicit Types (t u : TerminalState) (l : list TerminalState) (tm : T)
  (p q : option string).

Lemma collectNames_snoc l t :
  collectNames (l ++ [t]) =
    match customName t with
    | Some n => if Js.truthy_string n then <[id t := n]> (collectNames l)
                else collectNames l
    | None => collectNames l
    end.
Proof. unfold collectNames. by rewrite foldl_app. Qed.

Lemma collectNames_spec l k n :
  NoDup (map id l) ->
  collectNames l !! k = Some n <->
  exists t, t ∈ l /\ id t = k /\ customName t = Some n /\ n <> EmptyString.
Proof.
  induction l as [|t l IH] using rev_ind; intros Hn.
  - unfold collectNames. simpl. rewrite lookup_empty. split; [done|].
    intros (t & Ht & _). by apply elem_of_nil in Ht.
  - rewrite map_app in Hn. apply NoDup_app in Hn as (Hl & Hfresh & _).
    specialize (IH Hl). rewrite collectNames_snoc.
    assert ((exists x, x ∈ l ++ [t] /\ id x = k /\ customName x = Some n /\
                       n <> EmptyString) <->
            (exists x, x ∈ l /\ id x = k /\ customName x = Some n /\
                       n <> EmptyString) \/
            (id t = k /\ customName t = Some n /\ n <> EmptyString)) as Hsplit.
    { split.
      - intros (x & Hx & H). apply elem_of_app in Hx as [Hx|Hx]; [left; eauto|].
        apply list_elem_of_singleton in Hx as ->. by right.
      - intros [(x & Hx & H)|H].
        + exists x. split; [apply elem_of_app; by left | done].
        + exists t. split; [apply elem_of_app; right; by apply list_elem_of_singleton
                          | done]. }
    rewrite Hsplit. clear Hsplit.
    assert (id t = k -> ~ exists x, x ∈ l /\ id x = k /\ customName x = Some n /\
                                    n <> EmptyString) as Hno.
    { intros <- (x & Hx & Hid & _). apply (Hfresh (id t)).
      - rewrite <- Hid. by apply (list_elem_of_fmap_2 id).
      - simpl. by apply list_elem_of_singleton. }
    destruct (customName t) as [c|] eqn:Ec.
    + destruct (Js.truthy_string c) eqn:Et.
      * destruct (decide (id t = k)) as [Hk|Hk].
        -- rewrite Hk, lookup_insert_eq. split.
           ++ intros [= ->]. right. split; [done|]. split; [done|].
              by apply truthy_string_true.
           ++ intros [H|(_ & [= ->] & _)]; [by destruct (Hno Hk)|done].
        -- rewrite lookup_insert_ne by done. rewrite IH. split; [by left|].
           intros [H|(H & _)]; [done | by destruct Hk].
      * rewrite IH. split; [by left|].
        intros [H|(_ & [= ->] & Hne)]; [done|].
        apply truthy_string_true in Hne. congruence.
    + rewrite IH. split; [by left|]. intros [H|(_ & H & _)]; [done|congruence].
Qed.

Lemma NoDup_scope p tm :
  JsMap.wf id (terminals tm) -> NoDup (map id (getTerminalsByProject p tm)).
Proof.
  intros Hwf. unfold getTerminalsByProject.
  assert (map id (sort_by_createdAt
                    (filter (fun t => projectPath t = p) (terminals tm)))
          ≡ₚ map id (filter (fun t => projectPath t = p) (terminals tm))) as Hp
    by (apply fmap_Permutation, sort_by_createdAt_perm).
  rewrite Hp. apply (sublist_NoDup _ (JsMap.keys id (terminals tm))); [exact Hwf|].
  unfold JsMap.keys. apply (fmap_sublist id), sublist_filter.
Qed.

Lemma savedSession_save p tm :
  JsMap.wf id (terminals tm) ->
  localStorage tm <> Malformed ->
  inScope p tm <> [] ->
  savedSession p (saveProjectSession p tm)
  = Some {| savedActiveTerminalId := activeTerminalId tm;
            savedViewMode := viewMode tm;
            savedGridLayout := gridLayout tm;
            terminalNames := collectNames (getTerminalsByProject p tm) |}.
Proof.
  intros Hwf Hread Hne. unfold saveProjectSession, savedSession.
  destruct (getTerminalsByProject p tm) as [|t0 l0] eqn:El.
  { by apply getTerminalsByProject_nil in El. }
  destruct (parseAllSessions (localStorage tm)) as [all|] eqn:Ep.
  2:{ by destruct (localStorage tm). }
  cbn [localStorage with_localStorage parseAllSessions].
  by rewrite lookup_insert_eq.
Qed.

Lemma savedSession_save_ne p q tm :
  sessionKey q <> sessionKey p ->
  savedSession q (saveProjectSession p tm) = savedSession q tm.
Proof.
  intros Hq. unfold saveProjectSession, savedSession.
  destruct (getTerminalsByProject p tm) as [|t0 l0]; [done|].
  destruct (parseAllSessions (localStorage tm)) as [all|] eqn:Ep.
  - cbn [localStorage with_localStorage parseAllSessions].
    by rewrite lookup_insert_ne.
  - by rewrite Ep.
Qed.

Lemma saveProjectSession_only_storage p tm :
  saveProjectSession p tm = with_localStorage (localStorage (saveProjectSession p tm)) tm.
Proof.
  unfold saveProjectSession.
  destruct (getTerminalsByProject p tm) as [|t0 l0]; [by destruct tm|].
  destruct (parseAllSessions (localStorage tm)); by destruct tm.
Qed.

(** X16.  With a readable [localStorage] and at least one session in the
    project, [saveProjectSession] stores under the project's key the active
    pointer, the view mode, the grid layout and the names of exactly those
    sessions of the project that have a non-empty custom name.  The
    records of the other keys and everything else in the store are left
    as they were.  The key is not [__proto__], which an assignment to a
    JavaScript object does not add as an entry. *)
Theorem X16_save_records_the_scope_it_leaves p tm :
  JsMap.wf id (terminals tm) ->
  localStorage tm <> Malformed ->
  sessionKey p <> "__proto__" ->
  inScope p tm <> [] ->
  let tm' := saveProjectSession p tm in
  (exists sd,
     savedSession p tm' = Some sd /\
     savedActiveTerminalId sd = activeTerminalId tm /\
     savedViewMode sd = viewMode tm /\
     savedGridLayout sd = gridLayout tm /\
     forall k n,
       terminalNames sd !! k = Some n <->
       exists t, t ∈ terminals tm /\ projectPath t = p /\ id t = k /\
                 customName t = Some n /\ n <> EmptyString) /\
  (forall q, sessionKey q <> sessionKey p -> savedSession q tm' = savedSession q tm) /\
  tm' = with_localStorage (localStorage tm') tm.
Proof.
  intros Hwf Hread _ Hne. cbv zeta. split; [|split].
  - eexists. split; [by apply savedSession_save|]. cbn.
    split; [done|]. split; [done|]. split; [done|].
    intros k n. rewrite (collectNames_spec _ k n (NoDup_scope p tm Hwf)).
    split.
    + intros (t & Ht & H). apply getTerminalsByProject_elem in Ht as [Ht Hp].
      by exists t.
    + intros (t & Ht & Hp & H). exists t. split; [|done].
      by apply getTerminalsByProject_elem.
  - intros q Hq. by apply savedSession_save_ne.
  - apply saveProjectSession_only_storage.
Qed.

Lemma X16_save_records_the_scope_it_leaves_witness :
  exists sd,
    savedSession None (saveProjectSession None Sample.twoTabs) = Some sd /\
    savedActiveTerminalId sd = Some "term-1".
Proof.
  assert (JsMap.wf id (terminals Sample.twoTabs)) as Hwf
    by (apply (bool_decide_unpack (NoDup _)); vm_compute; exact I).
  assert (localStorage Sample.twoTabs <> Malformed) as Hread by (vm_compute; discriminate).
  assert (sessionKey None <> "__proto__") as Hkey by (vm_compute; discriminate).
  assert (inScope None Sample.twoTabs <> []) as Hne by (vm_compute; discriminate).
  destruct (X16_save_records_the_scope_it_leaves None Sample.twoTabs Hwf Hread Hkey Hne)
    as ((sd & Hsd & Ha & _) & _).
  exists sd. split; [exact Hsd | exact Ha].
Defined.

Lemma view_notify tm :
  viewMode (_notifyStateChange tm) = viewMode tm /\
  gridLayout (_notifyStateChange tm) = gridLayout tm.
Proof. unfold _notifyStateChange. by destruct (onStateChange tm). Qed.

Lemma view_setActiveTerminal k tm :
  viewMode (setActiveTerminal k tm) = viewMode tm /\
  gridLayout (setActiveTerminal k tm) = gridLayout tm.
Proof.
  rewrite setActiveTerminal_eq.
  destruct (view_notify
    (with_terminals
       (JsMap.update id k (set_isActive true)
          (deactivate (activeTerminalId tm) (terminals tm)))
       (with_activeTerminalId (Some k) tm))) as [-> ->]. done.
Qed.

Lemma view_selectFirst p tm :
  viewMode (selectFirst p tm) = viewMode tm /\
  gridLayout (selectFirst p tm) = gridLayout tm.
Proof.
  unfold selectFirst. destruct (getTerminalsByProject p tm); [done|].
  apply view_setActiveTerminal.
Qed.

Lemma get_shape l l' k t :
  map shape l = map shape l' -> JsMap.get id k l = Some t ->
  exists x, JsMap.get id k l' = Some x /\ shape x = shape t.
Proof.
  unfold JsMap.get. revert l'.
  induction l as [|u l IH]; intros [|u' l'] H Hg; simpl in *; try done.
  injection H as Hi Hp Hc Hl. unfold JsMap.has_key in *. rewrite <- Hi.
  case_bool_decide.
  - injection Hg as <-. exists u'. split; [done|]. unfold shape. congruence.
  - by apply IH.
Qed.

(** What the restore step does with a readable record. *)
Lemma restore_with_record p tm sd :
  savedSession p tm = Some sd ->
  let tm' := restoreProjectSession p tm in
  viewMode tm'
    = (if Js.truthy_string (savedViewMode sd) then savedViewMode sd else viewMode tm) /\
  gridLayout tm'
    = (if Js.truthy_string (savedGridLayout sd) then savedGridLayout sd
       else gridLayout tm) /\
  forall a t,
    savedActiveTerminalId sd = Some a -> a <> EmptyString ->
    JsMap.get id a (terminals tm) = Some t -> projectPath t = p ->
    activeTerminalId tm' = Some a.
Proof.
  intros Hsd. cbv zeta. unfold savedSession in Hsd.
  unfold restoreProjectSession, tryRestore.
  destruct (parseAllSessions (localStorage tm)) as [all|]; [|done].
  rewrite Hsd.
  set (tm1 := if Js.truthy_string (savedViewMode sd)
              then with_viewMode (savedViewMode sd) tm else tm).
  set (tm2 := if Js.truthy_string (savedGridLayout sd)
              then with_gridLayout (savedGridLayout sd) tm1 else tm1).
  set (tm3 := with_terminals
                (restoreNames (terminalNames sd) (getTerminalsByProject p tm2)
                   (terminals tm2)) tm2).
  assert (viewMode tm3
          = (if Js.truthy_string (savedViewMode sd) then savedViewMode sd
             else viewMode tm)) as Hv.
  { unfold tm3, tm2, tm1.
    by destruct (Js.truthy_string (savedViewMode sd)),
                (Js.truthy_string (savedGridLayout sd)). }
  assert (gridLayout tm3
          = (if Js.truthy_string (savedGridLayout sd) then savedGridLayout sd
             else gridLayout tm)) as Hg.
  { unfold tm3, tm2, tm1.
    by destruct (Js.truthy_string (savedViewMode sd)),
                (Js.truthy_string (savedGridLayout sd)). }
  assert (map shape (terminals tm3) = map shape (terminals tm)) as Hs.
  { unfold tm3. cbn [terminals with_terminals]. rewrite shape_restoreNames.
    unfold tm2, tm1.
    by destruct (Js.truthy_string (savedViewMode sd)),
                (Js.truthy_string (savedGridLayout sd)). }
  assert (forall x,
            viewMode x = viewMode tm3 -> gridLayout x = gridLayout tm3 ->
            viewMode x
              = (if Js.truthy_string (savedViewMode sd) then savedViewMode sd
                 else viewMode tm) /\
            gridLayout x
              = (if Js.truthy_string (savedGridLayout sd) then savedGridLayout sd
                 else gridLayout tm)) as Hview by (intros x -> ->; done).
  pose proof (view_selectFirst p tm3) as [Hfv Hfg].
  destruct (savedActiveTerminalId sd) as [a|] eqn:Ea.
  2:{ split; [|split]; [by apply Hview.. | done]. }
  destruct (Js.truthy_string a) eqn:Eta.
  2:{ split; [|split]; [by apply Hview..|].
      intros a' t [= <-] Hne. apply truthy_string_true in Hne. congruence. }
  destruct (JsMap.get id a (terminals tm3)) as [x|] eqn:Ex.
  2:{ split; [|split]; [by apply Hview..|].
      intros a' t [= <-] _ Ht _.
      destruct (get_shape _ _ _ _ (eq_sym Hs) Ht) as (x & Hx & _). congruence. }
  destruct (decide (projectPath x = p)) as [Hp|Hp].
  - pose proof (view_setActiveTerminal a tm3) as [Hav Hag].
    split; [|split]; [by apply Hview..|].
    intros a' t [= <-] _ _ _. apply setActiveTerminal_activeTerminalId.
  - split; [|split]; [by apply Hview..|].
    intros a' t [= <-] _ Ht Htp.
    destruct (get_shape _ _ _ _ (eq_sym Hs) Ht) as (x' & Hx' & Hsx).
    rewrite Ex in Hx'. injection Hx' as <-. destruct Hp.
    unfold shape in Hsx. congruence.
Qed.

Lemma savedSession_with_currentProjectPath p x tm :
  savedSession p (with_currentProjectPath x tm) = savedSession p tm.
Proof. done. Qed.

Lemma savedSession_notify p tm :
  savedSession p (_notifyStateChange tm) = savedSession p tm.
Proof. unfold savedSession. by rewrite notify_localStorage. Qed.

Lemma setCurrentProject_storage q tm :
  localStorage (setCurrentProject q tm) = localStorage (leaving q tm).
Proof.
  rewrite setCurrentProject_leaving, notify_localStorage.
  apply restoreProjectSession_localStorage.
Qed.

(** X17.  Leaving a project that has sessions, changing the view mode and
    the grid layout in another project, and coming back restores the view
    mode and the grid layout the project had, and the active pointer when
    it named a session of the project, provided [localStorage] is readable,
    the two projects have different keys and the key of the project is not
    [__proto__]. *)
Theorem X17_leaving_and_returning_restores_the_view p q mode layout tm :
  JsMap.wf id (terminals tm) ->
  localStorage tm <> Malformed ->
  currentProjectPath tm = p ->
  sessionKey q <> sessionKey p ->
  sessionKey p <> "__proto__" ->
  inScope p tm <> [] ->
  viewMode tm <> EmptyString -> gridLayout tm <> EmptyString ->
  let away := setGridLayout layout (setViewMode mode (setCurrentProject q tm)) in
  let back := setCurrentProject p away in
  viewMode back = viewMode tm /\
  gridLayout back = gridLayout tm /\
  currentProjectPath back = p /\
  forall a t,
    activeTerminalId tm = Some a -> a <> EmptyString ->
    JsMap.get id a (terminals tm) = Some t -> projectPath t = p ->
    activeTerminalId back = Some a.
Proof.
  intros Hwf Hread Hcur Hkey _ Hne Hv Hg. cbv zeta.
  assert (q <> p) as Hqp by (intros ->; done).
  set (tm1 := setCurrentProject q tm).
  set (away := setGridLayout layout (setViewMode mode tm1)).
  assert (savedSession p tm1
          = Some {| savedActiveTerminalId := activeTerminalId tm;
                    savedViewMode := viewMode tm;
                    savedGridLayout := gridLayout tm;
                    terminalNames := collectNames (getTerminalsByProject p tm) |})
    as Hsaved.
  { unfold savedSession, tm1. rewrite setCurrentProject_storage.
    unfold leaving. cbn [localStorage with_currentProjectPath].
    rewrite Hcur. destruct (decide (p = q)) as [E|_]; [by destruct Hqp|].
    by apply savedSession_save. }
  assert (localStorage away = localStorage tm1) as Hst.
  { unfold away, setGridLayout, setViewMode. rewrite notify_localStorage.
    cbn [localStorage with_gridLayout]. by rewrite notify_localStorage. }
  assert (terminals away = terminals tm1) as Hts.
  { unfold away, setGridLayout, setViewMode. rewrite notify_terminals.
    cbn [terminals with_gridLayout]. by rewrite notify_terminals. }
  assert (currentProjectPath away = q) as Hcq.
  { unfold away, setGridLayout, setViewMode. rewrite notify_currentProjectPath.
    cbn [currentProjectPath with_gridLayout]. rewrite notify_currentProjectPath.
    cbn [currentProjectPath with_viewMode].
    apply setCurrentProject_currentProjectPath. }
  assert (savedSession p (leaving p away)
          = Some {| savedActiveTerminalId := activeTerminalId tm;
                    savedViewMode := viewMode tm;
                    savedGridLayout := gridLayout tm;
                    terminalNames := collectNames (getTerminalsByProject p tm) |})
    as Hrec.
  { unfold leaving. rewrite Hcq. destruct (decide (q = p)) as [E|_]; [done|].
    rewrite savedSession_with_currentProjectPath.
    rewrite savedSession_save_ne by done.
    unfold savedSession. rewrite Hst. exact Hsaved. }
  assert (map shape (terminals (leaving p away)) = map shape (terminals tm)) as Hsh.
  { rewrite leaving_terminals, Hts. apply shape_setCurrentProject. }
  rewrite (setCurrentProject_leaving p away).
  destruct (restore_with_record p (leaving p away) _ Hrec) as (Hrv & Hrg & Hra).
  cbn [savedViewMode savedGridLayout savedActiveTerminalId] in Hrv, Hrg, Hra.
  apply truthy_string_true in Hv, Hg. rewrite Hv in Hrv. rewrite Hg in Hrg.
  destruct (view_notify (restoreProjectSession p (leaving p away))) as [-> ->].
  rewrite notify_activeTerminalId.
  split; [exact Hrv|]. split; [exact Hrg|]. split.
  - rewrite <- (setCurrentProject_leaving p away).
    apply setCurrentProject_currentProjectPath.
  - intros a t Ha Hane Ht Hp.
    destruct (get_shape _ _ _ _ (eq_sym Hsh) Ht) as (x & Hx & Hsx).
    apply (Hra a x Ha Hane Hx). unfold shape in Hsx. congruence.
Qed.

Lemma X17_leaving_and_returning_restores_the_view_witness :
  viewMode
    (setCurrentProject None
       (setGridLayout "3x3" (setViewMode "grid"
          (setCurrentProject (Some "/B") Sample.twoTabs))))
  = "tabs".
Proof.
  assert (JsMap.wf id (terminals Sample.twoTabs)) as Hwf
    by (apply (bool_decide_unpack (NoDup _)); vm_compute; exact I).
  assert (localStorage Sample.twoTabs <> Malformed) as Hread by (vm_compute; discriminate).
  assert (currentProjectPath Sample.twoTabs = None) as Hcur by reflexivity.
  assert (sessionKey (Some "/B") <> sessionKey None) as Hkey
    by (vm_compute; discriminate).
  assert (sessionKey None <> "__proto__") as Hplain by (vm_compute; discriminate).
  assert (inScope None Sample.twoTabs <> []) as Hne by (vm_compute; discriminate).
  assert (viewMode Sample.twoTabs <> EmptyString) as Hv by (vm_compute; discriminate).
  assert (gridLayout Sample.twoTabs <> EmptyString) as Hg by (vm_compute; discriminate).
  exact (proj1 (X17_leaving_and_returning_restores_the_view None (Some "/B") "grid" "3x3"
                  Sample.twoTabs Hwf Hread Hcur Hkey Hplain Hne Hv Hg)).
Defined.

(** X18.  With a readable [localStorage], [clearProjectSession] removes
    the record of that project's key and no other, and changes nothing
    else in the store; a restore of the project then selects its oldest
    session (or none) and keeps the view mode and grid layout. *)
Theorem X18_clearing_forgets_only_that_scope p tm :
  localStorage tm <> Malformed ->
  let tm' := clearProjectSession p tm in
  savedSession p tm' = None /\
  (forall q, sessionKey q <> sessionKey p -> savedSession q tm' = savedSession q tm) /\
  tm' = with_localStorage (localStorage tm') tm /\
  restoreProjectSession p tm' = selectFirst p tm' /\
  viewMode (restoreProjectSession p tm') = viewMode tm /\
  gridLayout (restoreProjectSession p tm') = gridLayout tm.
Proof.
  intros Hread. cbv zeta. unfold clearProjectSession, savedSession.
  destruct (parseAllSessions (localStorage tm)) as [all|] eqn:Ep.
  2:{ by destruct (localStorage tm). }
  cbn [localStorage with_localStorage parseAllSessions].
  assert (restoreProjectSession p
            (with_localStorage (Stored (base.delete (sessionKey p) all)) tm)
          = selectFirst p
              (with_localStorage (Stored (base.delete (sessionKey p) all)) tm)) as Hr.
  { unfold restoreProjectSession, tryRestore.
    cbn [localStorage with_localStorage parseAllSessions].
    by rewrite lookup_delete_eq. }
  split; [apply lookup_delete_eq|]. split; [|split; [done|split; [exact Hr|]]].
  - intros q Hq. by rewrite lookup_delete_ne.
  - rewrite Hr.
    destruct (view_selectFirst p
      (with_localStorage (Stored (base.delete (sessionKey p) all)) tm)) as [-> ->].
    done.
Qed.

Lemma X18_clearing_forgets_only_that_scope_witness :
  savedSession (Some "/proj") (clearProjectSession (Some "/proj") Sample.staleStore)
  = None.
Proof.
  assert (localStorage Sample.staleStore <> Malformed) as Hread
    by (vm_compute; discriminate).
  exact (proj1 (X18_clearing_forgets_only_that_scope (Some "/proj") Sample.staleStore Hread)).
Defined.

(** X19.  Two project paths are persisted under the same key exactly when
    they are equal or both among [null], the empty string and the literal
    [__global__]. *)
Theorem X19_scopes_share_a_record_only_as_global_aliases p q :
  sessionKey p = sessionKey q <->
  p = q \/
  ((p = None \/ p = Some EmptyString \/ p = Some GLOBAL_PROJECT_KEY) /\
   (q = None \/ q = Some EmptyString \/ q = Some GLOBAL_PROJECT_KEY)).
Proof.
  unfold sessionKey, Js.or_default. split.
  - destruct p as [[|a p]|], q as [[|b q]|]; simpl; intros H;
      first [ by left; rewrite H
            | right; split; first [by left | by right; left
                                  | right; right; by rewrite H
                                  | right; right; by rewrite <- H] ].
  - intros [->|[Hp Hq]]; [done|].
    destruct Hp as [->|[->| ->]], Hq as [->|[->| ->]]; done.
Qed.

End PersistFacts.

(** ** Commands sent to the active session *)

Section CommandFacts.
Import TerminalManager Spec Laws.
Implicit Types (s : Frame.State).

Lemma writeToTerminal_queues tid data m :
  PtyManager.killed (PtyManager.writeToTerminal tid data m).2 = PtyManager.killed m /\
  PtyManager.sent (PtyManager.writeToTerminal tid data m).2 = PtyManager.sent m.
Proof.
  unfold PtyManager.writeToTerminal, PtyManager.bind, PtyManager.gets,
    PtyManager.modify, PtyManager.ret. simpl.
  by destruct (JsMap.get _ _ _).
Qed.

Lemma settle_input spawns now s a data :
  consistent s ->
  Frame.settle spawns now
    (Frame.on_renderer (ipcSend (IPC.TERMINAL_INPUT_ID a data)) s)
  = ({| Frame.main := (PtyManager.writeToTerminal a data (Frame.main s)).2;
        Frame.renderer := Frame.renderer s |}, []).
Proof.
  intros Hc.
  destruct (writeToTerminal_queues a data (Frame.main s)) as [Hk Hs].
  rewrite (quiet_killed _ Hc) in Hk. rewrite (quiet_sent _ Hc) in Hs.
  apply settle_one_round; cbn [Frame.main Frame.renderer];
    [|apply Hc|done|done].
  unfold Frame.round, Frame.run_main, Frame.run_renderer, Frame.on_renderer, ipcSend.
  cbn [Frame.main Frame.renderer outbox with_outbox].
  rewrite (quiet_outbox _ Hc).
  cbn [app Frame.handle_all foldl PtyManager.handle].
  rewrite exit_all_quiet by done. rewrite Hs, Hk.
  cbn [Frame.receive_all foldl fst snd].
  rewrite with_queues_id by done. f_equal. f_equal.
  pose proof (quiet_outbox _ Hc) as Ho. destruct (Frame.renderer s). simpl in *.
  by subst.
Qed.

(** X20.  After any run from start-up, [sendCommand] writes the command
    followed by a carriage return to the process of the session the
    pointer names, after its earlier input, and to no other process; the
    store is unchanged and no terminal is added or removed.  With a null
    pointer, or one that names no registered process, no process receives
    anything. *)
Theorem X20_command_reaches_only_the_active_process h store es spawns now command :
  let s := Frame.run es (Frame.initial h store) in
  let s' := (Terminal.sendCommand spawns now command s).1 in
  Frame.renderer s' = Frame.renderer s /\
  PtyManager.getTerminalIds (Frame.main s') = PtyManager.getTerminalIds (Frame.main s) /\
  forall k before,
    inputOf k (Frame.main s) = Some before ->
    inputOf k (Frame.main s')
    = Some (if decide (activeTerminalId (Frame.renderer s) = Some k)
            then before ++ [command +:+ String (Ascii.ascii_of_nat 13) EmptyString]
            else before).
Proof.
  cbv zeta.
  pose proof (consistent_run es _ (consistent_initial h store)) as Hc.
  revert Hc. generalize (Frame.run es (Frame.initial h store)). intros s Hc.
  unfold Terminal.sendCommand.
  assert (forall k, k ∈ ids (Frame.renderer s) -> k <> EmptyString) as Htruthy.
  { intros k Hk. pose proof (ids_issued s Hc) as Hf. rewrite Forall_forall in Hf.
    destruct (Hf k Hk) as (n & -> & _). apply truthy_string_true, termId_truthy. }
  assert (Frame.settle spawns now s = (s, [])) as Hquiet
    by (apply settle_quiet; apply Hc).
  assert (forall k before,
            inputOf k (Frame.main s) = Some before ->
            activeTerminalId (Frame.renderer s) = Some k -> k <> EmptyString) as Hlive.
  { intros k before Hin _. apply Htruthy. rewrite (same_ids s Hc).
    apply get_is_Some. unfold inputOf in Hin.
    by destruct (JsMap.get PtyManager.terminalId k _). }
  unfold sendCommand.
  destruct (activeTerminalId (Frame.renderer s)) as [a|] eqn:Ea.
  2:{ replace (Frame.on_renderer (fun tm => tm) s) with s by (by destruct s).
      assert (Frame.on_renderer
                (fun tm => match activeTerminalId tm with
                           | Some a =>
                               if Js.truthy_string a
                               then ipcSend (IPC.TERMINAL_INPUT_ID a
                                      (command +:+ String (Ascii.ascii_of_nat 13)
                                                     EmptyString)) tm
                               else tm
                           | None => tm
                           end) s = s) as ->.
      { unfold Frame.on_renderer. rewrite Ea. by destruct s. }
      rewrite Hquiet. cbn [fst]. split; [done|]. split; [done|].
      intros k before Hin. by rewrite decide_False. }
  destruct (Js.truthy_string a) eqn:Et.
  2:{ assert (Frame.on_renderer
                (fun tm => match activeTerminalId tm with
                           | Some a =>
                               if Js.truthy_string a
                               then ipcSend (IPC.TERMINAL_INPUT_ID a
                                      (command +:+ String (Ascii.ascii_of_nat 13)
                                                     EmptyString)) tm
                               else tm
                           | None => tm
                           end) s = s) as ->.
      { unfold Frame.on_renderer. rewrite Ea, Et. by destruct s. }
      rewrite Hquiet. cbn [fst]. split; [done|]. split; [done|].
      intros k before Hin. destruct (decide (Some a = Some k)) as [[= ->]|]; [|done].
      pose proof (Hlive k before Hin eq_refl) as Hne.
      apply truthy_string_true in Hne. congruence. }
  assert (Frame.on_renderer
            (fun tm => match activeTerminalId tm with
                       | Some a =>
                           if Js.truthy_string a
                           then ipcSend (IPC.TERMINAL_INPUT_ID a
                                  (command +:+ String (Ascii.ascii_of_nat 13)
                                                 EmptyString)) tm
                           else tm
                       | None => tm
                       end) s
          = Frame.on_renderer
              (ipcSend (IPC.TERMINAL_INPUT_ID a
                 (command +:+ String (Ascii.ascii_of_nat 13) EmptyString))) s) as ->.
  { unfold Frame.on_renderer. by rewrite Ea, Et. }
  rewrite settle_input by done. cbn [fst Frame.main Frame.renderer].
  split; [done|].
  unfold PtyManager.writeToTerminal, PtyManager.bind, PtyManager.gets,
    PtyManager.modify, PtyManager.ret. cbn [fst snd].
  destruct (JsMap.get PtyManager.terminalId a
              (PtyManager.ptyInstances (Frame.main s))) as [i|] eqn:Ei; cbn [snd].
  - split.
    + unfold PtyManager.getTerminalIds.
      cbn [PtyManager.ptyInstances PtyManager.with_instances].
      by rewrite keys_update.
    + intros k before Hin. unfold inputOf in *.
      cbn [PtyManager.ptyInstances PtyManager.with_instances].
      destruct (decide (Some a = Some k)) as [[= ->]|Hne].
      * rewrite get_update_eq by done. rewrite Ei in Hin |- *. simpl in *.
        by injection Hin as ->.
      * rewrite get_update_ne by (done || congruence). exact Hin.
  - split; [done|]. intros k before Hin.
    destruct (decide (Some a = Some k)) as [[= ->]|Hne]; [|done].
    unfold inputOf in Hin. by rewrite Ei in Hin.
Qed.

End CommandFacts.

(** ** The terminal UI *)

Section UiFacts.
Import TerminalManager Spec Laws MultiTerminalUI.
Implicit Types (t u : TerminalState) (l : list TerminalState) (tm : T).

Lemma shape_filter_scope p l l' :
  map shape l = map shape l' ->
  map shape (filter (fun t => projectPath t = p) l)
  = map shape (filter (fun t => projectPath t = p) l').
Proof.
  revert l'. induction l as [|t l IH]; intros [|t' l'] H; simpl in *; try done.
  injection H as Hi Hp Hc Hl.
  rewrite (filter_cons _ t), (filter_cons _ t'). rewrite <- Hp.
  destruct (decide (projectPath t = p)); simpl; rewrite (IH _ Hl); [|done].
  unfold shape. congruence.
Qed.

Lemma shape_insert_by_createdAt t t' l l' :
  shape t = shape t' -> map shape l = map shape l' ->
  map shape (insert_by_createdAt t l) = map shape (insert_by_createdAt t' l').
Proof.
  intros Ht. revert l'. induction l as [|u l IH]; intros [|u' l'] H; simpl in *;
    try done.
  - by rewrite Ht.
  - injection H as Hi Hp Hc Hl.
    assert (createdAt t = createdAt t') as -> by (by injection Ht).
    rewrite <- Hc. destruct (createdAt t' <=? createdAt u); simpl.
    + rewrite Ht. unfold shape at 2 4. by rewrite Hi, Hp, Hc, Hl.
    + rewrite (IH _ Hl). unfold shape at 1 3. by rewrite Hi, Hp, Hc.
Qed.

Lemma shape_sort_by_createdAt l l' :
  map shape l = map shape l' ->
  map shape (sort_by_createdAt l) = map shape (sort_by_createdAt l').
Proof.
  revert l'. induction l as [|t l IH]; intros [|t' l'] H; simpl in *; try done.
  injection H as Hi Hp Hc Hl.
  apply shape_insert_by_createdAt; [|by apply IH].
  unfold shape. congruence.
Qed.

Lemma shape_visible tm tm' :
  map shape (terminals tm') = map shape (terminals tm) ->
  currentProjectPath tm' = currentProjectPath tm ->
  map shape (getTerminalStates false tm') = map shape (getTerminalStates false tm).
Proof.
  intros Hs Hc. unfold getTerminalStates. rewrite Hc.
  by apply shape_sort_by_createdAt, shape_filter_scope.
Qed.

Lemma visible_ids_setActiveTerminal k tm :
  map id (getTerminalStates false (setActiveTerminal k tm))
  = map id (getTerminalStates false tm).
Proof.
  apply shape_ids, shape_visible.
  - apply shape_setActiveTerminal.
  - apply setActiveTerminal_currentProjectPath.
Qed.

Lemma visible_live tm t :
  t ∈ getTerminalStates false tm ->
  t ∈ terminals tm /\ projectPath t = currentProjectPath tm.
Proof.
  unfold getTerminalStates. rewrite elem_of_sort_by_createdAt.
  intros [Hp Hin]%list_elem_of_filter. done.
Qed.

(** The index chosen by [_switchTerminal] lies within the visible list. *)
Lemma switch_index_in_range (n current direction : Z) :
  1 < n ->
  let newIndex := current + direction in
  let newIndex := if newIndex <? 0 then n - 1 else newIndex in
  let newIndex := if n <=? newIndex then 0 else newIndex in
  0 <= newIndex < n.
Proof.
  intros Hn. cbv zeta.
  destruct (current + direction <? 0) eqn:E1.
  - destruct (n <=? n - 1) eqn:E2; [apply Z.leb_le in E2; lia | lia].
  - apply Z.ltb_ge in E1.
    destruct (n <=? current + direction) eqn:E2; [lia|].
    apply Z.leb_gt in E2. lia.
Qed.

(** X21.  [_switchTerminal] never fails on an index out of range, for any
    integer direction.  With at most one visible session it changes
    nothing; otherwise it activates a session that is visible, hence live
    and of the current project. *)
Theorem X21_switching_activates_a_visible_session direction tm :
  exists tm',
    _switchTerminal direction tm = Some tm' /\
    ((length (getTerminalStates false tm) <= 1)%nat -> tm' = tm) /\
    ((1 < length (getTerminalStates false tm))%nat ->
     exists t, t ∈ getTerminalStates false tm /\
               tm' = setActiveTerminal (id t) tm /\
               activeTerminalId tm' = Some (id t) /\
               t ∈ terminals tm /\ projectPath t = currentProjectPath tm).
Proof.
  unfold _switchTerminal.
  destruct (length (getTerminalStates false tm) <=? 1)%nat eqn:En.
  - apply Nat.leb_le in En. exists tm. split; [done|]. split; [done|lia].
  - apply Nat.leb_gt in En.
    pose proof (switch_index_in_range
                  (Z.of_nat (length (getTerminalStates false tm)))
                  (findIndex (activeTerminalId tm) (getTerminalStates false tm))
                  direction ltac:(lia)) as Hr.
    cbv zeta in Hr.
    set (j := if _ <=? _ then 0 else _) in *.
    destruct (j <? 0) eqn:Ej; [apply Z.ltb_lt in Ej; lia|].
    destruct (getTerminalStates false tm !! Z.to_nat j) as [t|] eqn:Et.
    2:{ apply lookup_ge_None in Et. lia. }
    exists (setActiveTerminal (id t) tm). split; [done|]. split; [lia|].
    intros _. exists t.
    assert (t ∈ getTerminalStates false tm) as Hin
      by (by eapply list_elem_of_lookup_2).
    split; [done|]. split; [done|].
    split; [apply setActiveTerminal_activeTerminalId|].
    by apply visible_live.
Qed.

Lemma findIndexFrom_spec i0 k l j :
  NoDup (map id l) -> map id l !! j = Some k ->
  findIndexFrom i0 (Some k) l = i0 + Z.of_nat j.
Proof.
  revert i0 j. induction l as [|t l IH]; intros i0 j Hn Hj; [done|].
  simpl in Hn. apply NoDup_cons in Hn as [Ht Hn]. simpl.
  destruct j as [|j]; simpl in Hj.
  - injection Hj as <-. rewrite decide_True by done. lia.
  - rewrite decide_False.
    + rewrite (IH (i0 + 1) j Hn Hj). lia.
    + intros [= E]. apply Ht. rewrite E. by eapply list_elem_of_lookup_2.
Qed.

Lemma NoDup_visibleIds tm : JsMap.wf id (terminals tm) -> NoDup (visibleIds tm).
Proof.
  intros Hwf. unfold visibleIds, getTerminalStates.
  assert (map id (sort_by_createdAt
                    (filter (fun t => projectPath t = currentProjectPath tm)
                       (terminals tm)))
          ≡ₚ map id (filter (fun t => projectPath t = currentProjectPath tm)
                       (terminals tm))) as Hp
    by (apply fmap_Permutation, sort_by_createdAt_perm).
  rewrite Hp. apply (sublist_NoDup _ (JsMap.keys id (terminals tm))); [exact Hwf|].
  unfold JsMap.keys. apply (fmap_sublist id), sublist_filter.
Qed.

Lemma wrapIndex_back n i d :
  1 < n -> 0 <= i < n -> d = 1 \/ d = -1 ->
  wrapIndex n (wrapIndex n (i + d) + - d) = i.
Proof.
  intros Hn Hi Hd. unfold wrapIndex.
  destruct (Z.ltb_spec (i + d) 0) as [H1|H1].
  - destruct (Z.leb_spec n (n - 1)) as [H2|H2]; [lia|].
    destruct (Z.ltb_spec (n - 1 + - d) 0) as [H3|H3]; [lia|].
    destruct (Z.leb_spec n (n - 1 + - d)) as [H4|H4]; lia.
  - destruct (Z.leb_spec n (i + d)) as [H2|H2].
    + destruct (Z.ltb_spec (0 + - d) 0) as [H3|H3].
      * destruct (Z.leb_spec n (n - 1)) as [H4|H4]; lia.
      * destruct (Z.leb_spec n (0 + - d)) as [H4|H4]; lia.
    + destruct (Z.ltb_spec (i + d + - d) 0) as [H3|H3]; [lia|].
      destruct (Z.leb_spec n (i + d + - d)) as [H4|H4]; lia.
Qed.

(** [_switchTerminal] from the visible session at index [i]. *)
Lemma switch_from_index direction tm a i k :
  JsMap.wf id (terminals tm) ->
  (1 < length (visibleIds tm))%nat ->
  activeTerminalId tm = Some a ->
  visibleIds tm !! i = Some a ->
  visibleIds tm
    !! Z.to_nat (wrapIndex (Z.of_nat (length (visibleIds tm)))
                   (Z.of_nat i + direction)) = Some k ->
  _switchTerminal direction tm = Some (setActiveTerminal k tm).
Proof.
  intros Hwf Hn Ha Hi Hk. unfold _switchTerminal, findIndex.
  unfold visibleIds in *. rewrite length_map in Hn, Hk.
  destruct (length (getTerminalStates false tm) <=? 1)%nat eqn:En;
    [apply Nat.leb_le in En; lia|].
  rewrite Ha.
  rewrite (findIndexFrom_spec 0 a _ i (NoDup_visibleIds tm Hwf) Hi).
  rewrite Z.add_0_l.
  fold (wrapIndex (Z.of_nat (length (getTerminalStates false tm)))
          (Z.of_nat i + direction)).
  pose proof (switch_index_in_range
                (Z.of_nat (length (getTerminalStates false tm))) (Z.of_nat i)
                direction ltac:(lia)) as Hr.
  cbv zeta in Hr.
  fold (wrapIndex (Z.of_nat (length (getTerminalStates false tm)))
          (Z.of_nat i + direction)) in Hr.
  destruct (wrapIndex _ _ <? 0) eqn:Ej; [apply Z.ltb_lt in Ej; lia|].
  rewrite list_lookup_fmap in Hk.
  destruct (getTerminalStates false tm !! _) as [t|]; [|done].
  simpl in Hk. by injection Hk as ->.
Qed.

(** X22.  When the active session is visible, switching to the next
    session and then to the previous one (or the other way round) ends on
    the session that was active, wrap-around included, and shows the same
    sessions in the same order. *)
Theorem X22_next_then_previous_returns direction tm a :
  JsMap.wf id (terminals tm) ->
  activeTerminalId tm = Some a ->
  a ∈ visibleIds tm ->
  direction = 1 \/ direction = -1 ->
  exists tm1 tm2,
    _switchTerminal direction tm = Some tm1 /\
    _switchTerminal (- direction) tm1 = Some tm2 /\
    activeTerminalId tm2 = Some a /\
    visibleIds tm2 = visibleIds tm.
Proof.
  intros Hwf Ha Hin Hd.
  destruct (decide (length (visibleIds tm) <= 1)%nat) as [Hn|Hn].
  - exists tm, tm. unfold _switchTerminal, visibleIds in *.
    rewrite length_map in Hn. apply Nat.leb_le in Hn. by rewrite Hn.
  - apply list_elem_of_lookup_1 in Hin as [i Hi].
    pose proof (lookup_lt_Some _ _ _ Hi) as Hlt.
    set (n := length (visibleIds tm)) in *.
    set (j := wrapIndex (Z.of_nat n) (Z.of_nat i + direction)).
    assert (0 <= j < Z.of_nat n) as Hj.
    { apply (switch_index_in_range (Z.of_nat n) (Z.of_nat i) direction). lia. }
    destruct (visibleIds tm !! Z.to_nat j) as [k|] eqn:Ek.
    2:{ apply lookup_ge_None in Ek. lia. }
    pose proof (switch_from_index direction tm a i k Hwf ltac:(lia) Ha Hi Ek) as H1.
    set (tm1 := setActiveTerminal k tm) in *.
    assert (visibleIds tm1 = visibleIds tm) as Hv1
      by apply visible_ids_setActiveTerminal.
    assert (JsMap.wf id (terminals tm1)) as Hwf1.
    { unfold JsMap.wf. fold (ids tm1). unfold tm1.
      rewrite setActiveTerminal_ids. exact Hwf. }
    assert (wrapIndex (Z.of_nat n) (Z.of_nat (Z.to_nat j) + - direction)
            = Z.of_nat i) as Hback.
    { rewrite Z2Nat.id by lia. unfold j. apply wrapIndex_back; [lia | lia | done]. }
    assert (_switchTerminal (- direction) tm1 = Some (setActiveTerminal a tm1)) as H2.
    { apply (switch_from_index (- direction) tm1 k (Z.to_nat j) a Hwf1).
      - rewrite Hv1. fold n. lia.
      - apply setActiveTerminal_activeTerminalId.
      - by rewrite Hv1.
      - rewrite Hv1. fold n. rewrite Hback, Nat2Z.id. exact Hi. }
    exists tm1, (setActiveTerminal a tm1).
    split; [exact H1|]. split; [exact H2|].
    split; [apply setActiveTerminal_activeTerminalId|].
    rewrite <- Hv1. apply visible_ids_setActiveTerminal.
Qed.

Lemma X22_next_then_previous_returns_witness :
  exists tm1 tm2,
    _switchTerminal 1 Sample.twoTabs = Some tm1 /\
    _switchTerminal (- (1)) tm1 = Some tm2 /\
    activeTerminalId tm2 = Some "term-1" /\
    visibleIds tm2 = visibleIds Sample.twoTabs.
Proof.
  assert (JsMap.wf id (terminals Sample.twoTabs)) as Hwf
    by (apply (bool_decide_unpack (NoDup _)); vm_compute; exact I).
  assert (activeTerminalId Sample.twoTabs = Some "term-1") as Ha by reflexivity.
  assert (visibleIds Sample.twoTabs = ["term-1"; "term-2"]) as Hv
    by (vm_compute; reflexivity).
  assert ("term-1" ∈ visibleIds Sample.twoTabs) as Hin
    by (rewrite Hv; apply list_elem_of_here).
  exact (X22_next_then_previous_returns 1 Sample.twoTabs "term-1" Hwf Ha Hin
           (or_introl eq_refl)).
Defined.

(** X23.  The shortcut with digit [d] between 1 and 9 activates the [d]-th
    oldest visible session, which is live; with fewer than [d] visible
    sessions, or another digit, it changes nothing. *)
Theorem X23_number_key_activates_the_nth_visible_session digit tm :
  let tm' := switchToNumber digit tm in
  (forall k,
     (1 <= digit <= 9)%nat -> visibleIds tm !! (digit - 1)%nat = Some k ->
     tm' = setActiveTerminal k tm /\ activeTerminalId tm' = Some k /\
     JsMap.has id k (terminals tm) = true) /\
  ((digit = 0 \/ 9 < digit \/ length (visibleIds tm) < digit)%nat -> tm' = tm).
Proof.
  cbv zeta. unfold switchToNumber, visibleIds. rewrite length_map. split.
  - intros k [H1 H9] Hk.
    apply Nat.leb_le in H1, H9. rewrite H1, H9. simpl.
    rewrite list_lookup_fmap in Hk.
    destruct (getTerminalStates false tm !! (digit - 1)%nat) as [t|] eqn:Et; [|done].
    simpl in Hk. injection Hk as <-.
    pose proof (lookup_lt_Some _ _ _ Et) as Hlt. apply Nat.ltb_lt in Hlt.
    rewrite Hlt. split; [done|]. split; [apply setActiveTerminal_activeTerminalId|].
    apply has_true. apply (list_elem_of_fmap_2 id).
    apply (visible_live tm t). by eapply list_elem_of_lookup_2.
  - intros Hout.
    destruct (1 <=? digit)%nat eqn:E1; [|done].
    destruct (digit <=? 9)%nat eqn:E9; [|done]. simpl.
    apply Nat.leb_le in E1, E9.
    destruct (digit - 1 <? length (getTerminalStates false tm))%nat eqn:El; [|done].
    apply Nat.ltb_lt in El. lia.
Qed.

(** X24.  The close shortcut never closes the last session: with at most
    one session in the store it changes nothing, a non-empty store stays
    non-empty, and the only session it can remove is the one the pointer
    names. *)
Theorem X24_close_shortcut_keeps_a_session tm :
  JsMap.wf id (terminals tm) ->
  let tm' := closeCurrent tm in
  ((length (terminals tm) <= 1)%nat -> tm' = tm) /\
  (terminals tm <> [] -> terminals tm' <> []) /\
  (forall k, k ∈ ids tm -> k ∉ ids tm' -> activeTerminalId tm = Some k).
Proof.
  intros Hwf. cbv zeta. unfold closeCurrent.
  destruct (activeTerminalId tm) as [a|] eqn:Ea; [|done].
  destruct (Js.truthy_string a); simpl; [|done].
  destruct (1 <? JsMap.size (terminals tm))%nat eqn:En; [|done].
  apply Nat.ltb_lt in En. unfold JsMap.size in En.
  split; [lia|]. split.
  - intros _ Hnil.
    destruct (JsMap.get id a (terminals tm)) as [t|] eqn:Eg.
    + pose proof (length_delete_known id a _ t Hwf Eg) as Hl.
      assert (length (JsMap.keys id (terminals (closeTerminal a tm)))
              = length (JsMap.keys id (JsMap.delete id a (terminals tm)))) as Hk.
      { fold (ids (closeTerminal a tm)). by rewrite closeTerminal_ids, keys_delete. }
      unfold JsMap.keys in Hk. rewrite !length_map, Hnil in Hk. simpl in Hk. lia.
    + rewrite closeTerminal_unknown in Hnil by done. rewrite Hnil in En.
      simpl in En. lia.
  - intros k Hk Hgone. rewrite closeTerminal_ids in Hgone.
    destruct (decide (k = a)) as [->|Hne]; [done|].
    destruct Hgone. by apply list_elem_of_filter.
Qed.

Lemma X24_close_shortcut_keeps_a_session_witness :
  terminals (closeCurrent Sample.twoTabs) <> [].
Proof.
  assert (JsMap.wf id (terminals Sample.twoTabs)) as Hwf
    by (apply (bool_decide_unpack (NoDup _)); vm_compute; exact I).
  destruct (X24_close_shortcut_keeps_a_session Sample.twoTabs Hwf) as (_ & Hkeep & _).
  apply Hkeep. vm_compute. discriminate.
Defined.

(** X25.  The view toggle goes from [tabs] to [grid] and from anything
    else to [tabs]; toggling twice gives back the view mode exactly when
    it was [tabs] or [grid], and leaves the sessions and the pointer as
    they were. *)
Theorem X25_toggling_twice_restores_tabs_or_grid tm :
  let once := toggleViewMode tm in
  let twice := toggleViewMode once in
  viewMode once = (if decide (viewMode tm = "tabs") then "grid" else "tabs") /\
  (viewMode twice = viewMode tm <-> viewMode tm = "tabs" \/ viewMode tm = "grid") /\
  terminals twice = terminals tm /\
  activeTerminalId twice = activeTerminalId tm.
Proof.
  cbv zeta.
  assert (forall x, viewMode (toggleViewMode x)
                    = (if decide (viewMode x = "tabs") then "grid" else "tabs")) as Hv.
  { intros x. unfold toggleViewMode, setViewMode.
    by destruct (view_notify
      (with_viewMode (if decide (viewMode x = "tabs") then "grid" else "tabs") x))
      as [-> _]. }
  split; [apply Hv|]. split; [|split].
  - rewrite !Hv. destruct (decide (viewMode tm = "tabs")) as [E|E].
    + rewrite decide_False by done. rewrite E. split; [by left|done].
    + rewrite decide_True by done. split; [by right|].
      intros [H|H]; [done|by rewrite H].
  - unfold toggleViewMode, setViewMode. rewrite notify_terminals.
    cbn [terminals with_viewMode]. by rewrite notify_terminals.
  - unfold toggleViewMode, setViewMode. rewrite notify_activeTerminalId.
    cbn [activeTerminalId with_viewMode]. by rewrite notify_activeTerminalId.
Qed.

Lemma visible_length tm :
  (length (getTerminalStates false tm) <= length (terminals tm))%nat.
Proof.
  unfold getTerminalStates. rewrite (sort_by_createdAt_perm _).
  apply length_filter.
Qed.

(** X26.  After any run from start-up the grid shows a prefix of the
    visible sessions, oldest first, and at most nine of them: as many as
    the layout has cells for a layout of [GRID_LAYOUTS], the first four
    for a name that is no property of [GRID_LAYOUTS] at all, and every
    visible session for [3x3]. *)
Theorem X26_grid_shows_the_oldest_sessions inherited h store es layout :
  let visible := Frame.getVisibleSessions (Frame.run es (Frame.initial h store)) in
  let shown := TerminalGrid.terminalsToShow inherited visible layout in
  shown `prefix_of` visible /\
  (length shown <= 9)%nat /\
  (forall config,
     TerminalGrid.ownLayout layout = Some config ->
     length shown
     = Nat.min (TerminalGrid.rows config * TerminalGrid.cols config) (length visible)) /\
  (TerminalGrid.ownLayout layout = None -> inherited layout = false ->
   shown = take 4 visible) /\
  (layout = "3x3" -> shown = visible).
Proof.
  cbv zeta. unfold Frame.getVisibleSessions.
  pose proof (consistent_run es _ (consistent_initial h store)) as Hc.
  assert (length (getTerminalStates false
                    (Frame.renderer (Frame.run es (Frame.initial h store)))) <= 9)%nat
    as Hcap.
  { etrans; [apply visible_length|]. rewrite <- (consistent_size _ Hc).
    apply (run_size es (Frame.initial h store)).
    unfold PtyManager.size, JsMap.size, PtyManager.MAX_TERMINALS. simpl. lia. }
  revert Hcap.
  generalize (getTerminalStates false
                (Frame.renderer (Frame.run es (Frame.initial h store)))).
  intros visible Hcap.
  assert (TerminalGrid.ownLayout "2x2"
          = Some {| TerminalGrid.rows := 2; TerminalGrid.cols := 2 |}) as E22
    by (vm_compute; reflexivity).
  assert (TerminalGrid.ownLayout "3x3"
          = Some {| TerminalGrid.rows := 3; TerminalGrid.cols := 3 |}) as E33
    by (vm_compute; reflexivity).
  unfold TerminalGrid.terminalsToShow. rewrite E22.
  cbn [TerminalGrid.rows TerminalGrid.cols].
  split; [|split; [|split; [|split]]].
  - destruct (TerminalGrid.ownLayout layout); [apply prefix_take|].
    destruct (inherited layout); [apply prefix_nil | apply prefix_take].
  - destruct (TerminalGrid.ownLayout layout);
      [rewrite length_take; lia|].
    destruct (inherited layout); [simpl; lia|].
    rewrite length_take. lia.
  - intros config ->. apply length_take.
  - by intros -> ->.
  - intros ->. rewrite E33. cbn [TerminalGrid.rows TerminalGrid.cols].
    apply take_ge. simpl. lia.
Qed.

(** X27.  Whenever the tab bar disables its new-terminal button,
    [createTerminal] would resolve [null]; when all sessions belong to the
    current project the converse holds too. *)
Theorem X27_disabled_new_button_means_refusal options tm :
  (TerminalTabBar.newButtonDisabled (snapshot tm) tm = true ->
   createTerminal options tm = (tm, Some ResolvedNull)) /\
  (allInCurrentScope tm ->
   createTerminal options tm = (tm, Some ResolvedNull) ->
   TerminalTabBar.newButtonDisabled (snapshot tm) tm = true).
Proof.
  unfold TerminalTabBar.newButtonDisabled, snapshot, createTerminal, JsMap.size.
  cbn [seenTerminals]. split.
  - intros H. apply Nat.leb_le in H.
    pose proof (visible_length tm) as Hv.
    assert ((maxTerminals tm <=? length (terminals tm))%nat = true) as ->
      by (apply Nat.leb_le; lia).
    done.
  - intros Hall H.
    destruct (maxTerminals tm <=? length (terminals tm))%nat eqn:E; [|done].
    apply Nat.leb_le in E. apply Nat.leb_le.
    unfold getTerminalStates. rewrite (sort_by_createdAt_perm _).
    rewrite filter_all; [done|]. intros t Ht. by apply Hall.
Qed.

(** X28.  Finishing a rename in the tab bar shows the trimmed input or,
    when that is empty, the name shown before; either way the session's
    custom name is set to what is shown, so a rename that was cancelled or
    left blank turns the shown name into a custom name.  A name that was
    not empty is never replaced by an empty one, and the session's
    identity and active flag are kept. *)
Theorem X28_finishing_a_rename_never_blanks_the_name terminalId trimmed tm t :
  JsMap.get id terminalId (terminals tm) = Some t ->
  let tm' := TerminalTabBar.finishRename terminalId trimmed (displayName t) tm in
  exists t',
    JsMap.get id terminalId (terminals tm') = Some t' /\
    displayName t'
      = (if Js.truthy_string trimmed then trimmed else displayName t) /\
    customName t' = Some (name t') /\
    (trimmed = EmptyString -> displayName t <> EmptyString ->
     customName t' = Some (displayName t)) /\
    (displayName t <> EmptyString -> displayName t' <> EmptyString) /\
    shape t' = shape t /\ isActive t' = isActive t.
Proof.
  intros Hg. cbv zeta. unfold TerminalTabBar.finishRename, renameTerminal.
  rewrite Hg, notify_terminals. cbn [terminals with_terminals].
  rewrite get_update_eq by done. rewrite Hg. cbn [fmap option_fmap option_map].
  assert (forall n, displayName (set_names n t) = n) as Hshown.
  { intros n. unfold displayName. cbn [customName name set_names]. by destruct n. }
  assert (Js.or_default (Some trimmed) (displayName t)
          = (if Js.truthy_string trimmed then trimmed else displayName t)) as Hnew
    by done.
  eexists. split; [done|]. rewrite Hshown, Hnew.
  split; [done|]. split; [done|]. split; [|split; [|done]].
  - by intros -> _.
  - intros Hd. destruct (Js.truthy_string trimmed) eqn:Et; [|done].
    by apply truthy_string_true.
Qed.

Lemma X28_finishing_a_rename_never_blanks_the_name_witness :
  exists t',
    JsMap.get id "term-2"
      (terminals (TerminalTabBar.finishRename "term-2" "" "Terminal 2" Sample.twoTabs))
    = Some t' /\
    customName t' = Some "Terminal 2".
Proof.
  assert (JsMap.get id "term-2" (terminals Sample.twoTabs)
          = Some (Sample.session "term-2" "Terminal 2" false 20 None)) as Hg
    by (vm_compute; reflexivity).
  destruct (X28_finishing_a_rename_never_blanks_the_name "term-2" "" Sample.twoTabs _ Hg)
    as (t' & Ht' & _ & _ & Hcancel & _).
  exists t'. split; [exact Ht'|]. apply Hcancel; [reflexivity | discriminate].
Defined.

Lemma restartTerminal_as_steps spawns now p s :
  consistent s ->
  Terminal.restartTerminal spawns now p s
  = Frame.step spawns now
      (Frame.createSession {| optCwd := None; optProjectPath := Some p;
                              optName := None |})
      (Frame.on_renderer (setCurrentProject p) s) /\
  consistent (Frame.on_renderer (setCurrentProject p) s).
Proof.
  intros Hc. split.
  - unfold Terminal.restartTerminal, MultiTerminalUI.restartTerminal,
      createTerminalForCurrentProject, getCurrentProject.
    cbn [Frame.step Frame.on_renderer Frame.main Frame.renderer optCwd optName].
    by rewrite setCurrentProject_currentProjectPath.
  - apply consistent_on_renderer; [done | apply sameWiring_setCurrentProject|].
    apply shape_ids, shape_setCurrentProject.
Qed.

(** X29.  After any run from start-up, [restartTerminal] makes the given
    project current.  Below the cap and when the spawn succeeds it then
    adds, last in the store, a session of that project created now, under
    the next identifier of the registry, whose process runs in the
    project's directory (the home directory for the global scope); at the
    cap it only switches the project and resolves [null]. *)
Theorem X29_restart_opens_a_terminal_in_the_project h store es now p :
  let s := Frame.run es (Frame.initial h store) in
  let tid := termId (S (PtyManager.terminalCounter (Frame.main s))) in
  ((length (terminals (Frame.renderer s)) < 9)%nat ->
   let r := Terminal.restartTerminal true now p s in
   r.2 = [Resolved tid] /\
   currentProjectPath (Frame.renderer r.1) = p /\
   (exists t, last (terminals (Frame.renderer r.1)) = Some t /\
              id t = tid /\ projectPath t = p /\ createdAt t = now) /\
   PtyHost.getTerminalInfo tid (Frame.main r.1)
   = Some {| PtyHost.infoCwd := Js.or_else p (PtyManager.home (Frame.main s));
             PtyHost.infoProjectPath := p |}) /\
  ((9 <= length (terminals (Frame.renderer s)))%nat ->
   forall spawns,
     Terminal.restartTerminal spawns now p s
     = (Frame.on_renderer (setCurrentProject p) s, [ResolvedNull])).
Proof.
  cbv zeta.
  pose proof (consistent_run es _ (consistent_initial h store)) as Hc.
  revert Hc. generalize (Frame.run es (Frame.initial h store)). intros s Hc.
  assert (length (terminals (setCurrentProject p (Frame.renderer s)))
          = length (terminals (Frame.renderer s))) as Hlen.
  { rewrite <- (length_map shape), shape_setCurrentProject. apply length_map. }
  split.
  - intros Hcap.
    destruct (restartTerminal_as_steps true now p s Hc) as [-> Hc1].
    rewrite step_createSession by done.
    cbn [Frame.on_renderer Frame.main Frame.renderer]. rewrite Hlen.
    assert ((9 <=? length (terminals (Frame.renderer s)))%nat = false) as ->
      by (apply Nat.leb_gt; lia).
    cbn [fst snd Frame.main Frame.renderer].
    set (tid := termId (S (PtyManager.terminalCounter (Frame.main s)))).
    set (r1 := setCurrentProject p (Frame.renderer s)).
    set (opts := {| optCwd := None; optProjectPath := Some p; optName := None |}).
    pose proof (consistent_next_fresh _ Hc1) as Hfresh.
    cbn [Frame.on_renderer Frame.main Frame.renderer] in Hfresh.
    fold tid r1 in Hfresh. apply get_None in Hfresh.
    destruct (_initializeTerminal_fresh tid (passedOptions opts r1) now r1 Hfresh)
      as (Hts & _).
    split; [done|]. split; [|split].
    + rewrite initializeTerminal_currentProjectPath.
      apply setCurrentProject_currentProjectPath.
    + rewrite Hts, last_snoc. eexists. split; [done|]. done.
    + unfold PtyHost.getTerminalInfo, spawned.
      cbn [PtyManager.ptyInstances PtyManager.with_instances PtyManager.with_counter
           PtyManager.terminalCounter PtyManager.home].
      fold tid.
      rewrite (get_set_eq PtyManager.terminalId
        {| PtyManager.terminalId := tid;
           PtyManager.cwd :=
             Js.or_else (Js.or_else (Js.or_else (optCwd opts)
                                       (resolveProjectPath opts r1)) None)
               (PtyManager.home (Frame.main s));
           PtyManager.projectPath := resolveProjectPath opts r1;
           PtyManager.written := []; PtyManager.cols := 80; PtyManager.rows := 24 |}).
      cbn. f_equal. f_equal. unfold Js.or_else. simpl.
      destruct (Js.truthy p) eqn:Ep; [by rewrite Ep | done].
  - intros Hcap spawns.
    destruct (restartTerminal_as_steps spawns now p s Hc) as [-> Hc1].
    rewrite step_createSession by done.
    cbn [Frame.on_renderer Frame.main Frame.renderer]. rewrite Hlen.
    by assert ((9 <=? length (terminals (Frame.renderer s)))%nat = true) as ->
      by (apply Nat.leb_le; lia).
Qed.


End UiFacts.
